(** * student-app-api: ownership, label resolution and list filtering

    A shallow embedding of [core/models.py], [student/serializers.py] and
    [student/views.py].  The database is an explicit value ([DB]); every
    view action is a function of the request and the database.  Actions
    that write are computations in a state monad whose state survives an
    exception: with Django's default, autocommit, rows written before an
    exception stay written.

    Library behaviour the source relies on (the Django ORM, the REST
    framework's router, generic views and serializers, Python's [int] and
    [str.split]) is modelled by the definitions of the first part, each
    named after the library function it stands for.  Requests are
    authenticated ([IsAuthenticated] answers 401 before any code of the
    views runs otherwise); the framework's defaults are assumed where the
    sources set nothing (no pagination, no filter backend).

    The second part states and proves the properties: first the
    querysets (C4, C5, C6, C9, C10), then label resolution (C2), the
    write path of a Student and the integrity of the store (C8, C3), the
    projections (C7) and the isolation between owners (C1).

    The third part goes through the rest of the code: what every request
    keeps (X1 to X5, X13), the actions of the two viewsets one by one (X6
    to X12, X14 to X16, X22 to X26), the conversion of the filter ids
    (X17, X18), the path of an uploaded image (X19) and the user manager
    (X20, X21). *)

From Stdlib Require Import ZArith List String Ascii Bool Lia.
From Stdlib Require Import Sorting.Sorted Permutation.
Import ListNotations.

Local Open Scope string_scope.
Local Open Scope list_scope.
Local Open Scope Z_scope.

Set Implicit Arguments.

(** ** Exceptions and results *)

(** The exceptions the modelled code can raise.  [Http404],
    [ValidationError] and [MethodNotAllowed] are handled by the REST
    framework and become 4xx responses; the other three are not handled and
    become a 500 response. *)
Inductive Error : Type :=
| ValueError
| MultipleObjectsReturned
| IntegrityError
| Http404
| ValidationError (fields : list string)
| MethodNotAllowed.

Inductive result (A : Type) : Type :=
| Ok (a : A)
| Err (e : Error).
Arguments Ok {A} a.
Arguments Err {A} e.

Definition status_code (e : Error) : Z :=
  match e with
  | Http404 => 404
  | ValidationError _ => 400
  | MethodNotAllowed => 405
  | ValueError | MultipleObjectsReturned | IntegrityError => 500
  end.

Definition is_validation_error (e : Error) : bool :=
  match e with ValidationError _ => true | _ => false end.

Definition rbind {A B} (r : result A) (f : A -> result B) : result B :=
  match r with Ok a => f a | Err e => Err e end.

(** A list comprehension whose body can raise: the first exception wins. *)
Fixpoint mapM {A B} (f : A -> result B) (l : list A) : result (list B) :=
  match l with
  | [] => Ok []
  | x :: l' =>
      rbind (f x) (fun y => rbind (mapM f l') (fun ys => Ok (y :: ys)))
  end.

(** ** Python built-ins *)

Module Python.

Definition is_digit (c : ascii) : bool :=
  let n := N_of_ascii c in ((48 <=? n) && (n <=? 57))%N.

Definition digit_value (c : ascii) : Z := Z.of_N (N_of_ascii c) - 48.

(** The ASCII characters for which [str.isspace] holds. *)
Definition is_space (c : ascii) : bool :=
  let n := N_of_ascii c in
  (((9 <=? n) && (n <=? 13)) || ((28 <=? n) && (n <=? 32)))%N.

Fixpoint lstrip (s : string) : string :=
  match s with
  | String c r => if is_space c then lstrip r else s
  | EmptyString => EmptyString
  end.

Fixpoint rstrip (s : string) : string :=
  match s with
  | String c r =>
      match rstrip r with
      | EmptyString => if is_space c then EmptyString else String c EmptyString
      | r' => String c r'
      end
  | EmptyString => EmptyString
  end.

Definition strip (s : string) : string := rstrip (lstrip s).

(** Decimal digits, with single underscores allowed between digits. *)
Fixpoint digits (acc : Z) (after_digit : bool) (s : string) : option Z :=
  match s with
  | EmptyString => if after_digit then Some acc else None
  | String c r =>
      if is_digit c then digits (10 * acc + digit_value c) true r
      else if Ascii.eqb c "_"%char
           then (if after_digit then digits acc false r else None)
           else None
  end.

(** [int(s)] for a [str] argument, base 10; [None] stands for
    [ValueError].  Strings are byte strings here: the non-ASCII decimal
    digits and spaces Python also accepts are not digits of the model, and
    the interpreter's cap on the number of digits is left out. *)
Definition int (s : string) : option Z :=
  match strip s with
  | String "+" r => digits 0 false r
  | String "-" r => option_map Z.opp (digits 0 false r)
  | r => digits 0 false r
  end.

(** [s.split(',')]: never empty; [''.split(',') == ['']]. *)
Fixpoint split_comma (s : string) : list string :=
  match s with
  | EmptyString => [EmptyString]
  | String c r =>
      if Ascii.eqb c ","%char then EmptyString :: split_comma r
      else match split_comma r with
           | h :: t => String c h :: t
           | [] => [String c EmptyString]
           end
  end.

(** Truth value of an optional string ([None] and [''] are falsy). *)
Definition truthy (o : option string) : bool :=
  match o with
  | None => false
  | Some s => negb (String.eqb s "")
  end.

End Python.

(** ** core/models.py *)

(** [Student]; [s_user] is the foreign key to the owner, [s_image] the
    nullable image reference.  The two many-to-many fields live in the
    association tables of [DB]. *)
Record Student : Type := {
  s_id : Z;
  s_user : Z;
  s_name : string;
  s_email : string;
  s_address : string;
  s_birthday : string;
  s_link : string;
  s_image : option string
}.

(** [Tag] and [Course] have the same columns. *)
Record Label : Type := {
  l_id : Z;
  l_title : string;
  l_user : Z
}.

Definition Tag := Label.
Definition Course := Label.

Inductive LabelKind : Type := KTag | KCourse.

(** The tables, in row order, and the primary-key sequences. *)
Record DB : Type := {
  students : list Student;
  tags : list Tag;
  courses : list Course;
  student_tags : list (Z * Z);
  student_courses : list (Z * Z);
  next_student_id : Z;
  next_tag_id : Z;
  next_course_id : Z
}.

Definition labels (k : LabelKind) (db : DB) : list Label :=
  match k with KTag => tags db | KCourse => courses db end.

(** Rows [(student_id, label_id)] of the association table of kind [k]. *)
Definition links (k : LabelKind) (db : DB) : list (Z * Z) :=
  match k with KTag => student_tags db | KCourse => student_courses db end.

Definition next_label_id (k : LabelKind) (db : DB) : Z :=
  match k with KTag => next_tag_id db | KCourse => next_course_id db end.

Definition set_students (l : list Student) (db : DB) : DB :=
  {| students := l; tags := tags db; courses := courses db;
     student_tags := student_tags db; student_courses := student_courses db;
     next_student_id := next_student_id db; next_tag_id := next_tag_id db;
     next_course_id := next_course_id db |}.

Definition set_next_student_id (n : Z) (db : DB) : DB :=
  {| students := students db; tags := tags db; courses := courses db;
     student_tags := student_tags db; student_courses := student_courses db;
     next_student_id := n; next_tag_id := next_tag_id db;
     next_course_id := next_course_id db |}.

Definition set_labels (k : LabelKind) (l : list Label) (db : DB) : DB :=
  match k with
  | KTag =>
      {| students := students db; tags := l; courses := courses db;
         student_tags := student_tags db; student_courses := student_courses db;
         next_student_id := next_student_id db; next_tag_id := next_tag_id db;
         next_course_id := next_course_id db |}
  | KCourse =>
      {| students := students db; tags := tags db; courses := l;
         student_tags := student_tags db; student_courses := student_courses db;
         next_student_id := next_student_id db; next_tag_id := next_tag_id db;
         next_course_id := next_course_id db |}
  end.

Definition set_links (k : LabelKind) (l : list (Z * Z)) (db : DB) : DB :=
  match k with
  | KTag =>
      {| students := students db; tags := tags db; courses := courses db;
         student_tags := l; student_courses := student_courses db;
         next_student_id := next_student_id db; next_tag_id := next_tag_id db;
         next_course_id := next_course_id db |}
  | KCourse =>
      {| students := students db; tags := tags db; courses := courses db;
         student_tags := student_tags db; student_courses := l;
         next_student_id := next_student_id db; next_tag_id := next_tag_id db;
         next_course_id := next_course_id db |}
  end.

Definition set_next_label_id (k : LabelKind) (n : Z) (db : DB) : DB :=
  match k with
  | KTag =>
      {| students := students db; tags := tags db; courses := courses db;
         student_tags := student_tags db; student_courses := student_courses db;
         next_student_id := next_student_id db; next_tag_id := n;
         next_course_id := next_course_id db |}
  | KCourse =>
      {| students := students db; tags := tags db; courses := courses db;
         student_tags := student_tags db; student_courses := student_courses db;
         next_student_id := next_student_id db; next_tag_id := next_tag_id db;
         next_course_id := n |}
  end.

Definition other (k : LabelKind) : LabelKind :=
  match k with KTag => KCourse | KCourse => KTag end.

(** ** The state monad of the write paths *)

Definition M (A : Type) : Type := DB -> DB * result A.

Definition ret {A} (a : A) : M A := fun db => (db, Ok a).

Definition raise {A} (e : Error) : M A := fun db => (db, Err e).

Definition bind {A B} (m : M A) (f : A -> M B) : M B :=
  fun db =>
    match m db with
    | (db', Ok a) => f a db'
    | (db', Err e) => (db', Err e)
    end.

(** A read-only query run inside a write path. *)
Definition query {A} (q : DB -> result A) : M A := fun db => (db, q db).

Definition modify (f : DB -> DB) : M unit := fun db => (f db, Ok tt).

Declare Scope m_scope.
Delimit Scope m_scope with m.
Notation "x <- m ;; k" := (bind m (fun x => k))
  (at level 61, m at next level, right associativity) : m_scope.
Notation "m ;;; k" := (bind m (fun _ => k))
  (at level 61, right associativity) : m_scope.

(** ** The ORM operations the source calls *)

Module ORM.

Definition Student_eq_dec (a b : Student) : {a = b} + {a <> b}.
Proof.
  repeat decide equality; solve [apply Z.eq_dec | apply string_dec].
Defined.

Definition Label_eq_dec (a b : Label) : {a = b} + {a <> b}.
Proof.
  repeat decide equality.
Defined.

(** [order_by]: a stable insertion sort; [before a b] says that [a] may
    stand before [b]. *)
Section OrderBy.
Context {A : Type} (before : A -> A -> bool).

Fixpoint insert (x : A) (l : list A) : list A :=
  match l with
  | [] => [x]
  | y :: l' => if before x y then x :: l else y :: insert x l'
  end.

Definition order_by (l : list A) : list A := fold_right insert [] l.
End OrderBy.

(** [order_by('-id')] and [order_by('-title')].  Titles are compared
    byte-wise. *)
Definition id_desc (a b : Student) : bool := s_id b <=? s_id a.
Definition title_desc (a b : Label) : bool := String.leb (l_title b) (l_title a).

(** [distinct()]: [SELECT DISTINCT] over all columns of the row. *)
Definition distinct_students : list Student -> list Student := nodup Student_eq_dec.
Definition distinct_labels : list Label -> list Label := nodup Label_eq_dec.

(** [filter(tags__id__in=ids)] (resp. [courses__id__in]): the inner join
    of the queryset with the association table, one output row per
    matching association row. *)
Definition filter_label_id_in (k : LabelKind) (ids : list Z) (db : DB)
    (qs : list Student) : list Student :=
  flat_map
    (fun s =>
       map (fun _ => s)
         (filter
            (fun r => (fst r =? s_id s) && existsb (Z.eqb (snd r)) ids)
            (links k db)))
    qs.

(** [filter(student__isnull=False)]: the inner join of a label queryset
    with its association table. *)
Definition filter_student_notnull (k : LabelKind) (db : DB)
    (qs : list Label) : list Label :=
  flat_map
    (fun l => map (fun _ => l) (filter (fun r => snd r =? l_id l) (links k db)))
    qs.

Definition filter_student_user (u : Z) (qs : list Student) : list Student :=
  filter (fun s => s_user s =? u) qs.

Definition filter_label_user (u : Z) (qs : list Label) : list Label :=
  filter (fun l => l_user l =? u) qs.

(** [queryset.get(pk=pk)]. *)
Definition get_student (pk : Z) (qs : list Student) : result Student :=
  match filter (fun s => s_id s =? pk) qs with
  | [] => Err Http404
  | [s] => Ok s
  | _ => Err MultipleObjectsReturned
  end.

Definition get_label (pk : Z) (qs : list Label) : result Label :=
  match filter (fun l => l_id l =? pk) qs with
  | [] => Err Http404
  | [l] => Ok l
  | _ => Err MultipleObjectsReturned
  end.

(** [Tag.objects.get_or_create(user=user, title=title)] (resp. [Course]):
    [get] with the two lookups; one match is returned, no match inserts a
    row with the next primary key, several matches raise. *)
Definition get_or_create (k : LabelKind) (user : Z) (title : string)
    : M (Label * bool) :=
  fun db =>
    match filter (fun l => (l_user l =? user) && String.eqb (l_title l) title)
                 (labels k db) with
    | [] =>
        let l := {| l_id := next_label_id k db; l_title := title; l_user := user |} in
        (set_next_label_id k (next_label_id k db + 1)
           (set_labels k (labels k db ++ [l]) db),
         Ok (l, true))
    | [l] => (db, Ok (l, false))
    | _ => (db, Err MultipleObjectsReturned)
    end.

(** [student.tags.add(obj)]: inserts the association row unless it is
    there already. *)
Definition add (k : LabelKind) (student_id label_id : Z) : M unit :=
  modify (fun db =>
    if existsb (fun r => (fst r =? student_id) && (snd r =? label_id)) (links k db)
    then db
    else set_links k (links k db ++ [(student_id, label_id)]) db).

(** [student.tags.clear()]: deletes the student's association rows. *)
Definition clear (k : LabelKind) (student_id : Z) : M unit :=
  modify (fun db =>
    set_links k (filter (fun r => negb (fst r =? student_id)) (links k db)) db).

(** [instance.save()] of a loaded instance: [UPDATE ... WHERE id = pk]. *)
Definition save_student (inst : Student) : M unit :=
  modify (fun db =>
    set_students
      (map (fun s => if s_id s =? s_id inst then inst else s) (students db)) db).

Definition save_label (k : LabelKind) (inst : Label) : M unit :=
  modify (fun db =>
    set_labels k
      (map (fun l => if l_id l =? l_id inst then inst else l) (labels k db)) db).

(** [instance.delete()]: the row and, by cascade, its association rows. *)
Definition delete_student (inst : Student) : M unit :=
  modify (fun db =>
    let drop := filter (fun r : Z * Z => negb (fst r =? s_id inst)) in
    set_students (filter (fun s => negb (s_id s =? s_id inst)) (students db))
      (set_links KTag (drop (links KTag db))
         (set_links KCourse (drop (links KCourse db)) db))).

Definition delete_label (k : LabelKind) (inst : Label) : M unit :=
  modify (fun db =>
    set_labels k (filter (fun l => negb (l_id l =? l_id inst)) (labels k db))
      (set_links k (filter (fun r => negb (snd r =? l_id inst)) (links k db)) db)).

(** [student.tags.all()]: the labels joined to the student, each once. *)
Definition related (k : LabelKind) (student_id : Z) (db : DB) : list Label :=
  filter
    (fun l => existsb (fun r => (fst r =? student_id) && (snd r =? l_id l)) (links k db))
    (labels k db).

End ORM.

(** ** Requests and responses *)

#[warnings="-register-all"]
Inductive JSON : Type :=
| JNull
| JInt (n : Z)
| JStr (s : string)
| JList (l : list JSON)
| JObj (o : list (string * JSON)).

Record Response : Type := { status : Z; data : JSON }.

(** [QueryDict.get(key)]: the last value given for the key. *)
Fixpoint QueryDict_get (key : string) (q : list (string * string)) : option string :=
  match q with
  | [] => None
  | (k, v) :: r =>
      match QueryDict_get key r with
      | Some v' => Some v'
      | None => if String.eqb k key then Some v else None
      end
  end.

(** An authenticated request: [request.user] and [request.query_params]. *)
Record Request : Type := {
  user : Z;
  query_params : list (string * string)
}.

(** A field of a request body as the framework's field validator judges
    it: valid with its cleaned value, or invalid (for a required key of a
    nested object, [Invalid] also stands for its absence). *)
Inductive Field (A : Type) : Type :=
| Valid (a : A)
| Invalid.
Arguments Valid {A} a.
Arguments Invalid {A}.

(** A label descriptor of a request body: [{"id": ..., "title": ...}]. *)
Record LabelData : Type := {
  ld_id : option Z;
  ld_title : Field string
}.

(** The body of a Student request; [None] is an absent key.  Keys outside
    this record play no role. *)
Record StudentData : Type := {
  d_id : option Z;
  d_user : option Z;
  d_name : option (Field string);
  d_email : option (Field string);
  d_address : option (Field string);
  d_birthday : option (Field string);
  d_link : option (Field string);
  d_image : option (Field (option string));
  d_tags : option (list LabelData);
  d_courses : option (list LabelData)
}.

(** The body of a Tag or Course request. *)
Record LabelUpdate : Type := {
  lu_id : option Z;
  lu_user : option Z;
  lu_title : option (Field string)
}.

(** [serializer.validated_data] of a Student serializer: a dict over the
    model's attribute names; a label descriptor [{'title': t}] is its
    title. *)
Record validated_data : Type := {
  v_user : option Z;
  v_name : option string;
  v_email : option string;
  v_address : option string;
  v_birthday : option string;
  v_link : option string;
  v_image : option (option string);
  v_tags : option (list string);
  v_courses : option (list string)
}.

(** ** student/serializers.py *)

(** The [Meta] of a model serializer; [extra_required] lists the fields
    that [extra_kwargs] makes required. *)
Record Meta : Type := {
  fields : list string;
  read_only_fields : list string;
  extra_required : list string
}.

(** A serializer class for Students: its [Meta] and its [create] and
    [update] methods (the first argument is
    [self.context['request'].user]). *)
Record SerializerClass : Type := {
  meta : Meta;
  create_method : Z -> validated_data -> M Student;
  update_method : Z -> Student -> validated_data -> M Student
}.

Definition mem (f : string) (l : list string) : bool := existsb (String.eqb f) l.

Definition writable (m : Meta) (f : string) : bool :=
  mem f (fields m) && negb (mem f (read_only_fields m)).

(** The serializer's field dict is keyed by name: a name listed twice is
    one field, at its first position. *)
Fixpoint field_names (l : list string) : list string :=
  match l with
  | [] => []
  | f :: l' => f :: filter (fun g => negb (String.eqb g f)) (field_names l')
  end.

Module CourseSerializer.
Definition Meta : Meta :=
  {| fields := ["id"; "title"]; read_only_fields := ["id"]; extra_required := [] |}.
End CourseSerializer.

Module TagSerializer.
Definition Meta : Meta :=
  {| fields := ["id"; "title"]; read_only_fields := ["id"]; extra_required := [] |}.
End TagSerializer.

(** What [ModelSerializer] does for every serializer of the file. *)
Module ModelSerializer.

Definition label_representation (l : Label) : JSON :=
  JObj [("id", JInt (l_id l)); ("title", JStr (l_title l))].

Definition student_field (db : DB) (s : Student) (f : string) : option JSON :=
  if String.eqb f "id" then Some (JInt (s_id s))
  else if String.eqb f "name" then Some (JStr (s_name s))
  else if String.eqb f "email" then Some (JStr (s_email s))
  else if String.eqb f "address" then Some (JStr (s_address s))
  else if String.eqb f "birthday" then Some (JStr (s_birthday s))
  else if String.eqb f "link" then Some (JStr (s_link s))
  else if String.eqb f "image" then
    Some (match s_image s with Some p => JStr p | None => JNull end)
  else if String.eqb f "tags" then
    Some (JList (map label_representation (ORM.related KTag (s_id s) db)))
  else if String.eqb f "courses" then
    Some (JList (map label_representation (ORM.related KCourse (s_id s) db)))
  else None.

(** [serializer.data] of a Student: one entry per field of [Meta]. *)
Definition to_representation (m : Meta) (db : DB) (s : Student) : list (string * JSON) :=
  flat_map
    (fun f => match student_field db s f with Some v => [(f, v)] | None => [] end)
    (field_names (fields m)).

(** One writable field of the body: the names of the fields in error and
    the validated value, if any.  A field outside [Meta.fields] or
    read-only is not looked at. *)
Definition run_field {A} (m : Meta) (partial required : bool) (name : string)
    (x : option (Field A)) : list string * option A :=
  if writable m name then
    match x with
    | None => if required && negb partial then ([name], None) else ([], None)
    | Some (Valid a) => ([], Some a)
    | Some Invalid => ([name], None)
    end
  else ([], None).

(** A nested [many=True] label serializer: every item must be valid. *)
Fixpoint run_labels (l : list LabelData) : Field (list string) :=
  match l with
  | [] => Valid []
  | d :: l' =>
      match ld_title d, run_labels l' with
      | Valid t, Valid ts => Valid (t :: ts)
      | _, _ => Invalid
      end
  end.

(** [is_valid()]: all field errors are collected. *)
Definition to_internal_value (m : Meta) (partial : bool) (d : StudentData)
    : result validated_data :=
  let '(e0, vuser) := run_field m partial true "user" (option_map Valid (d_user d)) in
  let '(e1, vname) := run_field m partial true "name" (d_name d) in
  let '(e2, vemail) := run_field m partial true "email" (d_email d) in
  let '(e3, vaddress) := run_field m partial true "address" (d_address d) in
  let '(e4, vbirthday) := run_field m partial true "birthday" (d_birthday d) in
  let '(e5, vlink) := run_field m partial false "link" (d_link d) in
  let '(e6, vimage) :=
    run_field m partial (mem "image" (extra_required m)) "image" (d_image d) in
  let '(e7, vtags) := run_field m partial false "tags" (option_map run_labels (d_tags d)) in
  let '(e8, vcourses) :=
    run_field m partial false "courses" (option_map run_labels (d_courses d)) in
  match e0 ++ e1 ++ e2 ++ e3 ++ e4 ++ e5 ++ e6 ++ e7 ++ e8 with
  | [] =>
      Ok {| v_user := vuser; v_name := vname; v_email := vemail;
            v_address := vaddress; v_birthday := vbirthday; v_link := vlink;
            v_image := vimage; v_tags := vtags; v_courses := vcourses |}
  | errs => Err (ValidationError errs)
  end.

(** [serializer.save(user=...)]: keyword arguments override the
    validated data. *)
Definition with_user (u : Z) (vd : validated_data) : validated_data :=
  {| v_user := Some u; v_name := v_name vd; v_email := v_email vd;
     v_address := v_address vd; v_birthday := v_birthday vd; v_link := v_link vd;
     v_image := v_image vd; v_tags := v_tags vd; v_courses := v_courses vd |}.

Definition default {A} (d : A) (o : option A) : A :=
  match o with Some a => a | None => d end.

(** [for attr, value in validated_data.items(): setattr(instance, attr,
    value)] over the non-relational keys. *)
Definition setattrs (instance : Student) (vd : validated_data) : Student :=
  {| s_id := s_id instance;
     s_user := default (s_user instance) (v_user vd);
     s_name := default (s_name instance) (v_name vd);
     s_email := default (s_email instance) (v_email vd);
     s_address := default (s_address instance) (v_address vd);
     s_birthday := default (s_birthday instance) (v_birthday vd);
     s_link := default (s_link instance) (v_link vd);
     s_image := default (s_image instance) (v_image vd) |}.

(** [Student.objects.create] called with the validated data: the owner
    is a NOT NULL column, the text columns default to the empty string. *)
Definition objects_create (vd : validated_data) : M Student :=
  fun db =>
    match v_user vd with
    | None => (db, Err IntegrityError)
    | Some u =>
        let s := {| s_id := next_student_id db; s_user := u;
                    s_name := default "" (v_name vd);
                    s_email := default "" (v_email vd);
                    s_address := default "" (v_address vd);
                    s_birthday := default "" (v_birthday vd);
                    s_link := default "" (v_link vd);
                    s_image := default None (v_image vd) |} in
        (set_next_student_id (next_student_id db + 1)
           (set_students (students db ++ [s]) db),
         Ok s)
    end.

(** The inherited [update] (used by the image and label serializers). *)
Definition update (instance : Student) (vd : validated_data) : M Student :=
  let instance' := setattrs instance vd in
  bind (ORM.save_student instance') (fun _ => ret instance').

Definition label_to_internal_value (m : Meta) (partial : bool) (d : LabelUpdate)
    : result (option string) :=
  match run_field m partial true "title" (lu_title d) with
  | ([], vtitle) => Ok vtitle
  | (errs, _) => Err (ValidationError errs)
  end.

Definition label_update (k : LabelKind) (instance : Label) (vtitle : option string)
    : M Label :=
  let instance' :=
    {| l_id := l_id instance; l_title := default (l_title instance) vtitle;
       l_user := l_user instance |} in
  bind (ORM.save_label k instance') (fun _ => ret instance').

End ModelSerializer.

Module StudentSerializer.

Definition Meta : Meta :=
  {| fields := ["id"; "name"; "email"; "address"; "birthday"; "link"; "tags";
                "courses"];
     read_only_fields := ["id"];
     extra_required := [] |}.

(** The loop shared by [_get_or_create_tags] and
    [_get_or_create_courses]; [auth_user] is
    [self.context['request'].user]. *)
Fixpoint get_or_create_all (k : LabelKind) (auth_user : Z) (descriptors : list string)
    (student : Student) : M unit :=
  match descriptors with
  | [] => ret tt
  | d :: rest =>
      (r <- ORM.get_or_create k auth_user d ;;
       ORM.add k (s_id student) (l_id (fst r)) ;;;
       get_or_create_all k auth_user rest student)%m
  end.

Definition _get_or_create_tags (auth_user : Z) (tags : list string)
    (student : Student) : M unit :=
  get_or_create_all KTag auth_user tags student.

Definition _get_or_create_courses (auth_user : Z) (courses : list string)
    (student : Student) : M unit :=
  get_or_create_all KCourse auth_user courses student.

(** [validated_data] after the two [pop]s. *)
Definition pop_labels (vd : validated_data) : validated_data :=
  {| v_user := v_user vd; v_name := v_name vd; v_email := v_email vd;
     v_address := v_address vd; v_birthday := v_birthday vd; v_link := v_link vd;
     v_image := v_image vd; v_tags := None; v_courses := None |}.

Definition create (auth_user : Z) (vd : validated_data) : M Student :=
  (let tags := ModelSerializer.default [] (v_tags vd) in
   let courses := ModelSerializer.default [] (v_courses vd) in
   student <- ModelSerializer.objects_create (pop_labels vd) ;;
   _get_or_create_tags auth_user tags student ;;;
   _get_or_create_courses auth_user courses student ;;;
   ret student)%m.

Definition update (auth_user : Z) (instance : Student) (vd : validated_data)
    : M Student :=
  (let tags := v_tags vd in
   let courses := v_courses vd in
   match tags with
   | Some tags =>
       ORM.clear KTag (s_id instance) ;;;
       _get_or_create_tags auth_user tags instance
   | None => ret tt
   end ;;;
   match courses with
   | Some courses =>
       ORM.clear KCourse (s_id instance) ;;;
       _get_or_create_courses auth_user courses instance
   | None => ret tt
   end ;;;
   let instance' := ModelSerializer.setattrs instance (pop_labels vd) in
   ORM.save_student instance' ;;;
   ret instance')%m.

Definition cls : SerializerClass :=
  {| meta := Meta; create_method := create; update_method := update |}.

End StudentSerializer.

Module StudentDetailSerializer.
(** [class Meta(StudentSerializer.Meta)] with
    [fields = StudentSerializer.Meta.fields + ['courses', 'image']]. *)
Definition Meta : Meta :=
  {| fields := fields StudentSerializer.Meta ++ ["courses"; "image"];
     read_only_fields := read_only_fields StudentSerializer.Meta;
     extra_required := extra_required StudentSerializer.Meta |}.
Definition cls : SerializerClass :=
  {| meta := Meta;
     create_method := StudentSerializer.create;
     update_method := StudentSerializer.update |}.
End StudentDetailSerializer.

Module StudentImageSerializer.
Definition Meta : Meta :=
  {| fields := ["id"; "image"]; read_only_fields := ["id"];
     extra_required := ["image"] |}.
Definition cls : SerializerClass :=
  {| meta := Meta;
     create_method := fun _ => ModelSerializer.objects_create;
     update_method := fun _ => ModelSerializer.update |}.
End StudentImageSerializer.

(** ** student/views.py *)

Inductive Action : Type :=
| A_list | A_create | A_retrieve | A_update | A_partial_update | A_destroy
| A_upload_image.

Inductive Method : Type := GET | POST | PUT | PATCH | DELETE.

(** The URLs the router registers for a viewset: the collection, one
    object, and the extra [upload-image] action of one object. *)
Inductive Path : Type :=
| Collection
| Detail (pk : Z)
| UploadImage (pk : Z).

(** [DefaultRouter]: which action a method names at a URL. *)
Definition route (m : Method) (p : Path) : option Action :=
  match p, m with
  | Collection, GET => Some A_list
  | Collection, POST => Some A_create
  | Detail _, GET => Some A_retrieve
  | Detail _, PUT => Some A_update
  | Detail _, PATCH => Some A_partial_update
  | Detail _, DELETE => Some A_destroy
  | UploadImage _, POST => Some A_upload_image
  | _, _ => None
  end.

Definition Action_eqb (a b : Action) : bool :=
  match a, b with
  | A_list, A_list | A_create, A_create | A_retrieve, A_retrieve
  | A_update, A_update | A_partial_update, A_partial_update
  | A_destroy, A_destroy | A_upload_image, A_upload_image => true
  | _, _ => false
  end.

Definition get_db : M DB := fun db => (db, Ok db).

Definition int_or_ValueError (s : string) : result Z :=
  match Python.int s with Some n => Ok n | None => Err ValueError end.

(** [serializer.errors]: one entry per field in error. *)
Definition errors_json (errs : list string) : JSON :=
  JObj (map (fun f => (f, JList [JStr "invalid"])) errs).

Module StudentViewSet.

Definition serializer_class : SerializerClass := StudentSerializer.cls.

Definition queryset (db : DB) : list Student := students db.

Definition _params_to_ints (qs : string) : result (list Z) :=
  mapM int_or_ValueError (Python.split_comma qs).

Definition get_queryset (req : Request) (db : DB) : result (list Student) :=
  let tags := QueryDict_get "tags" (query_params req) in
  let courses := QueryDict_get "courses" (query_params req) in
  let queryset := queryset db in
  rbind
    (match tags with
     | Some t =>
         if Python.truthy tags
         then rbind (_params_to_ints t)
                (fun tag_ids => Ok (ORM.filter_label_id_in KTag tag_ids db queryset))
         else Ok queryset
     | None => Ok queryset
     end)
    (fun queryset =>
  rbind
    (match courses with
     | Some c =>
         if Python.truthy courses
         then rbind (_params_to_ints c)
                (fun course_ids =>
                   Ok (ORM.filter_label_id_in KCourse course_ids db queryset))
         else Ok queryset
     | None => Ok queryset
     end)
    (fun queryset =>
  Ok (ORM.distinct_students
        (ORM.order_by ORM.id_desc
           (ORM.filter_student_user (user req) queryset))))).

Definition get_serializer_class (action : Action) : SerializerClass :=
  match action with
  | A_list => StudentSerializer.cls
  | A_upload_image => StudentImageSerializer.cls
  | _ => serializer_class
  end.

(** [GenericAPIView.get_object]: [get_object_or_404] on the queryset. *)
Definition get_object (req : Request) (pk : Z) (db : DB) : result Student :=
  rbind (get_queryset req db) (ORM.get_student pk).

Definition serializer_data (action : Action) (s : Student) : M JSON :=
  (db <- get_db ;;
   ret (JObj (ModelSerializer.to_representation
                (meta (get_serializer_class action)) db s)))%m.

Definition perform_create (req : Request) (c : SerializerClass) (vd : validated_data)
    : M Student :=
  create_method c (user req) (ModelSerializer.with_user (user req) vd).

Definition list_ (req : Request) : M Response :=
  (qs <- query (get_queryset req) ;;
   db <- get_db ;;
   ret {| status := 200;
          data := JList (map (fun s => JObj (ModelSerializer.to_representation
                                               (meta (get_serializer_class A_list)) db s))
                           qs) |})%m.

Definition retrieve (req : Request) (pk : Z) : M Response :=
  (instance <- query (get_object req pk) ;;
   d <- serializer_data A_retrieve instance ;;
   ret {| status := 200; data := d |})%m.

Definition create (req : Request) (body : StudentData) : M Response :=
  (let c := get_serializer_class A_create in
   vd <- query (fun _ => ModelSerializer.to_internal_value (meta c) false body) ;;
   student <- perform_create req c vd ;;
   d <- serializer_data A_create student ;;
   ret {| status := 201; data := d |})%m.

(** [update] and [partial_update] of [UpdateModelMixin]. *)
Definition update (partial : bool) (req : Request) (pk : Z) (body : StudentData)
    : M Response :=
  (let action := if partial then A_partial_update else A_update in
   let c := get_serializer_class action in
   instance <- query (get_object req pk) ;;
   vd <- query (fun _ => ModelSerializer.to_internal_value (meta c) partial body) ;;
   instance' <- update_method c (user req) instance vd ;;
   d <- serializer_data action instance' ;;
   ret {| status := 200; data := d |})%m.

Definition destroy (req : Request) (pk : Z) : M Response :=
  (instance <- query (get_object req pk) ;;
   ORM.delete_student instance ;;;
   ret {| status := 204; data := JNull |})%m.

Definition upload_image (req : Request) (pk : Z) (body : StudentData) : M Response :=
  (let c := get_serializer_class A_upload_image in
   student <- query (get_object req pk) ;;
   match ModelSerializer.to_internal_value (meta c) false body with
   | Ok vd =>
       student' <- update_method c (user req) student vd ;;
       d <- serializer_data A_upload_image student' ;;
       ret {| status := 200; data := d |}
   | Err (ValidationError errs) =>
       ret {| status := 400; data := errors_json errs |}
   | Err e => raise e
   end)%m.

(** A [ModelViewSet] has every action. *)
Definition dispatch (m : Method) (p : Path) (req : Request) (body : StudentData)
    : M Response :=
  match route m p, p with
  | Some A_list, _ => list_ req
  | Some A_create, _ => create req body
  | Some A_retrieve, Detail pk => retrieve req pk
  | Some A_update, Detail pk => update false req pk body
  | Some A_partial_update, Detail pk => update true req pk body
  | Some A_destroy, Detail pk => destroy req pk
  | Some A_upload_image, UploadImage pk => upload_image req pk body
  | _, _ => raise MethodNotAllowed
  end.

End StudentViewSet.

Module BaseStudentAttrViewSet.

(** The actions of [DestroyModelMixin], [UpdateModelMixin] and
    [ListModelMixin]. *)
Definition actions : list Action := [A_destroy; A_update; A_partial_update; A_list].

Definition get_queryset (k : LabelKind) (req : Request) (db : DB)
    : result (list Label) :=
  rbind
    (match QueryDict_get "assigned_only" (query_params req) with
     | Some s => int_or_ValueError s
     | None => Ok 0
     end)
    (fun n =>
       let assigned_only := negb (n =? 0) in
       let queryset := labels k db in
       let queryset :=
         if assigned_only then ORM.filter_student_notnull k db queryset
         else queryset in
       Ok (ORM.distinct_labels
             (ORM.order_by ORM.title_desc
                (ORM.filter_label_user (user req) queryset)))).

Definition serializer_class (k : LabelKind) : Meta :=
  match k with KTag => TagSerializer.Meta | KCourse => CourseSerializer.Meta end.

Definition get_object (k : LabelKind) (req : Request) (pk : Z) (db : DB)
    : result Label :=
  rbind (get_queryset k req db) (ORM.get_label pk).

Definition list_ (k : LabelKind) (req : Request) : M Response :=
  (qs <- query (get_queryset k req) ;;
   ret {| status := 200;
          data := JList (map ModelSerializer.label_representation qs) |})%m.

Definition update (k : LabelKind) (partial : bool) (req : Request) (pk : Z)
    (body : LabelUpdate) : M Response :=
  (instance <- query (get_object k req pk) ;;
   vtitle <- query (fun _ =>
     ModelSerializer.label_to_internal_value (serializer_class k) partial body) ;;
   instance' <- ModelSerializer.label_update k instance vtitle ;;
   ret {| status := 200; data := ModelSerializer.label_representation instance' |})%m.

Definition destroy (k : LabelKind) (req : Request) (pk : Z) : M Response :=
  (instance <- query (get_object k req pk) ;;
   ORM.delete_label k instance ;;;
   ret {| status := 204; data := JNull |})%m.

(** Only the actions of the mixins are bound; the router registers no
    [upload-image] URL for a label viewset. *)
Definition dispatch (k : LabelKind) (m : Method) (p : Path) (req : Request)
    (body : LabelUpdate) : M Response :=
  match p, route m p with
  | UploadImage _, _ => raise Http404
  | Detail pk, Some a =>
      if existsb (Action_eqb a) actions then
        match a with
        | A_update => update k false req pk body
        | A_partial_update => update k true req pk body
        | A_destroy => destroy k req pk
        | _ => raise MethodNotAllowed
        end
      else raise MethodNotAllowed
  | Collection, Some a =>
      if existsb (Action_eqb a) actions then
        match a with
        | A_list => list_ k req
        | _ => raise MethodNotAllowed
        end
      else raise MethodNotAllowed
  | _, None => raise MethodNotAllowed
  end.

End BaseStudentAttrViewSet.

(** [self.queryset] of the two subclasses is [labels k] in the base class
    above. *)
Module TagViewSet.
Definition queryset (db : DB) : list Tag := labels KTag db.
Definition dispatch := BaseStudentAttrViewSet.dispatch KTag.
End TagViewSet.

Module CourseViewSet.
Definition queryset (db : DB) : list Course := labels KCourse db.
Definition dispatch := BaseStudentAttrViewSet.dispatch KCourse.
End CourseViewSet.

(** ** core/models.py: the image path and the user manager *)

(** More methods of Python's [str]. *)
Module str.

(** [s.rfind(c)], counting from [i]: the index of the last [c], or -1. *)
Fixpoint rfind_from (c : ascii) (s : string) (i : Z) : Z :=
  match s with
  | EmptyString => -1
  | String x r =>
      let j := rfind_from c r (i + 1) in
      if 0 <=? j then j else if Ascii.eqb x c then i else -1
  end.

Definition rfind (c : ascii) (s : string) : Z := rfind_from c s 0.

(** [s.lower()] on ASCII letters. *)
Definition lower_char (c : ascii) : ascii :=
  let n := N_of_ascii c in
  if ((65 <=? n) && (n <=? 90))%N then ascii_of_N (n + 32) else c.

Fixpoint lower (s : string) : string :=
  match s with
  | EmptyString => EmptyString
  | String c r => String (lower_char c) (lower r)
  end.

End str.

(** [os.path] of a POSIX system. *)
Module os_path.

(** The loop of [genericpath._splitext] that skips the leading dots of
    the file name: [true] when a character other than a dot stands before
    [dotIndex]. *)
Fixpoint skip_leading_dots (fuel : nat) (p : string) (filenameIndex dotIndex : Z) : bool :=
  match fuel with
  | O => false
  | S fuel' =>
      if filenameIndex <? dotIndex then
        match String.get (Z.to_nat filenameIndex) p with
        | Some c =>
            if Ascii.eqb c "."%char
            then skip_leading_dots fuel' p (filenameIndex + 1) dotIndex
            else true
        | None => true
        end
      else false
  end.

(** [os.path.splitext(p)]: [(root, ext)]. *)
Definition splitext (p : string) : string * string :=
  let sepIndex := str.rfind "/" p in
  let dotIndex := str.rfind "." p in
  if (sepIndex <? dotIndex) &&
     skip_leading_dots (String.length p) p (sepIndex + 1) dotIndex
  then (substring 0 (Z.to_nat dotIndex) p,
        substring (Z.to_nat dotIndex) (String.length p - Z.to_nat dotIndex) p)
  else (p, "").

Definition startswith_sep (b : string) : bool :=
  match b with
  | String c _ => Ascii.eqb c "/"%char
  | EmptyString => false
  end.

Fixpoint endswith_sep (path : string) : bool :=
  match path with
  | EmptyString => false
  | String c EmptyString => Ascii.eqb c "/"%char
  | String _ r => endswith_sep r
  end.

(** One round of the loop of [os.path.join]. *)
Definition join_step (path b : string) : string :=
  if startswith_sep b then b
  else if String.eqb path "" || endswith_sep path then path ++ b
  else path ++ "/" ++ b.

(** [os.path.join(a, *p)]. *)
Definition join (a : string) (p : list string) : string := fold_left join_step p a.

End os_path.

(** [student_image_file_path(instance, filename)]; [uuid4] is the text of
    the UUID that [uuid.uuid4()] draws.  The instance is not used. *)
Definition student_image_file_path (uuid4 : string) (filename : string) : string :=
  let ext := snd (os_path.splitext filename) in
  let filename := (uuid4 ++ ext)%string in
  os_path.join "uploads" ["student"; filename].

(** [User] of [core/models.py] with the columns it inherits: [password]
    from [AbstractBaseUser], [is_superuser] from [PermissionsMixin].
    [u_id] is [None] until the instance is saved. *)
Record User : Type := {
  u_id : option Z;
  u_email : string;
  u_password : string;
  u_name : string;
  u_is_active : bool;
  u_is_staff : bool;
  u_is_superuser : bool
}.

(** The user table and its primary-key sequence. *)
Record UserTable : Type := {
  user_rows : list User;
  next_user_id : Z
}.

(** The keyword arguments [extra_field] can carry. *)
Record extra_field : Type := {
  x_name : option string;
  x_is_active : option bool;
  x_is_staff : option bool;
  x_is_superuser : option bool
}.

Definition no_extra_field : extra_field :=
  {| x_name := None; x_is_active := None; x_is_staff := None; x_is_superuser := None |}.

Module BaseUserManager.

(** [normalize_email]: [email or ''], then the part after the last [@] of
    the stripped text is lowercased; a text without [@] is returned as it
    is. *)
Definition normalize_email (email : option string) : string :=
  let email := match email with Some e => e | None => "" end in
  let stripped := Python.strip email in
  let i := str.rfind "@" stripped in
  if 0 <=? i then
    let email_name := substring 0 (Z.to_nat i) stripped in
    let domain_part :=
      substring (S (Z.to_nat i)) (String.length stripped - S (Z.to_nat i)) stripped in
    (email_name ++ "@" ++ str.lower domain_part)%string
  else email.

End BaseUserManager.

Module UserManager.

Section Hasher.

(** [make_password]: the hasher of the settings; [None] gives an
    unusable password. *)
Variable make_password : option string -> string.

(** [self.model(email=..., **extra_field)] with the defaults of the
    columns. *)
Definition model (email : string) (extra : extra_field) : User :=
  {| u_id := None; u_email := email; u_password := "";
     u_name := ModelSerializer.default "" (x_name extra);
     u_is_active := ModelSerializer.default true (x_is_active extra);
     u_is_staff := ModelSerializer.default false (x_is_staff extra);
     u_is_superuser := ModelSerializer.default false (x_is_superuser extra) |}.

Definition set_password (user : User) (raw_password : option string) : User :=
  {| u_id := u_id user; u_email := u_email user;
     u_password := make_password raw_password; u_name := u_name user;
     u_is_active := u_is_active user; u_is_staff := u_is_staff user;
     u_is_superuser := u_is_superuser user |}.

Definition with_id (user : User) (id : Z) : User :=
  {| u_id := Some id; u_email := u_email user; u_password := u_password user;
     u_name := u_name user; u_is_active := u_is_active user;
     u_is_staff := u_is_staff user; u_is_superuser := u_is_superuser user |}.

Definition has_id (id : Z) (r : User) : bool :=
  match u_id r with Some i => i =? id | None => false end.

(** [user.save()]: an INSERT for an instance without primary key, an
    UPDATE of its row otherwise (an INSERT when the row is gone); the
    email column is unique. *)
Definition save (user : User) (t : UserTable) : UserTable * result User :=
  match u_id user with
  | None =>
      if existsb (fun r => String.eqb (u_email r) (u_email user)) (user_rows t)
      then (t, Err IntegrityError)
      else
        let user' := with_id user (next_user_id t) in
        ({| user_rows := user_rows t ++ [user']; next_user_id := next_user_id t + 1 |},
         Ok user')
  | Some id =>
      if existsb (fun r => String.eqb (u_email r) (u_email user) && negb (has_id id r))
           (user_rows t)
      then (t, Err IntegrityError)
      else if existsb (has_id id) (user_rows t)
      then ({| user_rows := map (fun r => if has_id id r then user else r) (user_rows t);
               next_user_id := next_user_id t |},
            Ok user)
      else ({| user_rows := user_rows t ++ [user]; next_user_id := next_user_id t |},
            Ok user)
  end.

Definition create_user (email password : option string) (extra : extra_field)
    (t : UserTable) : UserTable * result User :=
  if negb (Python.truthy email) then (t, Err ValueError)
  else
    let user := model (BaseUserManager.normalize_email email) extra in
    let user := set_password user password in
    save user t.

Definition as_superuser (user : User) : User :=
  {| u_id := u_id user; u_email := u_email user; u_password := u_password user;
     u_name := u_name user; u_is_active := u_is_active user;
     u_is_staff := true; u_is_superuser := true |}.

Definition create_superuser (email password : option string) (t : UserTable)
    : UserTable * result User :=
  match create_user email password no_extra_field t with
  | (t', Ok user) => save (as_superuser user) t'
  | (t', Err e) => (t', Err e)
  end.

End Hasher.

End UserManager.

(** ** Vocabulary of the statements *)

(** The query parameter that filters Students by labels of kind [k]. *)
Definition param_name (k : LabelKind) : string :=
  match k with KTag => "tags" | KCourse => "courses" end.

(** The value of a filter parameter as [get_queryset] reads it: [None]
    when the parameter is absent or empty, the converted ids otherwise. *)
Definition parsed_filter (param : option string) : result (option (list Z)) :=
  match param with
  | Some t =>
      if Python.truthy param
      then rbind (StudentViewSet._params_to_ints t) (fun ids => Ok (Some ids))
      else Ok None
  | None => Ok None
  end.

(** Student [s] passes the filter [f] on labels of kind [k]. *)
Definition passes (k : LabelKind) (f : option (list Z)) (db : DB) (s : Student) : Prop :=
  match f with
  | Some ids => exists lid, In lid ids /\ In (s_id s, lid) (links k db)
  | None => True
  end.

(** The queryset after the optional join with an association table. *)
Definition join (k : LabelKind) (f : option (list Z)) (db : DB) (qs : list Student)
    : list Student :=
  match f with Some ids => ORM.filter_label_id_in k ids db qs | None => qs end.

(** A filter parameter holding an id that [int] rejects. *)
Definition malformed (param : option string) : Prop :=
  exists t, param = Some t /\ t <> "" /\
    exists piece, In piece (Python.split_comma t) /\ Python.int piece = None.

(** A request without the query parameter [key]. *)
Definition without_param (key : string) (req : Request) : Request :=
  {| user := user req;
     query_params := filter (fun kv => negb (String.eqb (fst kv) key)) (query_params req) |}.

(** The keys of a serialized object. *)
Definition keys (o : list (string * JSON)) : list string := map fst o.

(** Labels owned by [u] and titled [t]: the rows [get_or_create] looks
    up. *)
Definition matching_in (u : Z) (t : string) (ls : list Label) : list Label :=
  filter (fun l => (l_user l =? u) && String.eqb (l_title l) t) ls.

Definition matching (k : LabelKind) (u : Z) (t : string) (db : DB) : list Label :=
  matching_in u t (labels k db).

(** No title of [ts] names several labels of owner [u]. *)
Definition unambiguous (k : LabelKind) (u : Z) (ts : list string) (db : DB) : Prop :=
  forall t, In t ts -> (List.length (matching k u t db) <= 1)%nat.

(** The titles of [ts] that name no label of owner [u], each once, in
    order of first appearance. *)
Fixpoint missing_in (u : Z) (ts : list string) (ls : list Label) : list string :=
  match ts with
  | [] => []
  | t :: ts' =>
      match matching_in u t ls with
      | [] => t :: filter (fun t' => negb (String.eqb t' t)) (missing_in u ts' ls)
      | _ => missing_in u ts' ls
      end
  end.

Definition missing (k : LabelKind) (u : Z) (ts : list string) (db : DB) : list string :=
  missing_in u ts (labels k db).

(** Everything outside the tables of kind [k] is the same in both
    states. *)
Definition frame (k : LabelKind) (db db' : DB) : Prop :=
  students db' = students db /\
  next_student_id db' = next_student_id db /\
  labels (other k) db' = labels (other k) db /\
  links (other k) db' = links (other k) db /\
  next_label_id (other k) db' = next_label_id (other k) db.

(** The outcome of resolving the titles [ts] for owner [u] and attaching
    them to the Student [sid]: [new] are the created labels. *)
Definition resolved (k : LabelKind) (u : Z) (ts : list string) (sid : Z)
    (db db' : DB) (new : list Label) : Prop :=
  labels k db' = labels k db ++ new /\
  map l_title new = missing k u ts db /\
  Forall (fun l => l_user l = u) new /\
  (forall t, In t ts -> exists l, matching k u t db' = [l]) /\
  (forall r, In r (links k db') <->
     In r (links k db) \/
     (fst r = sid /\
      exists t l, In t ts /\ In l (matching k u t db') /\ l_id l = snd r)) /\
  frame k db db'.

(** The [clear]-then-resolve step of [update] for one kind of label. *)
Definition replace_labels (k : LabelKind) (u : Z) (o : option (list string))
    (instance : Student) : M unit :=
  match o with
  | Some ts =>
      bind (ORM.clear k (s_id instance))
        (fun _ => StudentSerializer.get_or_create_all k u ts instance)
  | None => ret tt
  end.

(** The body without the keys that no Student serializer field reads or
    that are read-only. *)
Definition ignore_unlisted (d : StudentData) : StudentData :=
  {| d_id := None; d_user := None; d_name := d_name d; d_email := d_email d;
     d_address := d_address d; d_birthday := d_birthday d; d_link := d_link d;
     d_image := None; d_tags := d_tags d; d_courses := d_courses d |}.

Definition titles (ds : list LabelData) : list (Field string) := map ld_title ds.

(** What an update does to the labels of kind [k] of the Student [sid],
    [o] being the validated descriptors: nothing when the key is absent;
    otherwise the missing labels are created and the Student's association
    set becomes the owner's labels titled as in the payload. *)
Definition replaced (k : LabelKind) (u : Z) (o : option (list string)) (sid : Z)
    (db db' : DB) : Prop :=
  match o with
  | None => labels k db' = labels k db /\ links k db' = links k db
  | Some ts =>
      (exists new,
         labels k db' = labels k db ++ new /\
         map l_title new = missing k u ts db /\
         (forall l, In l new -> l_user l = u)) /\
      (forall r, fst r <> sid -> (In r (links k db') <-> In r (links k db))) /\
      (forall lid, In (sid, lid) (links k db') <->
         exists l, In l (labels k db') /\ l_id l = lid /\ l_user l = u /\
                   In (l_title l) ts)
  end.

(** The validated descriptors of kind [k]. *)
Definition v_labels (k : LabelKind) (vd : validated_data) : option (list string) :=
  match k with KTag => v_tags vd | KCourse => v_courses vd end.

Definition d_labels (k : LabelKind) (d : StudentData) : option (list LabelData) :=
  match k with KTag => d_tags d | KCourse => d_courses d end.

(** The primary key of the Student table is unique. *)
Definition pk_unique (db : DB) : Prop := NoDup (map s_id (students db)).

(** The integer [get_queryset] of a label viewset reads from the
    [assigned_only] parameter: [int(query_params.get('assigned_only', 0))]. *)
Definition assigned_only_value (req : Request) : result Z :=
  match QueryDict_get "assigned_only" (query_params req) with
  | Some s => int_or_ValueError s
  | None => Ok 0
  end.

(** The serialized Student list of a queryset. *)
Definition student_list_data (db : DB) (qs : list Student) : JSON :=
  JList (map (fun s => JObj (ModelSerializer.to_representation StudentSerializer.Meta db s)) qs).

(** The three kinds of owned entity, the owners of the rows with a given
    primary key, and the viewset that serves each kind. *)
Inductive Entity : Type :=
| EStudent
| ELabel (k : LabelKind).

Definition owners (e : Entity) (pk : Z) (db : DB) : list Z :=
  match e with
  | EStudent => map s_user (filter (fun s => s_id s =? pk) (students db))
  | ELabel k => map l_user (filter (fun l => l_id l =? pk) (labels k db))
  end.

Definition handle (e : Entity) (m : Method) (p : Path) (req : Request)
    (sbody : StudentData) (lbody : LabelUpdate) : M Response :=
  match e with
  | EStudent => StudentViewSet.dispatch m p req sbody
  | ELabel k => BaseStudentAttrViewSet.dispatch k m p req lbody
  end.

(** The owners of the rows a list request returns. *)
Definition listed_owners (e : Entity) (req : Request) (db : DB) : result (list Z) :=
  match e with
  | EStudent => rbind (StudentViewSet.get_queryset req db) (fun l => Ok (map s_user l))
  | ELabel k =>
      rbind (BaseStudentAttrViewSet.get_queryset k req db) (fun l => Ok (map l_user l))
  end.

(** How a request for one entity that the requester does not own fails:
    a label viewset has no detail read; otherwise the queryset is built
    first, and its exception or [Http404] is the outcome. *)
Definition foreign_error (e : Entity) (m : Method) (req : Request) (db : DB) : Error :=
  match e, m with
  | ELabel _, GET => MethodNotAllowed
  | _, _ =>
      match listed_owners e req db with
      | Ok _ => Http404
      | Err err => err
      end
  end.

(** The database before any request. *)
Definition empty_db : DB :=
  {| students := []; tags := []; courses := []; student_tags := [];
     student_courses := []; next_student_id := 1; next_tag_id := 1;
     next_course_id := 1 |}.

(** The integrity of the store.  Primary keys are unique and below their
    sequence; every association row joins a Student and a label that exist
    and have the same owner. *)
Definition labels_ok (k : LabelKind) (db : DB) : Prop :=
  NoDup (map l_id (labels k db)) /\
  forall l, In l (labels k db) -> l_id l < next_label_id k db.

Definition links_ok (k : LabelKind) (db : DB) : Prop :=
  forall r, In r (links k db) ->
    exists s l,
      In s (students db) /\ In l (labels k db) /\
      s_id s = fst r /\ l_id l = snd r /\ s_user s = l_user l.

Definition wf (db : DB) : Prop :=
  pk_unique db /\
  (forall s, In s (students db) -> s_id s < next_student_id db) /\
  forall k, labels_ok k db /\ links_ok k db.

(** The states the API reaches from the empty database. *)
Inductive reachable : DB -> Prop :=
| reachable_empty : reachable empty_db
| reachable_student m p req body db :
    reachable db -> reachable (fst (StudentViewSet.dispatch m p req body db))
| reachable_label k m p req body db :
    reachable db -> reachable (fst (BaseStudentAttrViewSet.dispatch k m p req body db)).

(** A Hoare triple over the monad: from a state satisfying [P], the
    computation ends, with a result or an exception, in a state satisfying
    [Q]. *)
Definition hoare {A} (P : DB -> Prop) (m : M A) (Q : result A -> DB -> Prop) : Prop :=
  forall db, P db -> Q (snd (m db)) (fst (m db)).

(** The Student [sid] exists and is owned by [u]. *)
Definition owned_by (sid u : Z) (db : DB) : Prop :=
  exists s, In s (students db) /\ s_id s = sid /\ s_user s = u.

(** ** Example data *)

Definition anna : Student :=
  {| s_id := 1; s_user := 1; s_name := "Anna"; s_email := "anna@example.com";
     s_address := "1 Main Street"; s_birthday := "01/01/2001"; s_link := "";
     s_image := None |}.

Definition ben : Student :=
  {| s_id := 2; s_user := 1; s_name := "Ben"; s_email := "ben@example.com";
     s_address := "2 Main Street"; s_birthday := "02/02/2002"; s_link := "";
     s_image := None |}.

Definition carl : Student :=
  {| s_id := 3; s_user := 2; s_name := "Carl"; s_email := "carl@example.com";
     s_address := "3 Main Street"; s_birthday := "03/03/2003"; s_link := "";
     s_image := Some "uploads/student/c.jpg" |}.

(** Owner 1 has Anna (tags 1 and 2, course 1) and Ben (tag 2); owner 2
    has Carl (tag 3). *)
Definition sample_db : DB :=
  {| students := [anna; ben; carl];
     tags := [ {| l_id := 1; l_title := "Vegan"; l_user := 1 |};
               {| l_id := 2; l_title := "Dessert"; l_user := 1 |};
               {| l_id := 3; l_title := "Fruity"; l_user := 2 |};
               {| l_id := 4; l_title := "Lunch"; l_user := 1 |} ];
     courses := [ {| l_id := 1; l_title := "SCI 101"; l_user := 1 |} ];
     student_tags := [(1, 1); (1, 2); (2, 2); (3, 3)];
     student_courses := [(1, 1)];
     next_student_id := 4; next_tag_id := 5; next_course_id := 2 |}.

Definition request_of (u : Z) (q : list (string * string)) : Request :=
  {| user := u; query_params := q |}.

Definition no_body : StudentData :=
  {| d_id := None; d_user := None; d_name := None; d_email := None;
     d_address := None; d_birthday := None; d_link := None; d_image := None;
     d_tags := None; d_courses := None |}.

Definition no_label_body : LabelUpdate :=
  {| lu_id := None; lu_user := None; lu_title := None |}.

(** A Student body with the four required fields and the given label
    descriptors. *)
Definition student_body (name : string) (tags courses : option (list string))
    : StudentData :=
  let descriptors :=
    option_map (map (fun t => {| ld_id := None; ld_title := Valid t |})) in
  {| d_id := None; d_user := None; d_name := Some (Valid name);
     d_email := Some (Valid "sample@sample.com");
     d_address := Some (Valid "Sample Street");
     d_birthday := Some (Valid "01/01/2001"); d_link := None; d_image := None;
     d_tags := descriptors tags; d_courses := descriptors courses |}.

(** Owner 1 posts a Student tagged Thai and Dinner to the empty database,
    then renames the tag Dinner to Thai: two tags of owner 1 are titled
    Thai. *)
Definition db_thai_dinner : DB :=
  fst (StudentViewSet.dispatch POST Collection (request_of 1 [])
         (student_body "Sample name" (Some ["Thai"; "Dinner"]) None) empty_db).

Definition db_two_thai : DB :=
  fst (TagViewSet.dispatch PATCH (Detail 2) (request_of 1 [])
         {| lu_id := None; lu_user := None; lu_title := Some (Valid "Thai") |}
         db_thai_dinner).

(** A PATCH body that names another owner and an image besides a new
    name, and its run by owner 1 on Student 1. *)
Definition patch_owner_image_name : StudentData :=
  {| d_id := Some 7; d_user := Some 2; d_name := Some (Valid "New name");
     d_email := None; d_address := None; d_birthday := None; d_link := None;
     d_image := Some (Valid (Some "uploads/student/x.jpg"));
     d_tags := None; d_courses := None |}.

Definition patched_owner_image_name : DB * result Response :=
  StudentViewSet.update true (request_of 1 []) 1 patch_owner_image_name sample_db.

(** A PATCH body that replaces the tags by Lunch and Supper. *)
Definition patch_tags : StudentData :=
  {| d_id := None; d_user := None; d_name := None; d_email := None;
     d_address := None; d_birthday := None; d_link := None; d_image := None;
     d_tags := Some [ {| ld_id := None; ld_title := Valid "Lunch" |};
                      {| ld_id := None; ld_title := Valid "Supper" |} ];
     d_courses := None |}.

Definition validated_patch_tags : validated_data :=
  {| v_user := None; v_name := None; v_email := None; v_address := None;
     v_birthday := None; v_link := None; v_image := None;
     v_tags := Some ["Lunch"; "Supper"]; v_courses := None |}.

(** ** Vocabulary of the further properties *)

(** What owner [u] holds: the Students and labels with [u] as owner, and
    the association rows of these Students. *)
Definition students_of (u : Z) (db : DB) : list Student :=
  ORM.filter_student_user u (students db).

Definition labels_of (k : LabelKind) (u : Z) (db : DB) : list Label :=
  ORM.filter_label_user u (labels k db).

Definition links_of (k : LabelKind) (u : Z) (db : DB) : list (Z * Z) :=
  filter (fun r => existsb (fun s => s_id s =? fst r) (students_of u db)) (links k db).

Definition same_for (u : Z) (db db' : DB) : Prop :=
  students_of u db' = students_of u db /\
  forall k, labels_of k u db' = labels_of k u db /\ links_of k u db' = links_of k u db.

(** The row operations of the Student serializers and views, each on rows
    that [u] owns. *)
Inductive student_write (u : Z) (db : DB) : DB -> Prop :=
| sw_get_or_create k t : student_write u db (fst (ORM.get_or_create k u t db))
| sw_add k sid l :
    owned_by sid u db -> In l (labels k db) -> l_user l = u ->
    student_write u db (fst (ORM.add k sid (l_id l) db))
| sw_clear k sid :
    owned_by sid u db -> student_write u db (fst (ORM.clear k sid db))
| sw_save inst :
    owned_by (s_id inst) u db -> s_user inst = u ->
    student_write u db (fst (ORM.save_student inst db))
| sw_delete inst :
    In inst (students db) -> s_user inst = u ->
    student_write u db (fst (ORM.delete_student inst db))
| sw_create vd :
    v_user vd = Some u ->
    student_write u db (fst (ModelSerializer.objects_create vd db)).

(** The row operations of a label viewset, each on a label that [u]
    owns. *)
Inductive label_write (k : LabelKind) (u : Z) (db : DB) : DB -> Prop :=
| lw_save inst old :
    In old (labels k db) -> l_id old = l_id inst -> l_user old = u ->
    l_user inst = u ->
    label_write k u db (fst (ORM.save_label k inst db))
| lw_delete inst :
    In inst (labels k db) -> l_user inst = u ->
    label_write k u db (fst (ORM.delete_label k inst db)).

(** The states reached from [db0] by operations of [R]. *)
Inductive steps (R : DB -> DB -> Prop) (db0 : DB) : DB -> Prop :=
| steps_refl : steps R db0 db0
| steps_snoc db db' : steps R db0 db -> R db db' -> steps R db0 db'.

(** No owner has two labels of one kind with the same title. *)
Definition titles_unique (db : DB) : Prop :=
  forall k u t, (List.length (matching k u t db) <= 1)%nat.

(** The Student that [create] inserts for owner [u]: the next primary key,
    the requester as owner, the validated columns. *)
Definition created_student (u : Z) (vd : validated_data) (db : DB) : Student :=
  {| s_id := next_student_id db; s_user := u;
     s_name := ModelSerializer.default "" (v_name vd);
     s_email := ModelSerializer.default "" (v_email vd);
     s_address := ModelSerializer.default "" (v_address vd);
     s_birthday := ModelSerializer.default "" (v_birthday vd);
     s_link := ModelSerializer.default "" (v_link vd);
     s_image := ModelSerializer.default None (v_image vd) |}.

(** A Student with another image. *)
Definition with_image (s : Student) (image : option string) : Student :=
  {| s_id := s_id s; s_user := s_user s; s_name := s_name s; s_email := s_email s;
     s_address := s_address s; s_birthday := s_birthday s; s_link := s_link s;
     s_image := image |}.

(** A label with another title. *)
Definition with_title (l : Label) (title : string) : Label :=
  {| l_id := l_id l; l_title := title; l_user := l_user l |}.

Definition image_json (image : option string) : JSON :=
  match image with Some path => JStr path | None => JNull end.


(** The value of a column after an update: the valid value of the body,
    the old value when the body has none. *)
Definition written {A} (old : A) (x : option (Field A)) : A :=
  match x with Some (Valid a) => a | _ => old end.

(** The decimal numeral of an integer, as [str(n)] writes it, and
    [','.join(pieces)]: the text a client sends for a list of ids. *)
Definition digit_char (d : Z) : ascii := ascii_of_N (Z.to_N (48 + d)).

Fixpoint decimal_digits (fuel : nat) (n : Z) (acc : string) : string :=
  match fuel with
  | O => acc
  | S fuel' =>
      let acc' := String (digit_char (n mod 10)) acc in
      if n <? 10 then acc' else decimal_digits fuel' (n / 10) acc'
  end.

Definition decimal (n : Z) : string :=
  if n <? 0 then String "-" (decimal_digits (S (Z.to_nat (Z.log2 (- n)))) (- n) "")
  else decimal_digits (S (Z.to_nat (Z.log2 n))) n "".

Fixpoint join_comma (pieces : list string) : string :=
  match pieces with
  | [] => ""
  | [a] => a
  | a :: rest => a ++ String "," (join_comma rest)
  end.

(** All characters of a string satisfy [p]. *)
Fixpoint all_chars (p : ascii -> bool) (s : string) : bool :=
  match s with
  | EmptyString => true
  | String c r => p c && all_chars p r
  end.




(** The user table is sound: saved rows only, with primary keys below the
    sequence. *)
Definition user_table_ok (t : UserTable) : Prop :=
  forall r, In r (user_rows t) -> exists id, u_id r = Some id /\ id < next_user_id t.

(** * Properties *)

(** ** Results and the monad *)

Lemma rbind_Ok {A B} (r : result A) (f : A -> result B) (b : B) :
  rbind r f = Ok b -> exists a, r = Ok a /\ f a = Ok b.
Proof.
  destruct r as [a|e]; simpl; intros H; [eauto | discriminate].
Qed.

Lemma mapM_Ok_Forall2 {A B} (f : A -> result B) (l : list A) (l' : list B) :
  mapM f l = Ok l' <-> Forall2 (fun x y => f x = Ok y) l l'.
Proof.
  revert l'; induction l as [|x l IH]; intros l'; simpl.
  - split; intros H; [injection H as <-; constructor | inversion H; reflexivity].
  - split.
    + intros H. apply rbind_Ok in H as (y & Hy & H).
      apply rbind_Ok in H as (ys & Hys & H). injection H as <-.
      constructor; [assumption | now apply IH].
    + intros H. inversion H as [|? y ? ys Hy Hys]; subst.
      rewrite Hy; simpl. apply IH in Hys. rewrite Hys. reflexivity.
Qed.

Lemma mapM_Err {A B} (f : A -> result B) (e : Error) (l : list A) :
  (forall x e', f x = Err e' -> e' = e) ->
  (exists x, In x l /\ exists e', f x = Err e') ->
  mapM f l = Err e.
Proof.
  intros Hf. induction l as [|x l IH]; intros (y & Hin & e' & Hy).
  - destruct Hin.
  - simpl. destruct (f x) as [b|e0] eqn:Hx; simpl.
    + destruct Hin as [-> | Hin]; [congruence|].
      rewrite IH by eauto. reflexivity.
    + f_equal. eauto.
Qed.

(** ** [order_by] and [distinct] *)

Section OrderByFacts.
Context {A : Type} (before : A -> A -> bool).
Hypothesis before_total : forall a b, before a b = true \/ before b a = true.
Hypothesis before_trans :
  forall a b c, before a b = true -> before b c = true -> before a c = true.

Let R (a b : A) : Prop := before a b = true.

Lemma insert_Permutation (x : A) (l : list A) :
  Permutation (ORM.insert before x l) (x :: l).
Proof.
  induction l as [|y l IH]; simpl; [reflexivity|].
  destruct (before x y); [reflexivity|].
  rewrite IH. apply perm_swap.
Qed.

Lemma order_by_Permutation (l : list A) : Permutation (ORM.order_by before l) l.
Proof.
  induction l as [|x l IH]; simpl; [reflexivity|].
  rewrite insert_Permutation. now constructor.
Qed.

Lemma order_by_In (l : list A) (x : A) : In x (ORM.order_by before l) <-> In x l.
Proof.
  split; apply Permutation_in;
    [apply order_by_Permutation | symmetry; apply order_by_Permutation].
Qed.

Lemma insert_sorted (x : A) (l : list A) :
  StronglySorted R l -> StronglySorted R (ORM.insert before x l).
Proof.
  induction l as [|y l IH]; intros Hs; simpl.
  - repeat constructor.
  - inversion Hs as [|? ? Hl Hall]; subst.
    destruct (before x y) eqn:Hxy.
    + constructor; [assumption|].
      constructor; [exact Hxy|].
      eapply Forall_impl; [|exact Hall]. intros z Hz. eapply before_trans; eauto.
    + constructor; [now apply IH|].
      assert (Hyx : R y x) by (destruct (before_total x y); [congruence | assumption]).
      apply Forall_forall. intros z Hz.
      apply (Permutation_in _ (insert_Permutation x l)) in Hz.
      destruct Hz as [<-|Hz]; [assumption|].
      rewrite Forall_forall in Hall. now apply Hall.
Qed.

Lemma order_by_sorted (l : list A) : StronglySorted R (ORM.order_by before l).
Proof.
  induction l as [|x l IH]; simpl; [constructor | now apply insert_sorted].
Qed.
End OrderByFacts.

Lemma nodup_StronglySorted {A} (dec : forall a b : A, {a = b} + {a <> b})
    (R : A -> A -> Prop) (l : list A) :
  StronglySorted R l -> StronglySorted R (nodup dec l).
Proof.
  induction 1 as [|x l Hl IH Hall]; simpl; [constructor|].
  destruct (in_dec dec x l); [assumption|].
  constructor; [assumption|].
  apply Forall_forall. intros y Hy. apply nodup_In in Hy.
  rewrite Forall_forall in Hall. now apply Hall.
Qed.

Lemma id_desc_total (a b : Student) : ORM.id_desc a b = true \/ ORM.id_desc b a = true.
Proof. unfold ORM.id_desc. lia. Qed.

Lemma id_desc_trans (a b c : Student) :
  ORM.id_desc a b = true -> ORM.id_desc b c = true -> ORM.id_desc a c = true.
Proof. unfold ORM.id_desc. lia. Qed.

Lemma Ascii_compare_refl (a : ascii) : Ascii.compare a a = Eq.
Proof. unfold Ascii.compare. apply N.compare_refl. Qed.

Lemma String_leb_trans (a b c : string) :
  String.leb a b = true -> String.leb b c = true -> String.leb a c = true.
Proof.
  unfold String.leb.
  revert b c; induction a as [|x a IH]; intros [|y b] [|z c]; simpl;
    try congruence.
  unfold Ascii.compare.
  destruct (N.compare_spec (N_of_ascii x) (N_of_ascii y)) as [Hxy|Hxy|Hxy];
    destruct (N.compare_spec (N_of_ascii y) (N_of_ascii z)) as [Hyz|Hyz|Hyz];
    try congruence.
  - rewrite Hxy, Hyz, N.compare_refl. apply IH.
  - rewrite Hxy. apply N.compare_lt_iff in Hyz. rewrite Hyz. congruence.
  - rewrite <- Hyz. apply N.compare_lt_iff in Hxy. rewrite Hxy. congruence.
  - assert (H : (N_of_ascii x < N_of_ascii z)%N) by lia.
    apply N.compare_lt_iff in H. rewrite H. congruence.
Qed.

Lemma title_desc_total (a b : Label) :
  ORM.title_desc a b = true \/ ORM.title_desc b a = true.
Proof. unfold ORM.title_desc. destruct (String.leb_total (l_title a) (l_title b)); auto. Qed.

Lemma title_desc_trans (a b c : Label) :
  ORM.title_desc a b = true -> ORM.title_desc b c = true -> ORM.title_desc a c = true.
Proof. unfold ORM.title_desc. intros H1 H2. eapply String_leb_trans; eauto. Qed.

(** ** The querysets *)

Lemma filter_label_id_in_In k ids db qs s :
  In s (ORM.filter_label_id_in k ids db qs) <->
  In s qs /\ exists lid, In lid ids /\ In (s_id s, lid) (links k db).
Proof.
  unfold ORM.filter_label_id_in. rewrite in_flat_map. split.
  - intros (x & Hx & Hin). apply in_map_iff in Hin as ([sid lid] & <- & Hr).
    apply filter_In in Hr as (Hr & Hb). simpl in Hb.
    apply andb_true_iff in Hb as (Hsid & Hex).
    apply existsb_exists in Hex as (i & Hi & Heq).
    apply Z.eqb_eq in Hsid, Heq. subst. eauto.
  - intros (Hs & lid & Hlid & Hl). exists s. split; [assumption|].
    apply in_map_iff. exists (s_id s, lid). split; [reflexivity|].
    apply filter_In. split; [assumption|]. simpl.
    rewrite Z.eqb_refl. simpl. apply existsb_exists. exists lid.
    split; [assumption | apply Z.eqb_refl].
Qed.

Lemma filter_student_notnull_In k db qs l :
  In l (ORM.filter_student_notnull k db qs) <->
  In l qs /\ exists sid, In (sid, l_id l) (links k db).
Proof.
  unfold ORM.filter_student_notnull. rewrite in_flat_map. split.
  - intros (x & Hx & Hin). apply in_map_iff in Hin as ([sid lid] & <- & Hr).
    apply filter_In in Hr as (Hr & Hb). simpl in Hb. apply Z.eqb_eq in Hb. subst.
    eauto.
  - intros (Hl & sid & Hr). exists l. split; [assumption|].
    apply in_map_iff. exists (sid, l_id l). split; [reflexivity|].
    apply filter_In. split; [assumption | apply Z.eqb_refl].
Qed.

(** The tail of both [get_queryset]s: owner filter, ordering, [distinct]. *)
Lemma student_tail u qs :
  let l := ORM.distinct_students (ORM.order_by ORM.id_desc (ORM.filter_student_user u qs)) in
  NoDup l /\
  StronglySorted (fun a b => ORM.id_desc a b = true) l /\
  forall s, In s l <-> In s qs /\ s_user s = u.
Proof.
  unfold ORM.distinct_students. cbv zeta. split; [apply NoDup_nodup|]. split.
  - apply nodup_StronglySorted.
    apply order_by_sorted; [apply id_desc_total | apply id_desc_trans].
  - intros s. rewrite nodup_In, order_by_In.
    unfold ORM.filter_student_user. rewrite filter_In, Z.eqb_eq. reflexivity.
Qed.

Lemma label_tail u qs :
  let l := ORM.distinct_labels (ORM.order_by ORM.title_desc (ORM.filter_label_user u qs)) in
  NoDup l /\
  StronglySorted (fun a b => ORM.title_desc a b = true) l /\
  forall x, In x l <-> In x qs /\ l_user x = u.
Proof.
  unfold ORM.distinct_labels. cbv zeta. split; [apply NoDup_nodup|]. split.
  - apply nodup_StronglySorted.
    apply order_by_sorted; [apply title_desc_total | apply title_desc_trans].
  - intros x. rewrite nodup_In, order_by_In.
    unfold ORM.filter_label_user. rewrite filter_In, Z.eqb_eq. reflexivity.
Qed.

(** [get_queryset] of the Student viewset, with the two parameters read
    first. *)
Lemma student_get_queryset_unfold req db :
  StudentViewSet.get_queryset req db =
  rbind (parsed_filter (QueryDict_get "tags" (query_params req))) (fun ft =>
  rbind (parsed_filter (QueryDict_get "courses" (query_params req))) (fun fc =>
  Ok (ORM.distinct_students
        (ORM.order_by ORM.id_desc
           (ORM.filter_student_user (user req)
              (join KCourse fc db (join KTag ft db (students db)))))))).
Proof.
  unfold StudentViewSet.get_queryset, parsed_filter, StudentViewSet.queryset.
  destruct (QueryDict_get "tags" (query_params req)) as [t|];
    [destruct (Python.truthy (Some t));
     [destruct (StudentViewSet._params_to_ints t)|]|];
    simpl; try reflexivity;
    (destruct (QueryDict_get "courses" (query_params req)) as [c|];
     [destruct (Python.truthy (Some c));
      [destruct (StudentViewSet._params_to_ints c)|]|];
     reflexivity).
Qed.

Lemma student_get_queryset_spec req db ft fc :
  parsed_filter (QueryDict_get "tags" (query_params req)) = Ok ft ->
  parsed_filter (QueryDict_get "courses" (query_params req)) = Ok fc ->
  exists l,
    StudentViewSet.get_queryset req db = Ok l /\
    NoDup l /\
    StronglySorted (fun a b => ORM.id_desc a b = true) l /\
    forall s, In s l <->
      In s (students db) /\ s_user s = user req /\
      passes KTag ft db s /\ passes KCourse fc db s.
Proof.
  intros Ht Hc. rewrite student_get_queryset_unfold, Ht, Hc. simpl.
  eexists. split; [reflexivity|].
  match goal with |- context [ORM.filter_student_user ?u ?qs] =>
    destruct (student_tail u qs) as (Hnd & Hs & Hin) end.
  split; [exact Hnd|]. split; [exact Hs|].
  intros s. rewrite Hin. unfold passes, join.
  destruct ft as [ti|], fc as [ci|];
    repeat rewrite filter_label_id_in_In; tauto.
Qed.

Lemma student_get_queryset_Ok req db l :
  StudentViewSet.get_queryset req db = Ok l ->
  exists ft fc,
    parsed_filter (QueryDict_get "tags" (query_params req)) = Ok ft /\
    parsed_filter (QueryDict_get "courses" (query_params req)) = Ok fc.
Proof.
  rewrite student_get_queryset_unfold. intros H.
  apply rbind_Ok in H as (ft & Hft & H). apply rbind_Ok in H as (fc & Hfc & _).
  eauto.
Qed.

Lemma parsed_filter_error param e :
  parsed_filter param = Err e -> e = ValueError.
Proof.
  unfold parsed_filter. destruct param as [t|]; [|discriminate].
  destruct (Python.truthy (Some t)); [|discriminate].
  unfold StudentViewSet._params_to_ints.
  generalize (Python.split_comma t). intros l.
  destruct (mapM int_or_ValueError l) as [ids|e'] eqn:Hm; simpl; [discriminate|].
  intros H; injection H as <-.
  revert e' Hm. induction l as [|x l IH]; simpl; intros e' Hm; [discriminate|].
  unfold int_or_ValueError at 1 in Hm. destruct (Python.int x); simpl in Hm.
  - destruct (mapM int_or_ValueError l); simpl in Hm; [discriminate|].
    injection Hm as <-. now apply IH.
  - now injection Hm as <-.
Qed.

Lemma student_get_queryset_error req db e :
  StudentViewSet.get_queryset req db = Err e -> e = ValueError.
Proof.
  rewrite student_get_queryset_unfold.
  destruct (parsed_filter (QueryDict_get "tags" (query_params req))) eqn:Ht; simpl.
  - destruct (parsed_filter (QueryDict_get "courses" (query_params req))) eqn:Hc;
      simpl; [discriminate|].
    intros H; injection H as <-. eapply parsed_filter_error; eauto.
  - intros H; injection H as <-. eapply parsed_filter_error; eauto.
Qed.

Lemma label_get_queryset_spec k req db n :
  assigned_only_value req = Ok n ->
  exists l,
    BaseStudentAttrViewSet.get_queryset k req db = Ok l /\
    NoDup l /\
    StronglySorted (fun a b => ORM.title_desc a b = true) l /\
    forall x, In x l <->
      In x (labels k db) /\ l_user x = user req /\
      (n <> 0 -> exists sid, In (sid, l_id x) (links k db)).
Proof.
  unfold assigned_only_value, BaseStudentAttrViewSet.get_queryset. intros ->. simpl.
  eexists. split; [reflexivity|].
  match goal with |- context [ORM.filter_label_user ?u ?qs] =>
    destruct (label_tail u qs) as (Hnd & Hs & Hin) end.
  split; [exact Hnd|]. split; [exact Hs|].
  intros x. rewrite Hin.
  destruct (Z.eqb_spec n 0) as [Hz|Hn]; simpl.
  - intuition congruence.
  - rewrite filter_student_notnull_In. tauto.
Qed.

Lemma label_get_queryset_Ok k req db l :
  BaseStudentAttrViewSet.get_queryset k req db = Ok l ->
  exists n, assigned_only_value req = Ok n.
Proof.
  unfold BaseStudentAttrViewSet.get_queryset. fold (assigned_only_value req).
  intros H. apply rbind_Ok in H as (n & Hn & _). eauto.
Qed.

Lemma label_get_queryset_error k req db e :
  BaseStudentAttrViewSet.get_queryset k req db = Err e -> e = ValueError.
Proof.
  unfold BaseStudentAttrViewSet.get_queryset.
  destruct (QueryDict_get "assigned_only" (query_params req)) as [s|]; simpl;
    [|discriminate].
  unfold int_or_ValueError. destruct (Python.int s); simpl; congruence.
Qed.

Lemma parsed_filter_falsy param :
  Python.truthy param = false -> parsed_filter param = Ok None.
Proof.
  unfold parsed_filter. destruct param as [t|]; [|reflexivity]. now intros ->.
Qed.

Lemma truthy_Some t : t <> "" -> Python.truthy (Some t) = true.
Proof.
  intros Ht. simpl. destruct (String.eqb_spec t ""); [contradiction | reflexivity].
Qed.

Lemma parsed_filter_ids t ids :
  t <> "" -> StudentViewSet._params_to_ints t = Ok ids ->
  parsed_filter (Some t) = Ok (Some ids).
Proof.
  intros Ht Hids. unfold parsed_filter. rewrite (truthy_Some Ht), Hids. reflexivity.
Qed.

Lemma malformed_parsed param :
  malformed param -> parsed_filter param = Err ValueError.
Proof.
  intros (t & -> & Ht & piece & Hin & Hp).
  unfold parsed_filter. rewrite (truthy_Some Ht).
  unfold StudentViewSet._params_to_ints.
  rewrite (@mapM_Err _ _ int_or_ValueError ValueError); [reflexivity| |].
  - intros x e'. unfold int_or_ValueError. destruct (Python.int x); congruence.
  - exists piece. split; [assumption|]. exists ValueError.
    unfold int_or_ValueError. now rewrite Hp.
Qed.

Lemma student_list_run req db :
  StudentViewSet.list_ req db =
  (db, match StudentViewSet.get_queryset req db with
       | Ok l => Ok {| status := 200; data := student_list_data db l |}
       | Err e => Err e
       end).
Proof.
  unfold StudentViewSet.list_, bind, query, get_db, ret.
  destruct (StudentViewSet.get_queryset req db); reflexivity.
Qed.

Lemma label_list_run k req db :
  BaseStudentAttrViewSet.list_ k req db =
  (db, match BaseStudentAttrViewSet.get_queryset k req db with
       | Ok l => Ok {| status := 200;
                       data := JList (map ModelSerializer.label_representation l) |}
       | Err e => Err e
       end).
Proof.
  unfold BaseStudentAttrViewSet.list_, bind, query, ret.
  destruct (BaseStudentAttrViewSet.get_queryset k req db); reflexivity.
Qed.

Lemma QueryDict_get_without key key' req :
  QueryDict_get key (query_params (without_param key' req)) =
  if String.eqb key key' then None else QueryDict_get key (query_params req).
Proof.
  unfold without_param; simpl.
  induction (query_params req) as [|[k0 v] q IH]; simpl.
  - now destruct (String.eqb key key').
  - destruct (String.eqb_spec k0 key') as [-> | Hk]; simpl.
    + rewrite IH. destruct (String.eqb_spec key key') as [-> | Hne]; [reflexivity|].
      destruct (QueryDict_get key q); [reflexivity|].
      destruct (String.eqb_spec key' key); [congruence | reflexivity].
    + rewrite IH. destruct (String.eqb_spec key key') as [-> | Hne]; [|reflexivity].
      destruct (String.eqb_spec k0 key'); [contradiction | reflexivity].
Qed.

Lemma parsed_filter_empty : parsed_filter (Some "") = parsed_filter None.
Proof. reflexivity. Qed.

(** ** C4: filtering the Student list by label ids *)

(** C4. A Student list request whose [tags] (resp. [courses]) parameter
    converts to the ids [ids], the other filter being absent or empty,
    returns exactly the requester's Students that have an association row
    with one of [ids], and no Student twice. *)
Theorem C4_student_list_filter_is_union k req db t ids :
  QueryDict_get (param_name k) (query_params req) = Some t ->
  t <> "" ->
  StudentViewSet._params_to_ints t = Ok ids ->
  Python.truthy (QueryDict_get (param_name (other k)) (query_params req)) = false ->
  exists l,
    StudentViewSet.list_ req db =
      (db, Ok {| status := 200; data := student_list_data db l |}) /\
    NoDup l /\
    forall s, In s l <->
      In s (students db) /\ s_user s = user req /\
      exists lid, In lid ids /\ In (s_id s, lid) (links k db).
Proof.
  intros Hp Ht Hids Hother.
  pose proof (parsed_filter_ids Ht Hids) as Hk. rewrite <- Hp in Hk.
  pose proof (parsed_filter_falsy _ Hother) as Ho.
  rewrite student_list_run.
  destruct k; simpl in Hk, Ho.
  - destruct (student_get_queryset_spec req db Hk Ho) as (l & -> & Hnd & _ & Hin).
    exists l. split; [reflexivity|]. split; [assumption|].
    intros s. rewrite Hin. simpl. tauto.
  - destruct (student_get_queryset_spec req db Ho Hk) as (l & -> & Hnd & _ & Hin).
    exists l. split; [reflexivity|]. split; [assumption|].
    intros s. rewrite Hin. simpl. tauto.
Qed.

Lemma C4_witness :
  exists l,
    StudentViewSet.list_ (request_of 1 [("tags", "1,2")]) sample_db =
      (sample_db, Ok {| status := 200; data := student_list_data sample_db l |}) /\
    NoDup l /\
    forall s, In s l <->
      In s (students sample_db) /\ s_user s = 1 /\
      exists lid, In lid [1; 2] /\ In (s_id s, lid) (links KTag sample_db).
Proof.
  apply (@C4_student_list_filter_is_union KTag (request_of 1 [("tags", "1,2")])
           sample_db "1,2" [1; 2]).
  - reflexivity.
  - discriminate.
  - reflexivity.
  - reflexivity.
Defined.

(** Anna carries both tags of the filter and is listed once, after Ben. *)
Example filter_by_two_tags :
  StudentViewSet.get_queryset (request_of 1 [("tags", "1,2")]) sample_db = Ok [ben; anna].
Proof. reflexivity. Qed.

(** With both filters the two conditions are conjoined. *)
Lemma student_list_both_filters req db tag_ids course_ids l :
  parsed_filter (QueryDict_get "tags" (query_params req)) = Ok tag_ids ->
  parsed_filter (QueryDict_get "courses" (query_params req)) = Ok course_ids ->
  StudentViewSet.get_queryset req db = Ok l ->
  forall s, In s l <->
    In s (students db) /\ s_user s = user req /\
    passes KTag tag_ids db s /\ passes KCourse course_ids db s.
Proof.
  intros Ht Hc Hl.
  destruct (student_get_queryset_spec req db Ht Hc) as (l' & Hl' & _ & _ & Hin).
  rewrite Hl in Hl'. injection Hl' as <-. exact Hin.
Qed.

(** ** C5: [assigned_only] on the label lists *)

Lemma assigned_only_1 req :
  QueryDict_get "assigned_only" (query_params req) = Some "1" ->
  assigned_only_value req = Ok 1.
Proof. unfold assigned_only_value. now intros ->. Qed.

Lemma assigned_only_0 req :
  QueryDict_get "assigned_only" (query_params req) = Some "0" ->
  assigned_only_value req = Ok 0.
Proof. unfold assigned_only_value. now intros ->. Qed.

Lemma assigned_only_absent req :
  QueryDict_get "assigned_only" (query_params req) = None ->
  assigned_only_value req = Ok 0.
Proof. unfold assigned_only_value. now intros ->. Qed.

(** C5. When [assigned_only] reads as the integer [n], the Tag (resp.
    Course) list holds no label twice; for [n <> 0] (the value [1]) it
    holds exactly the requester's labels that have an association row,
    whoever owns the Student of that row; for [n = 0] (the value [0], or no
    parameter) it holds exactly the requester's labels. *)
Theorem C5_label_list_assigned_only k req db n :
  assigned_only_value req = Ok n ->
  exists l,
    BaseStudentAttrViewSet.list_ k req db =
      (db, Ok {| status := 200;
                 data := JList (map ModelSerializer.label_representation l) |}) /\
    NoDup l /\
    (n <> 0 ->
     forall x, In x l <->
       In x (labels k db) /\ l_user x = user req /\
       exists sid, In (sid, l_id x) (links k db)) /\
    (n = 0 ->
     forall x, In x l <-> In x (labels k db) /\ l_user x = user req) /\
    (QueryDict_get "assigned_only" (query_params req) = Some "1" -> n = 1) /\
    (QueryDict_get "assigned_only" (query_params req) = Some "0" \/
     QueryDict_get "assigned_only" (query_params req) = None -> n = 0).
Proof.
  intros Hn.
  destruct (label_get_queryset_spec k req db Hn) as (l & Hl & Hnd & _ & Hin).
  exists l. rewrite label_list_run, Hl.
  split; [reflexivity|]. split; [assumption|].
  split; [|split; [|split]].
  - intros Hne x. rewrite Hin. tauto.
  - intros Hz x. rewrite Hin. intuition congruence.
  - intros H1. apply assigned_only_1 in H1. congruence.
  - intros [H0|H0];
      [apply assigned_only_0 in H0 | apply assigned_only_absent in H0]; congruence.
Qed.

Lemma C5_witness :
  exists l,
    BaseStudentAttrViewSet.list_ KTag (request_of 1 [("assigned_only", "1")]) sample_db =
      (sample_db, Ok {| status := 200;
                        data := JList (map ModelSerializer.label_representation l) |}) /\
    NoDup l /\
    (1 <> 0 ->
     forall x, In x l <->
       In x (labels KTag sample_db) /\ l_user x = 1 /\
       exists sid, In (sid, l_id x) (links KTag sample_db)) /\
    (1 = 0 ->
     forall x, In x l <-> In x (labels KTag sample_db) /\ l_user x = 1) /\
    (Some "1" = Some "1" -> 1 = 1) /\
    (Some "1" = Some "0" \/ Some "1" = @None string -> 1 = 0).
Proof.
  apply (@C5_label_list_assigned_only KTag (request_of 1 [("assigned_only", "1")])
           sample_db 1).
  reflexivity.
Defined.

(** Tag 2 is attached to two Students and listed once; tag 4 is attached
    to none and listed only without the flag. *)
Example assigned_tags_of_owner_1 :
  BaseStudentAttrViewSet.get_queryset KTag (request_of 1 [("assigned_only", "1")]) sample_db
  = Ok [ {| l_id := 1; l_title := "Vegan"; l_user := 1 |};
         {| l_id := 2; l_title := "Dessert"; l_user := 1 |} ]
  /\ BaseStudentAttrViewSet.get_queryset KTag (request_of 1 []) sample_db
  = Ok [ {| l_id := 1; l_title := "Vegan"; l_user := 1 |};
         {| l_id := 4; l_title := "Lunch"; l_user := 1 |};
         {| l_id := 2; l_title := "Dessert"; l_user := 1 |} ].
Proof. split; reflexivity. Qed.

(** ** C6: a filter id that is not an integer *)

(** C6 (as amended). A Student list request with an id in [tags] or
    [courses] that [int] rejects changes nothing in the database and fails
    with [ValueError], which the framework does not handle: the response is
    a server error, not a validation error with field-level detail. *)
Theorem C6_malformed_filter_id_raises_ValueError req db :
  malformed (QueryDict_get "tags" (query_params req)) \/
  malformed (QueryDict_get "courses" (query_params req)) ->
  exists e,
    StudentViewSet.list_ req db = (db, Err e) /\
    e = ValueError /\ is_validation_error e = false /\ status_code e = 500.
Proof.
  intros Hm. exists ValueError. rewrite student_list_run.
  destruct (StudentViewSet.get_queryset req db) as [l|e] eqn:Hq.
  - exfalso. apply student_get_queryset_Ok in Hq as (ft & fc & Ht & Hc).
    destruct Hm as [Hm|Hm]; apply malformed_parsed in Hm; congruence.
  - apply student_get_queryset_error in Hq. subst. repeat split; reflexivity.
Qed.

Lemma abc_is_malformed : malformed (Some "abc").
Proof.
  exists "abc". split; [reflexivity|]. split; [discriminate|].
  exists "abc". split; [now left | reflexivity].
Qed.

Lemma C6_witness :
  exists e,
    StudentViewSet.list_ (request_of 1 [("tags", "abc")]) sample_db = (sample_db, Err e) /\
    e = ValueError /\ is_validation_error e = false /\ status_code e = 500.
Proof.
  apply (@C6_malformed_filter_id_raises_ValueError
           (request_of 1 [("tags", "abc")]) sample_db).
  left. exact abc_is_malformed.
Defined.

(** The statement that such a request is answered with a validation
    error fails: the exception is [ValueError] and the status 500. *)
Lemma C6_malformed_id_is_not_a_validation_error :
  malformed (QueryDict_get "tags" (query_params (request_of 1 [("tags", "abc")]))) /\
  StudentViewSet.list_ (request_of 1 [("tags", "abc")]) sample_db
    = (sample_db, Err ValueError) /\
  status_code ValueError = 500 /\
  ~ (forall req db,
       malformed (QueryDict_get "tags" (query_params req)) ->
       exists fields,
         StudentViewSet.list_ req db = (db, Err (ValidationError fields))).
Proof.
  split; [exact abc_is_malformed|]. split; [reflexivity|]. split; [reflexivity|].
  intros H.
  destruct (H (request_of 1 [("tags", "abc")]) sample_db abc_is_malformed)
    as (fields & Hf).
  discriminate Hf.
Qed.

(** ** C9: the order of the lists *)

(** Primary keys come from a sequence: a created Student gets an id above
    every id in the table, so the newest Student heads its owner's list. *)
Lemma created_student_has_greatest_id vd db db' s :
  (forall x, In x (students db) -> s_id x < next_student_id db) ->
  ModelSerializer.objects_create vd db = (db', Ok s) ->
  (forall x, In x (students db) -> s_id x < s_id s) /\
  (forall x, In x (students db') -> s_id x < next_student_id db').
Proof.
  intros Hseq. unfold ModelSerializer.objects_create.
  destruct (v_user vd); [|discriminate].
  intros H; injection H as <- <-. simpl. split; [assumption|].
  intros x Hx. apply in_app_or in Hx as [Hx|[<- | []]].
  - apply Hseq in Hx. lia.
  - simpl. lia.
Qed.

(** C9. The Student queryset is in descending order of id, and a Student
    created later has a greater id; the Tag (resp. Course) queryset is in
    descending order of title.  The list responses follow the querysets. *)
Theorem C9_lists_are_ordered k req_s req_l db ls ll :
  StudentViewSet.get_queryset req_s db = Ok ls ->
  BaseStudentAttrViewSet.get_queryset k req_l db = Ok ll ->
  StronglySorted (fun a b => s_id b <= s_id a) ls /\
  StronglySorted (fun a b => String.leb (l_title b) (l_title a) = true) ll /\
  StudentViewSet.list_ req_s db =
    (db, Ok {| status := 200; data := student_list_data db ls |}) /\
  BaseStudentAttrViewSet.list_ k req_l db =
    (db, Ok {| status := 200;
               data := JList (map ModelSerializer.label_representation ll) |}) /\
  (forall vd db1 s,
     (forall x, In x (students db) -> s_id x < next_student_id db) ->
     ModelSerializer.objects_create vd db = (db1, Ok s) ->
     forall x, In x (students db) -> s_id x < s_id s).
Proof.
  intros Hs Hl. rewrite student_list_run, label_list_run, Hs, Hl.
  split; [|split; [|split; [reflexivity | split; [reflexivity|]]]];
    [| |intros vd db1 s Hseq Hc;
        exact (proj1 (@created_student_has_greatest_id vd db db1 s Hseq Hc))].
  - destruct (student_get_queryset_Ok _ _ Hs) as (ft & fc & Ht & Hc).
    destruct (student_get_queryset_spec req_s db Ht Hc) as (l & Hl' & _ & Hsorted & _).
    rewrite Hs in Hl'. injection Hl' as <-.
    eapply StronglySorted_ind with (P := StronglySorted _) in Hsorted;
      [exact Hsorted | constructor |].
    intros a l0 _ IH Hall. constructor; [assumption|].
    eapply Forall_impl; [|exact Hall]. unfold ORM.id_desc. intros b Hb. lia.
  - destruct (label_get_queryset_Ok _ _ _ Hl) as (n & Hn).
    destruct (label_get_queryset_spec k req_l db Hn) as (l & Hl' & _ & Hsorted & _).
    rewrite Hl in Hl'. injection Hl' as <-. exact Hsorted.
Qed.

Lemma C9_witness :
  StronglySorted (fun a b => s_id b <= s_id a) [ben; anna] /\
  StronglySorted (fun a b => String.leb (l_title b) (l_title a) = true)
    [ {| l_id := 1; l_title := "Vegan"; l_user := 1 |};
      {| l_id := 4; l_title := "Lunch"; l_user := 1 |};
      {| l_id := 2; l_title := "Dessert"; l_user := 1 |} ] /\
  StudentViewSet.list_ (request_of 1 []) sample_db =
    (sample_db, Ok {| status := 200; data := student_list_data sample_db [ben; anna] |}) /\
  BaseStudentAttrViewSet.list_ KTag (request_of 1 []) sample_db =
    (sample_db,
     Ok {| status := 200;
           data := JList (map ModelSerializer.label_representation
                            [ {| l_id := 1; l_title := "Vegan"; l_user := 1 |};
                              {| l_id := 4; l_title := "Lunch"; l_user := 1 |};
                              {| l_id := 2; l_title := "Dessert"; l_user := 1 |} ]) |}) /\
  (forall vd db1 s,
     (forall x, In x (students sample_db) -> s_id x < next_student_id sample_db) ->
     ModelSerializer.objects_create vd sample_db = (db1, Ok s) ->
     forall x, In x (students sample_db) -> s_id x < s_id s).
Proof.
  apply (@C9_lists_are_ordered KTag (request_of 1 []) (request_of 1 []) sample_db);
    reflexivity.
Defined.

(** ** C10: an empty filter parameter *)

(** C10. A request whose [tags] (resp. [courses]) parameter is the empty
    string is answered like the same request without the parameter; when
    the other filter is absent or empty too, the answer is the list of all
    the requester's Students. *)
Theorem C10_empty_filter_is_no_filter k req db :
  QueryDict_get (param_name k) (query_params req) = Some "" ->
  QueryDict_get (param_name k) (query_params (without_param (param_name k) req)) = None /\
  StudentViewSet.get_queryset req db =
    StudentViewSet.get_queryset (without_param (param_name k) req) db /\
  StudentViewSet.list_ req db =
    StudentViewSet.list_ (without_param (param_name k) req) db /\
  (Python.truthy (QueryDict_get (param_name (other k)) (query_params req)) = false ->
   exists l,
     StudentViewSet.list_ req db =
       (db, Ok {| status := 200; data := student_list_data db l |}) /\
     forall s, In s l <-> In s (students db) /\ s_user s = user req).
Proof.
  intros Hp.
  assert (Hq : StudentViewSet.get_queryset req db =
               StudentViewSet.get_queryset (without_param (param_name k) req) db).
  { rewrite !student_get_queryset_unfold, !QueryDict_get_without.
    destruct k; simpl in Hp |- *; rewrite Hp; reflexivity. }
  split; [|split; [exact Hq | split]].
  - rewrite QueryDict_get_without, String.eqb_refl. reflexivity.
  - rewrite !student_list_run, Hq. reflexivity.
  - intros Ho. apply parsed_filter_falsy in Ho.
    assert (Hk : parsed_filter (QueryDict_get (param_name k) (query_params req)) = Ok None)
      by (rewrite Hp; reflexivity).
    rewrite student_list_run.
    destruct k; simpl in Hk, Ho.
    + destruct (student_get_queryset_spec req db Hk Ho) as (l & -> & _ & _ & Hin).
      exists l. split; [reflexivity|]. intros s. rewrite Hin. simpl. tauto.
    + destruct (student_get_queryset_spec req db Ho Hk) as (l & -> & _ & _ & Hin).
      exists l. split; [reflexivity|]. intros s. rewrite Hin. simpl. tauto.
Qed.

Lemma C10_witness :
  QueryDict_get "tags"
    (query_params (without_param "tags" (request_of 1 [("tags", "")]))) = None /\
  StudentViewSet.get_queryset (request_of 1 [("tags", "")]) sample_db =
    StudentViewSet.get_queryset (without_param "tags" (request_of 1 [("tags", "")])) sample_db /\
  StudentViewSet.list_ (request_of 1 [("tags", "")]) sample_db =
    StudentViewSet.list_ (without_param "tags" (request_of 1 [("tags", "")])) sample_db /\
  (Python.truthy (QueryDict_get "courses" [("tags", "")]) = false ->
   exists l,
     StudentViewSet.list_ (request_of 1 [("tags", "")]) sample_db =
       (sample_db, Ok {| status := 200; data := student_list_data sample_db l |}) /\
     forall s, In s l <-> In s (students sample_db) /\ s_user s = 1).
Proof.
  apply (@C10_empty_filter_is_no_filter KTag (request_of 1 [("tags", "")]) sample_db).
  reflexivity.
Defined.

Example empty_tags_parameter :
  StudentViewSet.get_queryset (request_of 1 [("tags", "")]) sample_db = Ok [ben; anna].
Proof. reflexivity. Qed.

(** ** The tables under the ORM writes *)

Lemma labels_set_labels k k' l db :
  labels k' (set_labels k l db) =
  match k, k' with KTag, KTag | KCourse, KCourse => l | _, _ => labels k' db end.
Proof. destruct k, k'; reflexivity. Qed.

Lemma labels_set_links k k' l db : labels k' (set_links k l db) = labels k' db.
Proof. destruct k, k'; reflexivity. Qed.

Lemma labels_set_next_label_id k k' n db :
  labels k' (set_next_label_id k n db) = labels k' db.
Proof. destruct k, k'; reflexivity. Qed.

Lemma links_set_links k k' l db :
  links k' (set_links k l db) =
  match k, k' with KTag, KTag | KCourse, KCourse => l | _, _ => links k' db end.
Proof. destruct k, k'; reflexivity. Qed.

Lemma links_set_labels k k' l db : links k' (set_labels k l db) = links k' db.
Proof. destruct k, k'; reflexivity. Qed.

Lemma links_set_next_label_id k k' n db :
  links k' (set_next_label_id k n db) = links k' db.
Proof. destruct k, k'; reflexivity. Qed.

Lemma frame_refl k db : frame k db db.
Proof. repeat split. Qed.

Lemma frame_trans k db1 db2 db3 : frame k db1 db2 -> frame k db2 db3 -> frame k db1 db3.
Proof. unfold frame. intuition congruence. Qed.

Lemma frame_other_labels k db db' : frame k db db' -> labels (other k) db' = labels (other k) db.
Proof. unfold frame. tauto. Qed.

(** ** Label resolution: [get_or_create] and the loop around it *)

Lemma matching_in_app u t a b :
  matching_in u t (a ++ b) = matching_in u t a ++ matching_in u t b.
Proof. apply filter_app. Qed.

Lemma matching_in_In u t ls l :
  In l (matching_in u t ls) <-> In l ls /\ l_user l = u /\ l_title l = t.
Proof.
  unfold matching_in. rewrite filter_In, andb_true_iff, Z.eqb_eq, String.eqb_eq.
  reflexivity.
Qed.

Lemma missing_in_In u ts ls t :
  In t (missing_in u ts ls) -> In t ts /\ matching_in u t ls = [].
Proof.
  induction ts as [|a ts IH]; simpl; [tauto|].
  destruct (matching_in u a ls) eqn:Ha.
  - intros [<- | Hin]; [auto|].
    apply filter_In in Hin as (Hin & _). apply IH in Hin. tauto.
  - intros Hin. apply IH in Hin. tauto.
Qed.

Lemma In_missing_in u ts ls t :
  In t ts -> matching_in u t ls = [] -> In t (missing_in u ts ls).
Proof.
  induction ts as [|a ts IH]; simpl; [tauto|].
  intros Hin Hm. destruct (String.eqb_spec t a) as [-> | Hne].
  - rewrite Hm. now left.
  - destruct Hin as [-> | Hin]; [contradiction|].
    destruct (matching_in u a ls); [|auto].
    right. apply filter_In. split; [auto|].
    destruct (String.eqb_spec t a); [contradiction | reflexivity].
Qed.

Lemma NoDup_missing_in u ts ls : NoDup (missing_in u ts ls).
Proof.
  induction ts as [|a ts IH]; simpl; [constructor|].
  destruct (matching_in u a ls); [|assumption].
  constructor.
  - intros Hin. apply filter_In in Hin as (_ & Hb).
    now rewrite String.eqb_refl in Hb.
  - now apply NoDup_filter.
Qed.

Lemma filter_filter_comm {A} (p q : A -> bool) (l : list A) :
  filter p (filter q l) = filter q (filter p l).
Proof.
  induction l as [|x l IH]; simpl; [reflexivity|].
  destruct (p x) eqn:Hp, (q x) eqn:Hq; simpl; rewrite ?Hp, ?Hq, IH; reflexivity.
Qed.

Lemma filter_idem {A} (p : A -> bool) (l : list A) : filter p (filter p l) = filter p l.
Proof.
  induction l as [|x l IH]; simpl; [reflexivity|].
  destruct (p x) eqn:Hp; simpl; rewrite ?Hp, IH; reflexivity.
Qed.

(** Creating the label [l] removes its title from the missing ones. *)
Lemma missing_in_snoc u ts ls l :
  l_user l = u ->
  missing_in u ts (ls ++ [l]) =
  filter (fun t' => negb (String.eqb t' (l_title l))) (missing_in u ts ls).
Proof.
  intros Hu. induction ts as [|a ts IH]; simpl; [reflexivity|].
  rewrite matching_in_app. simpl. rewrite Hu, Z.eqb_refl. simpl.
  rewrite String.eqb_sym.
  destruct (String.eqb_spec a (l_title l)) as [-> | Hne].
  - destruct (matching_in u (l_title l) ls) eqn:Hm; simpl.
    + rewrite String.eqb_refl. simpl. rewrite IH. symmetry. apply filter_idem.
    + exact IH.
  - rewrite app_nil_r. destruct (matching_in u a ls) eqn:Hm; simpl.
    + destruct (String.eqb_spec a (l_title l)); [contradiction|]. simpl.
      rewrite IH. f_equal. apply filter_filter_comm.
    + exact IH.
Qed.

(** Labels created for missing titles never match a title that was
    matched before. *)
Lemma matching_in_created u ts ls new t :
  map l_title new = missing_in u ts ls ->
  matching_in u t ls <> [] ->
  matching_in u t new = [].
Proof.
  intros Hnew Hm.
  destruct (matching_in u t new) as [|l rest] eqn:Hn; [reflexivity|].
  exfalso. apply Hm.
  assert (Hl : In l (matching_in u t new)) by (rewrite Hn; now left).
  apply matching_in_In in Hl as (Hl & _ & Ht).
  apply (in_map l_title) in Hl. rewrite Hnew, Ht in Hl.
  now apply missing_in_In in Hl.
Qed.

Lemma get_or_create_run k u t db :
  ORM.get_or_create k u t db =
  match matching k u t db with
  | [] =>
      let l := {| l_id := next_label_id k db; l_title := t; l_user := u |} in
      (set_next_label_id k (next_label_id k db + 1)
         (set_labels k (labels k db ++ [l]) db),
       Ok (l, true))
  | [l] => (db, Ok (l, false))
  | _ => (db, Err MultipleObjectsReturned)
  end.
Proof. reflexivity. Qed.

Lemma add_run k sid lid db :
  exists db',
    ORM.add k sid lid db = (db', Ok tt) /\
    (forall k', labels k' db' = labels k' db) /\
    (forall r, In r (links k db') <-> In r (links k db) \/ r = (sid, lid)) /\
    frame k db db' /\ next_label_id k db' = next_label_id k db.
Proof.
  unfold ORM.add, modify.
  destruct (existsb (fun r => (fst r =? sid) && (snd r =? lid)) (links k db)) eqn:Hex.
  - exists db. split; [reflexivity|]. split; [reflexivity|].
    split; [|split; [apply frame_refl | reflexivity]].
    intros r. split; [auto|]. intros [Hr | ->]; [assumption|].
    apply existsb_exists in Hex as ([a b] & Hin & Hab). simpl in Hab.
    apply andb_true_iff in Hab as (Ha & Hb). apply Z.eqb_eq in Ha, Hb. now subst.
  - eexists. split; [reflexivity|].
    split; [intros k'; apply labels_set_links|].
    split; [|split; [destruct k; repeat split | destruct k; reflexivity]].
    intros r. rewrite links_set_links.
    destruct k; rewrite in_app_iff; simpl; intuition.
Qed.

Lemma frame_create k db l n :
  frame k db (set_next_label_id k n (set_labels k l db)).
Proof. destruct k; repeat split. Qed.

Lemma resolved_step k u t ts sid db db2 db' l pre new' :
  labels k db2 = labels k db ++ pre ->
  matching k u t db2 = [l] ->
  map l_title pre = missing k u [t] db ->
  Forall (fun x => l_user x = u) pre ->
  (forall r, In r (links k db2) <-> In r (links k db) \/ r = (sid, l_id l)) ->
  frame k db db2 ->
  resolved k u ts sid db2 db' new' ->
  resolved k u (t :: ts) sid db db' (pre ++ new').
Proof.
  intros Hlab Hmt Hpre Hupre Hlinks Hframe (HL & HT & HU & HM & HK & HF).
  assert (Hmt' : matching k u t db' = [l]).
  { unfold matching in *. rewrite HL, matching_in_app, Hmt.
    rewrite (@matching_in_created u ts (labels k db2) new' t); [reflexivity | exact HT |].
    rewrite Hmt. discriminate. }
  split; [|split; [|split; [|split; [|split]]]].
  - rewrite HL, Hlab. symmetry. apply app_assoc.
  - unfold missing in *. rewrite map_app, HT, Hlab. simpl in Hpre |- *.
    destruct (matching_in u t (labels k db)) as [|m ms] eqn:Hm0.
    + destruct pre as [|p [|p' pre']]; simpl in Hpre; try discriminate Hpre.
      injection Hpre as Hp. inversion Hupre as [|? ? Hpu _]; subst.
      simpl. f_equal. now apply missing_in_snoc.
    + destruct pre; [|discriminate Hpre]. simpl. now rewrite app_nil_r.
  - apply Forall_app. now split.
  - intros t' [<- | Hin]; [eauto | now apply HM].
  - intros r. rewrite HK, Hlinks. split.
    + intros [[Hr | ->]|(Hs & t' & l' & Hin & Hl' & Hid)].
      * now left.
      * right. split; [reflexivity|]. exists t, l. split; [now left|].
        rewrite Hmt'. split; [now left | reflexivity].
      * right. split; [assumption|]. exists t', l'. split; [now right | auto].
    + intros [Hr|(Hs & t' & l' & [<- | Hin] & Hl' & Hid)].
      * auto.
      * rewrite Hmt' in Hl'. destruct Hl' as [<- | []].
        left. right. destruct r; simpl in *. congruence.
      * right. split; [assumption|]. exists t', l'. auto.
  - eapply frame_trans; eassumption.
Qed.

(** Resolution succeeds when no title is ambiguous, and then creates one
    label per missing title, reuses the others and attaches them all. *)
Lemma get_or_create_all_spec k u ts student db :
  unambiguous k u ts db ->
  exists db' new,
    StudentSerializer.get_or_create_all k u ts student db = (db', Ok tt) /\
    resolved k u ts (s_id student) db db' new.
Proof.
  revert db. induction ts as [|t ts IH]; intros db Hun.
  - exists db, []. split; [reflexivity|].
    split; [now rewrite app_nil_r|]. split; [reflexivity|]. split; [constructor|].
    split; [intros t []|]. split; [|apply frame_refl].
    intros r. split; [auto|]. intros [Hr|(_ & t & l & [] & _)]. assumption.
  - pose proof (Hun t (or_introl eq_refl)) as Hlen.
    simpl. unfold bind at 1. rewrite get_or_create_run.
    destruct (matching k u t db) as [|l0 [|l1 rest]] eqn:Hm; [| |simpl in Hlen; lia].
    + cbv zeta.
      set (l := {| l_id := next_label_id k db; l_title := t; l_user := u |}).
      set (db1 := set_next_label_id k _ _).
      assert (Hlab1 : labels k db1 = labels k db ++ [l]).
      { unfold db1. rewrite labels_set_next_label_id, labels_set_labels.
        now destruct k. }
      destruct (add_run k (s_id student) (l_id (fst (l, true))) db1)
        as (db2 & Hadd & Hlab2 & Hlinks2 & Hframe2 & _).
      unfold bind at 1. rewrite Hadd.
      assert (Hmt : matching k u t db2 = [l]).
      { unfold matching in *. rewrite Hlab2, Hlab1, matching_in_app, Hm. simpl.
        now rewrite Z.eqb_refl, String.eqb_refl. }
      assert (Hun2 : unambiguous k u ts db2).
      { intros t' Ht'. destruct (String.eqb_spec t' t) as [-> | Hne].
        - rewrite Hmt. simpl. lia.
        - unfold matching. rewrite Hlab2, Hlab1, matching_in_app. simpl.
          rewrite String.eqb_sym.
          destruct (String.eqb_spec t' t); [contradiction|].
          rewrite andb_false_r, app_nil_r. apply Hun. now right. }
      destruct (IH db2 Hun2) as (db' & new' & Hrun & Hres).
      rewrite Hrun. exists db', ([l] ++ new'). split; [reflexivity|].
      eapply resolved_step with (db2 := db2) (l := l); try eassumption.
      * now rewrite Hlab2.
      * unfold missing, matching in *. simpl. now rewrite Hm.
      * now constructor.
      * intros r. rewrite Hlinks2. unfold db1.
        rewrite links_set_next_label_id, links_set_labels. reflexivity.
      * eapply frame_trans; [apply frame_create | exact Hframe2].
    + destruct (add_run k (s_id student) (l_id (fst (l0, false))) db)
        as (db2 & Hadd & Hlab2 & Hlinks2 & Hframe2 & _).
      unfold bind at 1. rewrite Hadd.
      assert (Hmt : matching k u t db2 = [l0]).
      { unfold matching in *. now rewrite Hlab2. }
      assert (Hun2 : unambiguous k u ts db2).
      { intros t' Ht'. unfold matching. rewrite Hlab2. apply Hun. now right. }
      destruct (IH db2 Hun2) as (db' & new' & Hrun & Hres).
      rewrite Hrun. exists db', ([] ++ new'). split; [reflexivity|].
      eapply resolved_step with (db2 := db2) (l := l0); try eassumption.
      * now rewrite Hlab2, app_nil_r.
      * unfold missing, matching in *. simpl. now rewrite Hm.
      * constructor.
Qed.

(** ** C2: get-or-create per owner and title *)

(** What the resolution loop does when no title is ambiguous. *)
Lemma label_resolution k u ts student db :
  unambiguous k u ts db ->
  exists db' new,
    StudentSerializer.get_or_create_all k u ts student db = (db', Ok tt) /\
    labels k db' = labels k db ++ new /\
    map l_title new = missing k u ts db /\
    NoDup (map l_title new) /\
    (forall l, In l new -> l_user l = u) /\
    (forall t l, In t ts -> In l (matching k u t db) ->
       matching k u t db' = [l] /\ In (s_id student, l_id l) (links k db')) /\
    (forall t, In t ts -> matching k u t db = [] ->
       exists l, In l new /\ matching k u t db' = [l] /\
                 In (s_id student, l_id l) (links k db')) /\
    (forall r, In r (links k db') <->
       In r (links k db) \/
       (fst r = s_id student /\
        exists t l, In t ts /\ In l (matching k u t db') /\ l_id l = snd r)) /\
    frame k db db'.
Proof.
  intros Hun.
  destruct (get_or_create_all_spec student Hun)
    as (db' & new & Hrun & HL & HT & HU & HM & HK & HF).
  exists db', new. split; [exact Hrun|]. split; [exact HL|]. split; [exact HT|].
  assert (Hattached : forall t l, In t ts -> matching k u t db' = [l] ->
                        In (s_id student, l_id l) (links k db')).
  { intros t l Ht Hl. apply HK. right. split; [reflexivity|].
    exists t, l. rewrite Hl. split; [assumption|]. split; [now left | reflexivity]. }
  split; [rewrite HT; apply NoDup_missing_in|].
  split; [now apply Forall_forall|].
  split; [|split; [|split; [exact HK | exact HF]]].
  - intros t l Ht Hl.
    assert (Hone : matching k u t db' = [l]).
    { unfold matching in *. rewrite HL, matching_in_app.
      rewrite (@matching_in_created u ts (labels k db) new t); [|exact HT|].
      - rewrite app_nil_r. pose proof (Hun t Ht) as Hlen. unfold matching in Hlen.
        destruct (matching_in u t (labels k db)) as [|a [|b rest]];
          [destruct Hl | | simpl in Hlen; lia].
        destruct Hl as [->|[]]. reflexivity.
      - intros Hnil. rewrite Hnil in Hl. destruct Hl. }
    split; [exact Hone | now apply Hattached with (t := t)].
  - intros t Ht Hnone.
    assert (Hmiss : In t (map l_title new)).
    { rewrite HT. now apply In_missing_in. }
    apply in_map_iff in Hmiss as (l & Hlt & Hl).
    destruct (HM t Ht) as (l' & Hl').
    assert (Hin : In l (matching k u t db')).
    { unfold matching. apply matching_in_In. rewrite HL, in_app_iff.
      rewrite Forall_forall in HU. auto. }
    rewrite Hl' in Hin. destruct Hin as [->|[]].
    exists l. split; [assumption|]. split; [assumption|].
    now apply Hattached with (t := t).
Qed.


(** C2 (as amended). When no title of [ts] names several labels of the
    owner, resolution succeeds; the created labels [new] are appended to
    the table, are owned by the owner and carry exactly the titles of [ts]
    that named no label, each once; a title that named a label keeps naming
    that label alone; every resolved label is attached to the Student, and
    nothing else is attached. *)
Theorem C2_get_or_create_per_owner_and_title k u ts student db :
  unambiguous k u ts db ->
  exists db' new,
    StudentSerializer.get_or_create_all k u ts student db = (db', Ok tt) /\
    labels k db' = labels k db ++ new /\
    map l_title new = missing k u ts db /\
    NoDup (map l_title new) /\
    (forall l, In l new -> l_user l = u) /\
    (forall t l, In t ts -> In l (matching k u t db) ->
       matching k u t db' = [l] /\ In (s_id student, l_id l) (links k db')) /\
    (forall t, In t ts -> matching k u t db = [] ->
       exists l, In l new /\ matching k u t db' = [l] /\
                 In (s_id student, l_id l) (links k db')) /\
    (forall r, In r (links k db') <->
       In r (links k db) \/
       (fst r = s_id student /\
        exists t l, In t ts /\ In l (matching k u t db') /\ l_id l = snd r)) /\
    frame k db db'.
Proof. exact (@label_resolution k u ts student db). Qed.

Lemma C2_witness :
  exists db' new,
    StudentSerializer.get_or_create_all KTag 1 ["Lunch"; "Supper"] ben sample_db
      = (db', Ok tt) /\
    labels KTag db' = labels KTag sample_db ++ new /\
    map l_title new = missing KTag 1 ["Lunch"; "Supper"] sample_db /\
    NoDup (map l_title new) /\
    (forall l, In l new -> l_user l = 1) /\
    (forall t l, In t ["Lunch"; "Supper"] -> In l (matching KTag 1 t sample_db) ->
       matching KTag 1 t db' = [l] /\ In (s_id ben, l_id l) (links KTag db')) /\
    (forall t, In t ["Lunch"; "Supper"] -> matching KTag 1 t sample_db = [] ->
       exists l, In l new /\ matching KTag 1 t db' = [l] /\
                 In (s_id ben, l_id l) (links KTag db')) /\
    (forall r, In r (links KTag db') <->
       In r (links KTag sample_db) \/
       (fst r = s_id ben /\
        exists t l, In t ["Lunch"; "Supper"] /\ In l (matching KTag 1 t db') /\
                    l_id l = snd r)) /\
    frame KTag sample_db db'.
Proof.
  apply (@C2_get_or_create_per_owner_and_title KTag 1 ["Lunch"; "Supper"] ben sample_db).
  intros t [<- | [<- | []]]; simpl; lia.
Defined.

(** The example of the specification: for an owner without labels, Thai
    and Dinner create two labels and attach both; Thai again creates none
    and attaches the first. *)
Lemma thai_dinner_then_thai k u student student2 db :
  (forall l, In l (labels k db) -> l_user l <> u) ->
  exists db1 thai dinner db2,
    StudentSerializer.get_or_create_all k u ["Thai"; "Dinner"] student db = (db1, Ok tt) /\
    labels k db1 = labels k db ++ [thai; dinner] /\
    (l_title thai = "Thai" /\ l_user thai = u) /\
    (l_title dinner = "Dinner" /\ l_user dinner = u) /\
    In (s_id student, l_id thai) (links k db1) /\
    In (s_id student, l_id dinner) (links k db1) /\
    StudentSerializer.get_or_create_all k u ["Thai"] student2 db1 = (db2, Ok tt) /\
    labels k db2 = labels k db1 /\
    In (s_id student2, l_id thai) (links k db2).
Proof.
  intros Hnone.
  assert (Hm : forall t, matching k u t db = []).
  { intros t. unfold matching. destruct (matching_in u t (labels k db)) as [|l r] eqn:H;
      [reflexivity|].
    assert (Hin : In l (matching_in u t (labels k db))) by (rewrite H; now left).
    apply matching_in_In in Hin as (Hin & Hu & _). now apply Hnone in Hin. }
  assert (Hun : unambiguous k u ["Thai"; "Dinner"] db).
  { intros t _. rewrite Hm. simpl. lia. }
  destruct (label_resolution student Hun)
    as (db1 & new & Hrun & HL & HT & _ & HU & _ & Hnew & _ & _).
  unfold missing in HT. simpl in HT. unfold matching in Hm. rewrite !Hm in HT.
  simpl in HT.
  destruct new as [|thai [|dinner [|x new]]]; try discriminate HT.
  injection HT as Ht Hd.
  assert (Hthai : matching k u "Thai" db1 = [thai]).
  { unfold matching. rewrite HL, matching_in_app, Hm. simpl.
    rewrite Ht, Hd, !(HU thai), !(HU dinner), Z.eqb_refl by (simpl; auto).
    reflexivity. }
  assert (Hdinner : matching k u "Dinner" db1 = [dinner]).
  { unfold matching. rewrite HL, matching_in_app, Hm. simpl.
    rewrite Ht, Hd, !(HU thai), !(HU dinner), Z.eqb_refl by (simpl; auto).
    reflexivity. }
  assert (Hun2 : unambiguous k u ["Thai"] db1).
  { intros t [<- | []]. rewrite Hthai. simpl. lia. }
  destruct (label_resolution student2 Hun2)
    as (db2 & new2 & Hrun2 & HL2 & HT2 & _ & _ & Hreuse & _ & _ & _).
  unfold missing in HT2. simpl in HT2. unfold matching in Hthai. rewrite Hthai in HT2.
  destruct new2; [|discriminate HT2]. rewrite app_nil_r in HL2.
  exists db1, thai, dinner, db2.
  split; [exact Hrun|]. split; [exact HL|].
  split; [split; [exact Ht | apply HU; simpl; auto]|].
  split; [split; [exact Hd | apply HU; simpl; auto]|].
  assert (Hboth : forall t l, In t ["Thai"; "Dinner"] -> matching k u t db1 = [l] ->
                    In (s_id student, l_id l) (links k db1)).
  { intros t l Hin Hl. destruct (Hnew t Hin (Hm t)) as (l' & _ & Hl' & Hlink).
    unfold matching in *. congruence. }
  split; [apply (Hboth "Thai"); simpl; auto|].
  split; [apply (Hboth "Dinner"); simpl; auto|].
  split; [exact Hrun2|]. split; [exact HL2|].
  apply (Hreuse "Thai"); [now left|]. unfold matching. rewrite Hthai. now left.
Qed.

(** The same through the API: the POST of the definition of
    [db_thai_dinner] creates two tags and attaches both; a second POST with
    Thai alone creates no tag and attaches tag 1 to the new Student. *)
Example post_thai_dinner :
  tags db_thai_dinner = [ {| l_id := 1; l_title := "Thai"; l_user := 1 |};
                          {| l_id := 2; l_title := "Dinner"; l_user := 1 |} ] /\
  student_tags db_thai_dinner = [(1, 1); (1, 2)] /\
  let db2 := fst (StudentViewSet.dispatch POST Collection (request_of 1 [])
                    (student_body "Second" (Some ["Thai"]) None) db_thai_dinner) in
  tags db2 = tags db_thai_dinner /\ student_tags db2 = [(1, 1); (1, 2); (2, 1)].
Proof. repeat split. Qed.

(** Two labels of the owner carry the title: [get_or_create] raises and
    no label is reused.  The state is reached through the API alone. *)
Lemma C2_matching_title_is_not_always_reused :
  matching KTag 1 "Thai" db_two_thai =
    [ {| l_id := 1; l_title := "Thai"; l_user := 1 |};
      {| l_id := 2; l_title := "Thai"; l_user := 1 |} ] /\
  StudentSerializer._get_or_create_tags 1 ["Thai"] ben db_two_thai
    = (db_two_thai, Err MultipleObjectsReturned) /\
  snd (StudentViewSet.dispatch POST Collection (request_of 1 [])
         (student_body "Second" (Some ["Thai"]) None) db_two_thai)
    = Err MultipleObjectsReturned /\
  ~ (forall k u t student db l,
       In l (matching k u t db) ->
       exists db',
         StudentSerializer.get_or_create_all k u [t] student db = (db', Ok tt) /\
         In (s_id student, l_id l) (links k db')).
Proof.
  split; [reflexivity|]. split; [reflexivity|]. split; [reflexivity|].
  intros H.
  destruct (H KTag 1 "Thai" ben db_two_thai
              {| l_id := 1; l_title := "Thai"; l_user := 1 |}) as (db' & Hrun & _).
  - now left.
  - discriminate Hrun.
Qed.

(** ** The write path of a Student *)

(** Whatever its outcome, the resolution loop touches the two tables of
    its kind only. *)
Lemma get_or_create_all_frame k u ts student db db' r :
  StudentSerializer.get_or_create_all k u ts student db = (db', r) ->
  frame k db db' /\ exists new, labels k db' = labels k db ++ new.
Proof.
  revert db. induction ts as [|t ts IH]; intros db; simpl.
  - intros H; injection H as <- <-. split; [apply frame_refl|].
    exists []. now rewrite app_nil_r.
  - unfold bind at 1. rewrite get_or_create_run.
    destruct (matching k u t db) as [|l0 [|l1 rest]]; cbv beta iota zeta;
      try unfold bind at 1.
    + match goal with |- context [ORM.add k ?a ?b ?d] =>
        destruct (add_run k a b d) as (db2 & Hadd & Hlab2 & _ & Hframe2 & _) end.
      rewrite Hadd. intros H. apply IH in H as (HF & new & HL).
      split.
      * eapply frame_trans; [|exact HF].
        eapply frame_trans; [apply frame_create | exact Hframe2].
      * rewrite HL, Hlab2, labels_set_next_label_id, labels_set_labels.
        eexists. destruct k; rewrite <- app_assoc; reflexivity.
    + match goal with |- context [ORM.add k ?a ?b ?d] =>
        destruct (add_run k a b d) as (db2 & Hadd & Hlab2 & _ & Hframe2 & _) end.
      rewrite Hadd. intros H. apply IH in H as (HF & new & HL).
      split; [eapply frame_trans; eassumption|].
      exists new. now rewrite HL, Hlab2.
    + intros H; injection H as <- <-. split; [apply frame_refl|].
      exists []. now rewrite app_nil_r.
Qed.

Lemma clear_run k sid db :
  ORM.clear k sid db =
  (set_links k (filter (fun r => negb (fst r =? sid)) (links k db)) db, Ok tt).
Proof. reflexivity. Qed.

Lemma frame_set_links k l db : frame k db (set_links k l db).
Proof. destruct k; repeat split. Qed.

Lemma replace_labels_frame k u o instance db db' r :
  replace_labels k u o instance db = (db', r) ->
  frame k db db' /\
  (exists new, labels k db' = labels k db ++ new) /\
  (o = None -> db' = db /\ r = Ok tt).
Proof.
  destruct o as [ts|]; simpl.
  - unfold bind. rewrite clear_run. intros H.
    apply get_or_create_all_frame in H as (HF & new & HL).
    split; [eapply frame_trans; [apply frame_set_links | exact HF]|].
    split; [|discriminate]. exists new. now rewrite HL, labels_set_links.
  - intros H; injection H as <- <-. split; [apply frame_refl|].
    split; [exists []; now rewrite app_nil_r | auto].
Qed.

(** The association set of the Student after a successful replacement. *)
Lemma replace_labels_spec k u ts instance db :
  unambiguous k u ts db ->
  exists db' new,
    replace_labels k u (Some ts) instance db = (db', Ok tt) /\
    labels k db' = labels k db ++ new /\
    map l_title new = missing k u ts db /\
    (forall l, In l new -> l_user l = u) /\
    (forall r, fst r <> s_id instance ->
       (In r (links k db') <-> In r (links k db))) /\
    (forall lid, In (s_id instance, lid) (links k db') <->
       exists l, In l (labels k db') /\ l_id l = lid /\ l_user l = u /\
                 In (l_title l) ts).
Proof.
  intros Hun. simpl. unfold bind. rewrite clear_run.
  set (dbc := set_links k _ db).
  assert (Hlabc : labels k dbc = labels k db) by apply labels_set_links.
  assert (Hlinksc : links k dbc = filter (fun r => negb (fst r =? s_id instance)) (links k db)).
  { unfold dbc. rewrite links_set_links. now destruct k. }
  assert (Hunc : unambiguous k u ts dbc).
  { intros t Ht. unfold matching. rewrite Hlabc. now apply Hun. }
  destruct (get_or_create_all_spec instance Hunc)
    as (db' & new & Hrun & HL & HT & HU & HM & HK & _).
  exists db', new. split; [exact Hrun|].
  split; [now rewrite HL, Hlabc|].
  split; [unfold missing in *; now rewrite HT, Hlabc|].
  split; [now apply Forall_forall|]. split.
  - intros r Hr. rewrite HK, Hlinksc, filter_In. split.
    + intros [[Hin _]|[Hs _]]; [assumption | contradiction].
    + intros Hin. left. split; [assumption|].
      destruct (Z.eqb_spec (fst r) (s_id instance)); [contradiction | reflexivity].
  - intros lid. rewrite HK, Hlinksc, filter_In. simpl. rewrite Z.eqb_refl. split.
    + intros [[_ Hf]|(_ & t & l & Ht & Hl & Hid)]; [discriminate|].
      apply matching_in_In in Hl as (Hl & Hu & Htl).
      exists l. rewrite Htl. auto.
    + intros (l & Hl & Hid & Hu & Ht). right. split; [reflexivity|].
      exists (l_title l), l. split; [assumption|]. split; [|assumption].
      apply matching_in_In. auto.
Qed.

Lemma save_student_run inst db :
  ORM.save_student inst db =
  (set_students (map (fun s => if s_id s =? s_id inst then inst else s) (students db)) db,
   Ok tt).
Proof. reflexivity. Qed.

Lemma serializer_update_unfold u instance vd :
  StudentSerializer.update u instance vd =
  bind (replace_labels KTag u (v_tags vd) instance) (fun _ =>
  bind (replace_labels KCourse u (v_courses vd) instance) (fun _ =>
  bind (ORM.save_student (ModelSerializer.setattrs instance (StudentSerializer.pop_labels vd)))
    (fun _ => ret (ModelSerializer.setattrs instance (StudentSerializer.pop_labels vd))))).
Proof.
  unfold StudentSerializer.update, replace_labels,
    StudentSerializer._get_or_create_tags, StudentSerializer._get_or_create_courses.
  destruct (v_tags vd), (v_courses vd); reflexivity.
Qed.

Lemma replace_labels_replaced k u o instance db :
  unambiguous k u (ModelSerializer.default [] o) db ->
  exists db',
    replace_labels k u o instance db = (db', Ok tt) /\
    replaced k u o (s_id instance) db db' /\
    frame k db db'.
Proof.
  intros Hun. destruct o as [ts|].
  - destruct (replace_labels_spec instance Hun)
      as (db' & new & Hrun & HL & HT & HU & Hother & Hmine).
    exists db'. split; [exact Hrun|]. split; [|now apply replace_labels_frame in Hrun].
    split; [eauto|]. split; assumption.
  - exists db. split; [reflexivity|]. split; [split; reflexivity | apply frame_refl].
Qed.

Lemma replaced_transport k u o sid db0 db db' db'' :
  replaced k u o sid db db' ->
  labels k db0 = labels k db -> links k db0 = links k db ->
  labels k db'' = labels k db' -> links k db'' = links k db' ->
  replaced k u o sid db0 db''.
Proof.
  unfold replaced, missing. intros H H1 H2 H3 H4.
  rewrite H1, H2, H3, H4. exact H.
Qed.

Lemma frame_other_links k db db' : frame k db db' -> links (other k) db' = links (other k) db.
Proof. unfold frame. tauto. Qed.

Lemma frame_students k db db' : frame k db db' -> students db' = students db.
Proof. unfold frame. tauto. Qed.

(** The serializer's [update] succeeds when the titles are unambiguous. *)
Lemma serializer_update_ok u instance vd db :
  unambiguous KTag u (ModelSerializer.default [] (v_tags vd)) db ->
  unambiguous KCourse u (ModelSerializer.default [] (v_courses vd)) db ->
  let instance' := ModelSerializer.setattrs instance (StudentSerializer.pop_labels vd) in
  exists db',
    StudentSerializer.update u instance vd db = (db', Ok instance') /\
    students db' =
      map (fun s => if s_id s =? s_id instance then instance' else s) (students db) /\
    replaced KTag u (v_tags vd) (s_id instance) db db' /\
    replaced KCourse u (v_courses vd) (s_id instance) db db'.
Proof.
  intros Ht Hc instance'.
  destruct (replace_labels_replaced (v_tags vd) instance Ht) as (db1 & H1 & R1 & F1).
  assert (Hc1 : unambiguous KCourse u (ModelSerializer.default [] (v_courses vd)) db1).
  { intros t Hin. unfold matching.
    rewrite (frame_other_labels F1 : labels KCourse db1 = labels KCourse db).
    now apply Hc. }
  destruct (replace_labels_replaced (v_courses vd) instance Hc1) as (db2 & H2 & R2 & F2).
  rewrite serializer_update_unfold. unfold bind. rewrite H1, H2, save_student_run.
  eexists. split; [reflexivity|].
  split; [simpl; now rewrite (frame_students F2), (frame_students F1)|]. split.
  - eapply replaced_transport; [exact R1 | reflexivity | reflexivity | |]; simpl.
    + exact (frame_other_labels F2).
    + exact (frame_other_links F2).
  - eapply replaced_transport; [exact R2 | | | reflexivity | reflexivity]; simpl.
    + symmetry. exact (frame_other_labels F1).
    + symmetry. exact (frame_other_links F1).
Qed.

(** Whatever its outcome, the serializer's [update] rewrites at most the
    row of the instance, and leaves alone the labels of a kind whose key is
    absent. *)
Lemma serializer_update_any u instance vd db db' r :
  StudentSerializer.update u instance vd db = (db', r) ->
  let instance' := ModelSerializer.setattrs instance (StudentSerializer.pop_labels vd) in
  (students db' = students db \/
   students db' =
     map (fun s => if s_id s =? s_id instance then instance' else s) (students db)) /\
  (v_tags vd = None -> labels KTag db' = labels KTag db /\ links KTag db' = links KTag db) /\
  (v_courses vd = None ->
     labels KCourse db' = labels KCourse db /\ links KCourse db' = links KCourse db) /\
  (forall k l, In l (labels k db) -> In l (labels k db')).
Proof.
  intros H instance'. revert H. rewrite serializer_update_unfold. unfold bind, ret.
  destruct (replace_labels KTag u (v_tags vd) instance db) as [db1 r1] eqn:H1.
  apply replace_labels_frame in H1 as (F1 & (new1 & L1) & N1).
  assert (G1 : forall k l, In l (labels k db) -> In l (labels k db1)).
  { intros [] l Hl; [rewrite L1, in_app_iff; auto|].
    now rewrite (frame_other_labels F1 : labels KCourse db1 = labels KCourse db). }
  destruct r1 as [[]|e1].
  - destruct (replace_labels KCourse u (v_courses vd) instance db1) as [db2 r2] eqn:H2.
    apply replace_labels_frame in H2 as (F2 & (new2 & L2) & N2).
    assert (G2 : forall k l, In l (labels k db1) -> In l (labels k db2)).
    { intros [] l Hl; [|rewrite L2, in_app_iff; auto].
      now rewrite (frame_other_labels F2 : labels KTag db2 = labels KTag db1). }
    assert (HT : v_tags vd = None ->
                 labels KTag db2 = labels KTag db /\ links KTag db2 = links KTag db).
    { intros Hn. destruct (N1 Hn) as (-> & _).
      split; [exact (frame_other_labels F2) | exact (frame_other_links F2)]. }
    assert (HC : v_courses vd = None ->
                 labels KCourse db2 = labels KCourse db /\
                 links KCourse db2 = links KCourse db).
    { intros Hn. destruct (N2 Hn) as (-> & _).
      split; [exact (frame_other_labels F1) | exact (frame_other_links F1)]. }
    destruct r2 as [[]|e2]; rewrite ?save_student_run;
      intros H; injection H as <- <-.
    + split; [right; simpl; now rewrite (frame_students F2), (frame_students F1)|].
      split; [exact HT|]. split; [exact HC|]. intros k l Hl. simpl.
      apply G1, G2 in Hl. now destruct k.
    + split; [left; now rewrite (frame_students F2), (frame_students F1)|]. auto.
  - intros H; injection H as <- <-.
    split; [left; exact (frame_students F1)|].
    split; [intros Hn; destruct (N1 Hn) as (-> & _); auto|].
    split; [|exact G1]. intros _.
    split; [exact (frame_other_labels F1) | exact (frame_other_links F1)].
Qed.

(** ** Validation *)

Lemma run_field_no_error {A} m partial required name (x : option (Field A)) e v :
  ModelSerializer.run_field m partial required name x = (e, v) ->
  e = [] ->
  v = (if writable m name
       then match x with Some (Valid a) => Some a | _ => None end
       else None) /\
  (writable m name = true -> x <> Some Invalid).
Proof.
  unfold ModelSerializer.run_field. destruct (writable m name).
  - destruct x as [[a|]|]; [| |destruct (required && negb partial)];
      intros H; injection H as <- <-; intros; split; congruence.
  - intros H; injection H as <- <-; split; [reflexivity | discriminate].
Qed.

Lemma run_labels_Valid ds ts :
  ModelSerializer.run_labels ds = Valid ts <-> titles ds = map Valid ts.
Proof.
  revert ts. induction ds as [|d ds IH]; intros ts; simpl.
  - split; [intros H; injection H as <-; reflexivity|].
    destruct ts; [reflexivity | discriminate].
  - destruct (ld_title d) as [t|]; [|split; [discriminate | destruct ts; discriminate]].
    destruct (ModelSerializer.run_labels ds) as [ts'|] eqn:Hds.
    + split.
      * intros H; injection H as <-. simpl. f_equal. now apply IH.
      * destruct ts as [|t0 ts0]; [discriminate|]. simpl. intros H.
        injection H as -> Hr. apply IH in Hr. congruence.
    + split; [discriminate|]. destruct ts as [|t0 ts0]; [discriminate|].
      simpl. intros H. injection H as _ Hr. apply IH in Hr. discriminate.
Qed.

Lemma run_labels_field ds :
  match ModelSerializer.run_labels ds with
  | Valid ts => titles ds = map Valid ts
  | Invalid => True
  end.
Proof.
  destruct (ModelSerializer.run_labels ds) eqn:H; [now apply run_labels_Valid | exact I].
Qed.

(** What the Student serializer keeps of a valid body: never the owner or
    the image, and a value only for the keys that are present. *)
Lemma to_internal_value_student partial body vd :
  ModelSerializer.to_internal_value StudentSerializer.Meta partial body = Ok vd ->
  v_user vd = None /\ v_image vd = None /\
  (d_name body = None -> v_name vd = None) /\
  (d_email body = None -> v_email vd = None) /\
  (d_address body = None -> v_address vd = None) /\
  (d_birthday body = None -> v_birthday vd = None) /\
  (d_link body = None -> v_link vd = None) /\
  (forall k,
     match d_labels k body with
     | None => v_labels k vd = None
     | Some ds => exists ts, v_labels k vd = Some ts /\ titles ds = map Valid ts
     end).
Proof.
  unfold ModelSerializer.to_internal_value.
  destruct (ModelSerializer.run_field _ _ _ "user" _) as [e0 vuser] eqn:H0.
  destruct (ModelSerializer.run_field _ _ _ "name" _) as [e1 vname] eqn:H1.
  destruct (ModelSerializer.run_field _ _ _ "email" _) as [e2 vemail] eqn:H2.
  destruct (ModelSerializer.run_field _ _ _ "address" _) as [e3 vaddress] eqn:H3.
  destruct (ModelSerializer.run_field _ _ _ "birthday" _) as [e4 vbirthday] eqn:H4.
  destruct (ModelSerializer.run_field _ _ _ "link" _) as [e5 vlink] eqn:H5.
  destruct (ModelSerializer.run_field _ _ _ "image" _) as [e6 vimage] eqn:H6.
  destruct (ModelSerializer.run_field _ _ _ "tags" _) as [e7 vtags] eqn:H7.
  destruct (ModelSerializer.run_field _ _ _ "courses" _) as [e8 vcourses] eqn:H8.
  destruct (e0 ++ e1 ++ e2 ++ e3 ++ e4 ++ e5 ++ e6 ++ e7 ++ e8) eqn:He; [|discriminate].
  repeat (apply app_eq_nil in He; destruct He as [? He]).
  intros Hok; injection Hok as <-. simpl.
  apply run_field_no_error in H0, H1, H2, H3, H4, H5, H6, H7, H8; try assumption.
  destruct H0 as [H0 _], H1 as [H1 _], H2 as [H2 _], H3 as [H3 _], H4 as [H4 _],
    H5 as [H5 _], H6 as [H6 _], H7 as [H7 V7], H8 as [H8 V8].
  simpl in H0, H1, H2, H3, H4, H5, H6, H7, H8.
  split; [assumption|]. split; [assumption|].
  split; [intros Hn; now rewrite Hn in H1|].
  split; [intros Hn; now rewrite Hn in H2|].
  split; [intros Hn; now rewrite Hn in H3|].
  split; [intros Hn; now rewrite Hn in H4|].
  split; [intros Hn; now rewrite Hn in H5|].
  intros []; simpl.
  - destruct (d_tags body) as [ds|]; simpl in H7, V7; [|assumption].
    pose proof (run_labels_field ds) as Hds.
    destruct (ModelSerializer.run_labels ds) as [ts|]; [eauto|].
    now destruct (V7 eq_refl).
  - destruct (d_courses body) as [ds|]; simpl in H8, V8; [|assumption].
    pose proof (run_labels_field ds) as Hds.
    destruct (ModelSerializer.run_labels ds) as [ts|]; [eauto|].
    now destruct (V8 eq_refl).
Qed.

Lemma to_internal_value_ignores_unlisted partial body :
  ModelSerializer.to_internal_value StudentSerializer.Meta partial body =
  ModelSerializer.to_internal_value StudentSerializer.Meta partial (ignore_unlisted body).
Proof. reflexivity. Qed.

(** ** [get_object] *)

Lemma get_student_Ok pk qs s :
  ORM.get_student pk qs = Ok s -> In s qs /\ s_id s = pk.
Proof.
  unfold ORM.get_student.
  destruct (filter (fun x => s_id x =? pk) qs) as [|a [|b r]] eqn:Hf; try discriminate.
  intros H; injection H as <-.
  assert (Hin : In a (filter (fun x => s_id x =? pk) qs)) by (rewrite Hf; now left).
  apply filter_In in Hin. now rewrite Z.eqb_eq in Hin.
Qed.

Lemma get_student_none pk qs :
  (forall s, In s qs -> s_id s <> pk) -> ORM.get_student pk qs = Err Http404.
Proof.
  intros H. unfold ORM.get_student.
  destruct (filter (fun x => s_id x =? pk) qs) as [|a r] eqn:Hf; [reflexivity|].
  assert (Hin : In a (filter (fun x => s_id x =? pk) qs)) by (rewrite Hf; now left).
  apply filter_In in Hin as (Hin & Hid). apply Z.eqb_eq in Hid. now apply H in Hin.
Qed.

Lemma filter_singleton {A} (p : A -> bool) (l : list A) (a : A) :
  NoDup l -> In a l -> p a = true ->
  (forall x, In x l -> p x = true -> x = a) ->
  filter p l = [a].
Proof.
  induction l as [|y l IH]; intros Hnd Hin Hp Huniq; [destruct Hin|].
  inversion Hnd as [|? ? Hy Hnd']; subst. simpl.
  assert (Hrest : ~ In a l -> filter p l = []).
  { intros Ha. destruct (filter p l) as [|z r] eqn:Hf; [reflexivity|].
    assert (Hz : In z (filter p l)) by (rewrite Hf; now left).
    apply filter_In in Hz as (Hz & Hpz).
    rewrite (Huniq z (or_intror Hz) Hpz) in Hz. contradiction. }
  destruct Hin as [-> | Hin].
  - rewrite Hp, Hrest by assumption. reflexivity.
  - destruct (p y) eqn:Hpy.
    + rewrite (Huniq y (or_introl eq_refl) Hpy) in Hy. contradiction.
    + apply IH; auto. intros x Hx. apply Huniq. now right.
Qed.

Lemma get_student_unique pk qs s :
  NoDup qs -> In s qs -> s_id s = pk ->
  (forall x, In x qs -> s_id x = pk -> x = s) ->
  ORM.get_student pk qs = Ok s.
Proof.
  intros Hnd Hin Hid Huniq. unfold ORM.get_student.
  rewrite (@filter_singleton _ (fun x => s_id x =? pk) qs s); auto.
  - now apply Z.eqb_eq.
  - intros x Hx Hpx. apply Z.eqb_eq in Hpx. auto.
Qed.

Lemma pk_unique_inj db s s' :
  pk_unique db -> In s (students db) -> In s' (students db) ->
  s_id s = s_id s' -> s = s'.
Proof.
  unfold pk_unique. induction (students db) as [|a l IH]; simpl; [tauto|].
  intros Hnd. inversion Hnd as [|? ? Ha Hnd']; subst.
  intros [-> | Hs] [-> | Hs'] Hid; auto.
  - exfalso. apply Ha. rewrite Hid. now apply in_map.
  - exfalso. apply Ha. rewrite <- Hid. now apply in_map.
Qed.

Lemma student_get_object_Ok req pk db s :
  StudentViewSet.get_object req pk db = Ok s ->
  In s (students db) /\ s_user s = user req /\ s_id s = pk.
Proof.
  unfold StudentViewSet.get_object. intros H.
  apply rbind_Ok in H as (l & Hl & Hget).
  apply get_student_Ok in Hget as (Hin & Hid).
  destruct (student_get_queryset_Ok _ _ Hl) as (ft & fc & Ht & Hc).
  apply (student_list_both_filters _ _ Ht Hc Hl) in Hin. tauto.
Qed.

(** An id that names no Student of the requester is not found. *)
Lemma student_get_object_foreign req pk db :
  (forall s, In s (students db) -> s_id s = pk -> s_user s <> user req) ->
  StudentViewSet.get_object req pk db =
  match StudentViewSet.get_queryset req db with
  | Ok _ => Err Http404
  | Err e => Err e
  end.
Proof.
  intros Hforeign. unfold StudentViewSet.get_object.
  destruct (StudentViewSet.get_queryset req db) as [l|e] eqn:Hl; [|reflexivity].
  simpl. apply get_student_none. intros s Hin Hid.
  destruct (student_get_queryset_Ok _ _ Hl) as (ft & fc & Ht & Hc).
  apply (student_list_both_filters _ _ Ht Hc Hl) in Hin as (Hin & Hu & _).
  exact (Hforeign s Hin Hid Hu).
Qed.

(** A Student of the requester is found when no label filter is given. *)
Lemma student_get_object_owned req db s :
  pk_unique db -> In s (students db) -> s_user s = user req ->
  Python.truthy (QueryDict_get "tags" (query_params req)) = false ->
  Python.truthy (QueryDict_get "courses" (query_params req)) = false ->
  StudentViewSet.get_object req (s_id s) db = Ok s.
Proof.
  intros Hpk Hin Hu Ht Hc. apply parsed_filter_falsy in Ht, Hc.
  destruct (student_get_queryset_spec req db Ht Hc) as (l & Hl & Hnd & _ & Hmem).
  unfold StudentViewSet.get_object. rewrite Hl. simpl.
  apply get_student_unique; [assumption | | reflexivity |].
  - apply Hmem. simpl. auto.
  - intros x Hx Hid. apply Hmem in Hx as (Hx & _).
    eapply pk_unique_inj; eauto.
Qed.

Lemma label_get_object_Ok k req pk db x :
  BaseStudentAttrViewSet.get_object k req pk db = Ok x ->
  In x (labels k db) /\ l_user x = user req /\ l_id x = pk.
Proof.
  unfold BaseStudentAttrViewSet.get_object. intros H.
  apply rbind_Ok in H as (l & Hl & Hget).
  unfold ORM.get_label in Hget.
  destruct (filter (fun y => l_id y =? pk) l) as [|a [|b r]] eqn:Hf; try discriminate.
  injection Hget as <-.
  assert (Hin : In a (filter (fun y => l_id y =? pk) l)) by (rewrite Hf; now left).
  apply filter_In in Hin as (Hin & Hid). apply Z.eqb_eq in Hid.
  destruct (label_get_queryset_Ok _ _ _ Hl) as (n & Hn).
  destruct (label_get_queryset_spec k req db Hn) as (l' & Hl' & _ & _ & Hmem).
  rewrite Hl in Hl'. injection Hl' as <-. apply Hmem in Hin. tauto.
Qed.

Lemma label_get_object_foreign k req pk db :
  (forall x, In x (labels k db) -> l_id x = pk -> l_user x <> user req) ->
  BaseStudentAttrViewSet.get_object k req pk db =
  match BaseStudentAttrViewSet.get_queryset k req db with
  | Ok _ => Err Http404
  | Err e => Err e
  end.
Proof.
  intros Hforeign. unfold BaseStudentAttrViewSet.get_object.
  destruct (BaseStudentAttrViewSet.get_queryset k req db) as [l|e] eqn:Hl; [|reflexivity].
  simpl. unfold ORM.get_label.
  destruct (filter (fun y => l_id y =? pk) l) as [|a r] eqn:Hf; [reflexivity|].
  assert (Hin : In a (filter (fun y => l_id y =? pk) l)) by (rewrite Hf; now left).
  apply filter_In in Hin as (Hin & Hid). apply Z.eqb_eq in Hid.
  destruct (label_get_queryset_Ok _ _ _ Hl) as (n & Hn).
  destruct (label_get_queryset_spec k req db Hn) as (l' & Hl' & _ & _ & Hmem).
  rewrite Hl in Hl'. injection Hl' as <-. apply Hmem in Hin as (Hin & Hu & _).
  exfalso. exact (Hforeign a Hin Hid Hu).
Qed.

(** ** The actions on one Student or label *)

Lemma student_update_run partial req pk body db :
  StudentViewSet.update partial req pk body db =
  match StudentViewSet.get_object req pk db with
  | Err e => (db, Err e)
  | Ok instance =>
      match ModelSerializer.to_internal_value StudentSerializer.Meta partial body with
      | Err e => (db, Err e)
      | Ok vd =>
          match StudentSerializer.update (user req) instance vd db with
          | (db', Ok instance') =>
              (db', Ok {| status := 200;
                          data := JObj (ModelSerializer.to_representation
                                          StudentSerializer.Meta db' instance') |})
          | (db', Err e) => (db', Err e)
          end
      end
  end.
Proof.
  unfold StudentViewSet.update, StudentViewSet.serializer_data, bind, query, get_db, ret.
  destruct partial; simpl;
    (destruct (StudentViewSet.get_object req pk db); [|reflexivity]);
    (destruct (ModelSerializer.to_internal_value StudentSerializer.Meta _ body);
     [|reflexivity]);
    match goal with |- context [StudentSerializer.update ?u ?i ?v ?d] =>
      destruct (StudentSerializer.update u i v d) as [db' [i'|e]] end; reflexivity.
Qed.

Lemma student_retrieve_run req pk db :
  StudentViewSet.retrieve req pk db =
  (db, match StudentViewSet.get_object req pk db with
       | Ok s => Ok {| status := 200;
                       data := JObj (ModelSerializer.to_representation
                                       (meta (StudentViewSet.get_serializer_class A_retrieve))
                                       db s) |}
       | Err e => Err e
       end).
Proof.
  unfold StudentViewSet.retrieve, StudentViewSet.serializer_data, bind, query, get_db, ret.
  destruct (StudentViewSet.get_object req pk db); reflexivity.
Qed.

(** Every action on one Student starts with [get_object]. *)
Lemma student_detail_fail req pk db e body :
  StudentViewSet.get_object req pk db = Err e ->
  StudentViewSet.retrieve req pk db = (db, Err e) /\
  (forall partial, StudentViewSet.update partial req pk body db = (db, Err e)) /\
  StudentViewSet.destroy req pk db = (db, Err e) /\
  StudentViewSet.upload_image req pk body db = (db, Err e).
Proof.
  intros H. split; [now rewrite student_retrieve_run, H|].
  split; [intros partial; now rewrite student_update_run, H|].
  unfold StudentViewSet.destroy, StudentViewSet.upload_image, bind, query.
  rewrite H. split; reflexivity.
Qed.

Lemma label_detail_fail k req pk db e body :
  BaseStudentAttrViewSet.get_object k req pk db = Err e ->
  (forall partial, BaseStudentAttrViewSet.update k partial req pk body db = (db, Err e)) /\
  BaseStudentAttrViewSet.destroy k req pk db = (db, Err e).
Proof.
  intros H.
  unfold BaseStudentAttrViewSet.update, BaseStudentAttrViewSet.destroy, bind, query.
  rewrite H. split; reflexivity.
Qed.

Lemma map_replace_proj {B} (f : Student -> B) (l : list Student) (inst inst' : Student) :
  (forall s, In s l -> s_id s = s_id inst -> s = inst) ->
  f inst' = f inst ->
  map f (map (fun s => if s_id s =? s_id inst then inst' else s) l) = map f l.
Proof.
  intros Huniq Hf. rewrite map_map. apply map_ext_in. intros s Hs.
  destruct (Z.eqb_spec (s_id s) (s_id inst)) as [Heq|Hne]; [|reflexivity].
  now rewrite (Huniq s Hs Heq).
Qed.

(** ** The integrity of the store is an invariant *)

Lemma hoare_bind {A B} (P : DB -> Prop) (m : M A) (f : A -> M B)
    (R : A -> DB -> Prop) (Q : result B -> DB -> Prop) :
  hoare P m (fun r db => match r with Ok a => R a db | Err e => Q (Err e) db end) ->
  (forall a, hoare (R a) (f a) Q) ->
  hoare P (bind m f) Q.
Proof.
  intros Hm Hf db HP. specialize (Hm db HP). unfold bind.
  destruct (m db) as [db1 [a|e]]; simpl in Hm |- *; [now apply Hf | exact Hm].
Qed.

Lemma hoare_ret {A} (P : DB -> Prop) (a : A) (Q : result A -> DB -> Prop) :
  (forall db, P db -> Q (Ok a) db) -> hoare P (ret a) Q.
Proof. intros H db HP. now apply H. Qed.

Lemma hoare_raise {A} (P : DB -> Prop) (e : Error) (Q : result A -> DB -> Prop) :
  (forall db, P db -> Q (Err e) db) -> hoare P (raise e) Q.
Proof. intros H db HP. now apply H. Qed.

Lemma hoare_query {A} (P : DB -> Prop) (q : DB -> result A)
    (Q : result A -> DB -> Prop) :
  (forall db, P db -> Q (q db) db) -> hoare P (query q) Q.
Proof. intros H db HP. now apply H. Qed.

Lemma hoare_modify (P : DB -> Prop) (f : DB -> DB) (Q : result unit -> DB -> Prop) :
  (forall db, P db -> Q (Ok tt) (f db)) -> hoare P (modify f) Q.
Proof. intros H db HP. now apply H. Qed.

Lemma hoare_weaken {A} (P P' : DB -> Prop) (m : M A) (Q Q' : result A -> DB -> Prop) :
  hoare P' m Q' ->
  (forall db, P db -> P' db) ->
  (forall r db, Q' r db -> Q r db) ->
  hoare P m Q.
Proof. intros Hm HP HQ db H. apply HQ, Hm, HP, H. Qed.

Lemma NoDup_snoc_fresh (ids : list Z) (n : Z) :
  NoDup ids -> (forall i, In i ids -> i < n) -> NoDup (ids ++ [n]).
Proof.
  intros Hnd Hlt. apply NoDup_app; [assumption | repeat constructor; auto|].
  intros i Hi [<- | []]. apply Hlt in Hi. lia.
Qed.

Lemma NoDup_map_filter {A} (key : A -> Z) (keep : A -> bool) (rows : list A) :
  NoDup (map key rows) -> NoDup (map key (filter keep rows)).
Proof.
  induction rows as [|row rows IH]; simpl; [auto|].
  intros Hnd. inversion Hnd as [|? ? Hrow Hrows]; subst.
  destruct (keep row); simpl; [|auto].
  constructor; [|auto]. intros Hin. apply Hrow.
  apply in_map_iff in Hin as (y & Hy & Hin). apply filter_In in Hin as (Hin & _).
  rewrite <- Hy. now apply in_map.
Qed.

Lemma wf_empty_db : wf empty_db.
Proof.
  split; [constructor|]. split; [intros s []|].
  intros []; (split; [split; [constructor | intros l []] | intros r []]).
Qed.

(** The label tables may grow by a label with the next primary key. *)
Lemma wf_create_label k u t db :
  wf db ->
  wf (set_next_label_id k (next_label_id k db + 1)
        (set_labels k
           (labels k db ++ [{| l_id := next_label_id k db; l_title := t; l_user := u |}])
           db)).
Proof.
  intros (Hpk & Hseq & Hk).
  split; [destruct k; exact Hpk|]. split; [destruct k; exact Hseq|].
  intros k'. destruct (Hk k') as ((Hnd & Hlt) & Hlinks). split; [split|].
  - destruct k, k'; simpl in *; try assumption;
      rewrite map_app; now apply NoDup_snoc_fresh; [|intros i Hi;
        apply in_map_iff in Hi as (l & <- & Hl); now apply Hlt].
  - destruct k, k'; simpl in *; try assumption;
      intros l Hl; apply in_app_or in Hl as [Hl | [<- | []]];
      try (apply Hlt in Hl); simpl; lia.
  - intros r Hr.
    assert (Hr' : In r (links k' db)) by (destruct k, k'; exact Hr).
    destruct (Hlinks r Hr') as (s & l & Hs & Hl & H1 & H2 & H3).
    exists s, l. split; [destruct k; exact Hs|].
    split; [|auto]. destruct k, k'; simpl; try assumption; apply in_or_app; now left.
Qed.

Lemma get_or_create_wf k u t (P : DB -> Prop) :
  (forall db l n, P db -> P (set_next_label_id k n (set_labels k l db))) ->
  hoare (fun db => wf db /\ P db) (ORM.get_or_create k u t)
    (fun r db =>
       wf db /\ P db /\
       match r with
       | Ok (l, _) => In l (labels k db) /\ l_user l = u
       | Err _ => True
       end).
Proof.
  intros HP db (Hwf & Hp). rewrite get_or_create_run.
  destruct (matching k u t db) as [|l0 [|l1 rest]] eqn:Hm; cbv zeta; simpl.
  - split; [now apply wf_create_label|]. split; [now apply HP|].
    split; [|reflexivity]. rewrite labels_set_next_label_id, labels_set_labels.
    destruct k; apply in_or_app; right; now left.
  - split; [assumption|]. split; [assumption|].
    assert (Hin : In l0 (matching k u t db)) by (rewrite Hm; now left).
    apply matching_in_In in Hin. tauto.
  - auto.
Qed.

Lemma add_wf k sid u l (P : DB -> Prop) :
  (forall db ls, P db -> P (set_links k ls db)) ->
  hoare (fun db => wf db /\ P db /\ owned_by sid u db /\
                   In l (labels k db) /\ l_user l = u)
    (ORM.add k sid (l_id l))
    (fun _ db => wf db /\ P db /\ owned_by sid u db).
Proof.
  intros HP. apply hoare_modify. intros db (Hwf & Hp & Hown & Hl & Hu).
  destruct (existsb _ (links k db)); [auto|].
  split; [|split; [now apply HP | destruct k; exact Hown]].
  destruct Hwf as (Hpk & Hseq & Hk).
  split; [destruct k; exact Hpk|]. split; [destruct k; exact Hseq|].
  intros k'. destruct (Hk k') as (Hlab & Hlinks).
  split; [destruct k, k'; exact Hlab|].
  intros r Hr.
  assert (Hcase : In r (links k' db) \/ (k' = k /\ r = (sid, l_id l))).
  { destruct k, k'; simpl in Hr; auto;
      apply in_app_or in Hr as [Hr | [<- | []]]; auto. }
  destruct Hcase as [Hr' | (-> & ->)].
  - destruct (Hlinks r Hr') as (s & l' & Hs & Hl' & H1 & H2 & H3).
    exists s, l'. destruct k, k'; auto 10.
  - destruct Hown as (s & Hs & Hsid & Hsu).
    exists s, l. destruct k; simpl; repeat split; auto; congruence.
Qed.

Lemma owned_by_set_labels k sid u db l n :
  owned_by sid u db -> owned_by sid u (set_next_label_id k n (set_labels k l db)).
Proof. destruct k; exact (fun H => H). Qed.

Lemma owned_by_set_links k sid u db l :
  owned_by sid u db -> owned_by sid u (set_links k l db).
Proof. destruct k; exact (fun H => H). Qed.

(** Resolution keeps the integrity, whatever its outcome. *)
Lemma get_or_create_all_wf k u ts student :
  hoare (fun db => wf db /\ owned_by (s_id student) u db)
    (StudentSerializer.get_or_create_all k u ts student)
    (fun _ db => wf db /\ owned_by (s_id student) u db).
Proof.
  induction ts as [|t ts IH]; simpl.
  - apply hoare_ret. auto.
  - apply hoare_bind with
      (R := fun a db => wf db /\ owned_by (s_id student) u db /\
                        In (fst a) (labels k db) /\ l_user (fst a) = u).
    + eapply hoare_weaken;
        [apply (@get_or_create_wf k u t (owned_by (s_id student) u)) | |].
      * intros db l n. apply owned_by_set_labels.
      * auto.
      * intros [[l b]|e] db (Hwf & Hown & Hr); simpl; auto.
    + intros [l b]. simpl.
      apply hoare_bind with (R := fun _ db => wf db /\ owned_by (s_id student) u db).
      * eapply hoare_weaken;
          [apply (@add_wf k (s_id student) u l (fun _ => True)) | |].
        -- auto.
        -- intros db (Hwf & Hown & Hl & Hu). auto.
        -- intros [[]|e] db (Hwf & _ & Hown); auto.
      * intros _. exact IH.
Qed.

Lemma clear_wf k sid (P : DB -> Prop) :
  (forall db ls, P db -> P (set_links k ls db)) ->
  hoare (fun db => wf db /\ P db) (ORM.clear k sid) (fun _ db => wf db /\ P db).
Proof.
  intros HP. apply hoare_modify. intros db ((Hpk & Hseq & Hk) & Hp).
  split; [|now apply HP].
  split; [destruct k; exact Hpk|]. split; [destruct k; exact Hseq|].
  intros k'. destruct (Hk k') as (Hlab & Hlinks).
  split; [destruct k, k'; exact Hlab|].
  intros r Hr.
  assert (Hr' : In r (links k' db)).
  { destruct k, k'; simpl in Hr; auto; now apply filter_In in Hr. }
  destruct (Hlinks r Hr') as (s & l' & Hs & Hl' & H1 & H2 & H3).
  exists s, l'. destruct k, k'; auto 10.
Qed.

(** Saving an instance that keeps the id and the owner of its row. *)
Lemma save_student_wf inst :
  hoare (fun db => wf db /\ owned_by (s_id inst) (s_user inst) db)
    (ORM.save_student inst) (fun _ db => wf db).
Proof.
  apply hoare_modify. intros db ((Hpk & Hseq & Hk) & (s0 & Hs0 & Hid0 & Hu0)).
  assert (Hids : map s_id (map (fun s => if s_id s =? s_id inst then inst else s)
                             (students db)) = map s_id (students db)).
  { rewrite map_map. apply map_ext. intros s.
    destruct (Z.eqb_spec (s_id s) (s_id inst)); congruence. }
  assert (Huser : forall s, In s (students db) -> s_id s = s_id inst ->
                            s_user s = s_user inst).
  { intros s Hs Hid. rewrite (@pk_unique_inj db s s0 Hpk Hs Hs0); congruence. }
  split; [unfold pk_unique; simpl; now rewrite Hids|]. split.
  - simpl. intros s Hs. apply in_map_iff in Hs as (s' & <- & Hs').
    destruct (Z.eqb_spec (s_id s') (s_id inst)) as [Heq|]; [rewrite <- Heq|]; auto.
  - intros k. destruct (Hk k) as (Hlab & Hlinks). split; [exact Hlab|].
    intros r Hr. destruct (Hlinks r Hr) as (s & l & Hs & Hl & H1 & H2 & H3).
    exists (if s_id s =? s_id inst then inst else s), l.
    split; [simpl; apply in_map_iff; eauto|]. split; [exact Hl|].
    destruct (Z.eqb_spec (s_id s) (s_id inst)) as [Heq|]; [|auto].
    rewrite <- (Huser s Hs Heq). repeat split; congruence.
Qed.

Lemma delete_student_wf inst :
  hoare wf (ORM.delete_student inst) (fun _ db => wf db).
Proof.
  apply hoare_modify. intros db (Hpk & Hseq & Hk).
  split; [unfold pk_unique; simpl; now apply NoDup_map_filter|]. split.
  - simpl. intros s Hs. apply filter_In in Hs as (Hs & _). auto.
  - intros k. destruct (Hk k) as (Hlab & Hlinks). split; [destruct k; exact Hlab|].
    intros r Hr.
    assert (Hr' : In r (links k db) /\ fst r <> s_id inst).
    { destruct k; simpl in Hr; apply filter_In in Hr as (Hr & Hne);
        (split; [assumption|]); intros Heq; rewrite Heq, Z.eqb_refl in Hne;
        discriminate. }
    destruct Hr' as (Hr' & Hne).
    destruct (Hlinks r Hr') as (s & l & Hs & Hl & H1 & H2 & H3).
    exists s, l. split; [|destruct k; auto].
    simpl. apply filter_In. split; [assumption|].
    destruct (Z.eqb_spec (s_id s) (s_id inst)); [congruence | reflexivity].
Qed.

Lemma save_label_wf k inst :
  hoare (fun db => wf db /\
                   exists l, In l (labels k db) /\ l_id l = l_id inst /\
                             l_user l = l_user inst)
    (ORM.save_label k inst) (fun _ db => wf db).
Proof.
  apply hoare_modify. intros db ((Hpk & Hseq & Hk) & (l0 & Hl0 & Hid0 & Hu0)).
  set (ls := map (fun l => if l_id l =? l_id inst then inst else l) (labels k db)).
  assert (Hids : map l_id ls = map l_id (labels k db)).
  { unfold ls. rewrite map_map. apply map_ext. intros l.
    destruct (Z.eqb_spec (l_id l) (l_id inst)); congruence. }
  assert (Huniq : forall l, In l (labels k db) -> l_id l = l_id inst -> l = l0).
  { destruct (Hk k) as ((Hnd & _) & _). intros l Hl Hid.
    revert Hnd Hl Hl0 Hid Hid0. clear. induction (labels k db) as [|a t IH]; simpl; [tauto|].
    intros Hnd. inversion Hnd as [|? ? Ha Hnd']; subst.
    intros [-> | Hl] [-> | Hl0] Hid Hid0; auto.
    - exfalso. apply Ha. rewrite Hid, <- Hid0. now apply in_map.
    - exfalso. apply Ha. rewrite Hid0, <- Hid. now apply in_map. }
  assert (Hlabels : labels k (set_labels k ls db) = ls) by (now destruct k).
  split; [destruct k; exact Hpk|]. split; [destruct k; exact Hseq|].
  intros k'. destruct (Hk k') as ((Hnd & Hlt) & Hlinks).
  assert (Hlab' : labels k' (set_labels k ls db) =
                  if match k, k' with KTag, KTag | KCourse, KCourse => true | _, _ => false end
                  then ls else labels k' db) by (now destruct k, k').
  split; [split|].
  - rewrite Hlab'. destruct k, k'; auto; now rewrite Hids.
  - intros l Hl. rewrite Hlab' in Hl.
    assert (Hnext : next_label_id k' (set_labels k ls db) = next_label_id k' db)
      by (now destruct k, k').
    rewrite Hnext.
    destruct k, k'; auto; apply in_map_iff in Hl as (l' & <- & Hl');
      (destruct (Z.eqb_spec (l_id l') (l_id inst)) as [Heq|]; [rewrite <- Heq|]; auto).
  - intros r Hr.
    assert (Hr' : In r (links k' db)) by (destruct k, k'; exact Hr).
    destruct (Hlinks r Hr') as (s & l & Hs & Hl & H1 & H2 & H3).
    destruct k, k';
      try (exists s, l; auto 10; fail);
      (exists s, (if l_id l =? l_id inst then inst else l);
       split; [exact Hs|]; split; [apply in_map_iff; eauto|];
       destruct (Z.eqb_spec (l_id l) (l_id inst)) as [Heq|]; [|auto];
       rewrite (Huniq l Hl Heq) in *; repeat split; congruence).
Qed.

Lemma delete_label_wf k inst :
  hoare wf (ORM.delete_label k inst) (fun _ db => wf db).
Proof.
  apply hoare_modify. intros db (Hpk & Hseq & Hk).
  split; [destruct k; exact Hpk|]. split; [destruct k; exact Hseq|].
  intros k'. destruct (Hk k') as ((Hnd & Hlt) & Hlinks). split; [split|].
  - destruct k, k'; simpl; auto; now apply NoDup_map_filter.
  - destruct k, k'; simpl; auto; intros l Hl; apply filter_In in Hl as (Hl & _); auto.
  - intros r Hr.
    assert (Hr' : In r (links k' db) /\ (k' = k -> snd r <> l_id inst)).
    { destruct k, k'; simpl in Hr; try (split; [exact Hr | discriminate]);
        apply filter_In in Hr as (Hr & Hne); (split; [assumption|]);
        intros _ Heq; rewrite Heq, Z.eqb_refl in Hne; discriminate. }
    destruct Hr' as (Hr' & Hne).
    destruct (Hlinks r Hr') as (s & l & Hs & Hl & H1 & H2 & H3).
    exists s, l. split; [destruct k; exact Hs|]. split; [|auto].
    destruct k, k'; simpl; auto; apply filter_In; (split; [assumption|]);
      (destruct (Z.eqb_spec (l_id l) (l_id inst)) as [Heq|]; [|reflexivity]);
      exfalso; apply Hne; congruence.
Qed.

Lemma objects_create_wf vd u :
  v_user vd = Some u ->
  hoare wf (ModelSerializer.objects_create vd)
    (fun r db =>
       wf db /\
       match r with Ok s => owned_by (s_id s) u db | Err _ => True end).
Proof.
  intros Hu db (Hpk & Hseq & Hk). unfold ModelSerializer.objects_create.
  rewrite Hu. simpl. split; [split; [|split]|].
  - unfold pk_unique. simpl. rewrite map_app. apply NoDup_snoc_fresh; [exact Hpk|].
    intros i Hi. apply in_map_iff in Hi as (s & <- & Hs). auto.
  - simpl. intros s Hs. apply in_app_or in Hs as [Hs | [<- | []]];
      [apply Hseq in Hs|]; simpl; lia.
  - intros k. destruct (Hk k) as (Hlab & Hlinks). split; [exact Hlab|].
    intros r Hr. destruct (Hlinks r Hr) as (s & l & Hs & Hl & H).
    exists s, l. split; [simpl; apply in_or_app; now left | auto].
  - eexists. split; [simpl; apply in_or_app; right; now left|]. split; reflexivity.
Qed.

Lemma to_internal_value_user m partial body vd :
  writable m "user" = false ->
  ModelSerializer.to_internal_value m partial body = Ok vd ->
  v_user vd = None.
Proof.
  intros Hw. unfold ModelSerializer.to_internal_value.
  unfold ModelSerializer.run_field at 1. rewrite Hw.
  destruct (ModelSerializer.run_field _ _ _ "name" _) as [e1 vname].
  destruct (ModelSerializer.run_field _ _ _ "email" _) as [e2 vemail].
  destruct (ModelSerializer.run_field _ _ _ "address" _) as [e3 vaddress].
  destruct (ModelSerializer.run_field _ _ _ "birthday" _) as [e4 vbirthday].
  destruct (ModelSerializer.run_field _ _ _ "link" _) as [e5 vlink].
  destruct (ModelSerializer.run_field _ _ _ "image" _) as [e6 vimage].
  destruct (ModelSerializer.run_field _ _ _ "tags" _) as [e7 vtags].
  destruct (ModelSerializer.run_field _ _ _ "courses" _) as [e8 vcourses].
  destruct ([] ++ e1 ++ e2 ++ e3 ++ e4 ++ e5 ++ e6 ++ e7 ++ e8); [|discriminate].
  intros H; injection H as <-. reflexivity.
Qed.

Lemma replace_labels_wf k u o instance :
  hoare (fun db => wf db /\ owned_by (s_id instance) u db)
    (replace_labels k u o instance)
    (fun _ db => wf db /\ owned_by (s_id instance) u db).
Proof.
  destruct o as [ts|]; simpl; [|apply hoare_ret; auto].
  apply hoare_bind with (R := fun _ db => wf db /\ owned_by (s_id instance) u db).
  - eapply hoare_weaken;
      [apply (@clear_wf k (s_id instance) (owned_by (s_id instance) u)) | |].
    + intros db ls. apply owned_by_set_links.
    + auto.
    + intros [[]|e] db H; exact H.
  - intros _. apply get_or_create_all_wf.
Qed.

Lemma hoare_pure {A} (P0 : Prop) (P : DB -> Prop) (m : M A)
    (Q : result A -> DB -> Prop) :
  (P0 -> hoare P m Q) -> hoare (fun db => P0 /\ P db) m Q.
Proof. intros H db (H0 & HP). now apply H. Qed.

Lemma hoare_same {A} (P : DB -> Prop) (m : M A) (Q : result A -> DB -> Prop) :
  (forall db, P db -> fst (m db) = db) ->
  (forall r db, P db -> Q r db) ->
  hoare P m Q.
Proof. intros Hm HQ db HP. rewrite (Hm db HP). now apply HQ. Qed.

(** The serializer's [update] keeps the integrity when the validated data
    hold no owner. *)
Lemma serializer_update_wf u instance vd :
  v_user vd = None ->
  s_user instance = u ->
  hoare (fun db => wf db /\ owned_by (s_id instance) u db)
    (StudentSerializer.update u instance vd) (fun _ db => wf db).
Proof.
  intros Hv Hu. rewrite serializer_update_unfold.
  set (instance' := ModelSerializer.setattrs instance (StudentSerializer.pop_labels vd)).
  assert (Hu' : s_user instance' = u) by (simpl; now rewrite Hv).
  apply hoare_bind with (R := fun _ db => wf db /\ owned_by (s_id instance) u db).
  { eapply hoare_weaken; [apply (@replace_labels_wf KTag u (v_tags vd) instance) | |].
    - auto.
    - intros [[]|e] db H; [exact H | tauto]. }
  intros _.
  apply hoare_bind with (R := fun _ db => wf db /\ owned_by (s_id instance) u db).
  { eapply hoare_weaken; [apply (@replace_labels_wf KCourse u (v_courses vd) instance) | |].
    - auto.
    - intros [[]|e] db H; [exact H | tauto]. }
  intros _.
  apply hoare_bind with (R := fun _ db => wf db).
  { eapply hoare_weaken; [apply (save_student_wf instance') | |].
    - intros db (Hwf & Hown). split; [assumption|]. now rewrite Hu'.
    - intros [[]|e] db H; exact H. }
  intros _. apply hoare_ret. auto.
Qed.

Lemma serializer_create_wf u vd :
  hoare wf (StudentSerializer.create u (ModelSerializer.with_user u vd))
    (fun _ db => wf db).
Proof.
  unfold StudentSerializer.create. cbv zeta.
  apply hoare_bind with (R := fun s db => wf db /\ owned_by (s_id s) u db).
  { eapply hoare_weaken; [apply (@objects_create_wf _ u); reflexivity | auto |].
    intros [s|e] db (Hwf & Hown); auto. }
  intros student.
  apply hoare_bind with (R := fun _ db => wf db /\ owned_by (s_id student) u db).
  { eapply hoare_weaken; [apply get_or_create_all_wf | auto |].
    intros [[]|e] db H; [exact H | tauto]. }
  intros _.
  apply hoare_bind with (R := fun _ db => wf db /\ owned_by (s_id student) u db).
  { eapply hoare_weaken; [apply get_or_create_all_wf | auto |].
    intros [[]|e] db H; [exact H | tauto]. }
  intros _. apply hoare_ret. tauto.
Qed.

Lemma model_update_wf instance vd :
  v_user vd = None ->
  hoare (fun db => wf db /\ owned_by (s_id instance) (s_user instance) db)
    (ModelSerializer.update instance vd) (fun _ db => wf db).
Proof.
  intros Hv. unfold ModelSerializer.update. cbv zeta.
  apply hoare_bind with (R := fun _ db => wf db).
  - eapply hoare_weaken; [apply save_student_wf | |].
    + intros db (Hwf & Hown). split; [assumption|]. simpl. now rewrite Hv.
    + intros [[]|e] db H; exact H.
  - intros _. apply hoare_ret. auto.
Qed.

Lemma student_get_object_hoare req pk :
  hoare wf (query (StudentViewSet.get_object req pk))
    (fun r db =>
       match r with
       | Ok s => s_user s = user req /\ wf db /\ owned_by (s_id s) (user req) db
       | Err _ => wf db
       end).
Proof.
  apply hoare_query. intros db Hwf.
  destruct (StudentViewSet.get_object req pk db) as [s|e] eqn:H; [|assumption].
  apply student_get_object_Ok in H as (Hin & Hu & _).
  split; [assumption|]. split; [assumption|]. exists s. auto.
Qed.

Lemma serializer_data_hoare action s (P : DB -> Prop) :
  hoare P (StudentViewSet.serializer_data action s) (fun _ db => P db).
Proof. intros db HP. exact HP. Qed.

(** Every action of the Student viewset keeps the integrity. *)
Lemma student_dispatch_wf m p req body :
  hoare wf (StudentViewSet.dispatch m p req body) (fun _ db => wf db).
Proof.
  assert (Hlist : hoare wf (StudentViewSet.list_ req) (fun _ db => wf db)).
  { intros db Hwf. now rewrite student_list_run. }
  assert (Hcreate : hoare wf (StudentViewSet.create req body) (fun _ db => wf db)).
  { unfold StudentViewSet.create. cbv zeta.
    apply hoare_bind with (R := fun _ db => wf db).
    - apply hoare_query. intros db Hwf. now destruct (ModelSerializer.to_internal_value _ _ _).
    - intros vd. apply hoare_bind with (R := fun _ db => wf db).
      + eapply hoare_weaken; [apply (serializer_create_wf (user req) vd) | auto |].
        intros [s|e] db H; exact H.
      + intros s. apply hoare_bind with (R := fun _ db => wf db).
        * eapply hoare_weaken; [apply (serializer_data_hoare _ _ wf) | auto |].
          intros [d|e] db H; exact H.
        * intros d. apply hoare_ret. auto. }
  assert (Hretrieve : forall pk, hoare wf (StudentViewSet.retrieve req pk) (fun _ db => wf db)).
  { intros pk db Hwf. now rewrite student_retrieve_run. }
  assert (Hupdate : forall partial pk,
            hoare wf (StudentViewSet.update partial req pk body) (fun _ db => wf db)).
  { intros partial pk. unfold StudentViewSet.update. cbv zeta.
    replace (StudentViewSet.get_serializer_class (if partial then A_partial_update else A_update))
      with StudentSerializer.cls by (now destruct partial).
    apply hoare_bind with
      (R := fun s db => s_user s = user req /\ wf db /\ owned_by (s_id s) (user req) db).
    - eapply hoare_weaken; [apply student_get_object_hoare | auto |].
      intros [s|e] db H; exact H.
    - intros instance. apply hoare_pure. intros Hu.
      apply hoare_bind with
        (R := fun vd db => v_user vd = None /\ wf db /\
                           owned_by (s_id instance) (user req) db).
      + apply hoare_query. intros db H.
        destruct (ModelSerializer.to_internal_value _ _ _) as [vd|e] eqn:Hvd; [|tauto].
        split; [|assumption]. eapply to_internal_value_user; [|exact Hvd]. reflexivity.
      + intros vd. apply hoare_pure. intros Hv.
        apply hoare_bind with (R := fun _ db => wf db).
        * eapply hoare_weaken;
            [apply (@serializer_update_wf (user req) instance vd Hv Hu) | auto |].
          intros [s|e] db H; exact H.
        * intros s. apply hoare_bind with (R := fun _ db => wf db).
          -- eapply hoare_weaken; [apply (serializer_data_hoare _ _ wf) | auto |].
             intros [d|e] db H; exact H.
          -- intros d. apply hoare_ret. auto. }
  assert (Hdestroy : forall pk, hoare wf (StudentViewSet.destroy req pk) (fun _ db => wf db)).
  { intros pk. unfold StudentViewSet.destroy.
    apply hoare_bind with (R := fun _ db => wf db).
    - eapply hoare_weaken; [apply student_get_object_hoare | auto |].
      intros [s|e] db H; tauto.
    - intros instance. apply hoare_bind with (R := fun _ db => wf db).
      + eapply hoare_weaken; [apply delete_student_wf | auto |].
        intros [[]|e] db H; exact H.
      + intros _. apply hoare_ret. auto. }
  assert (Hupload : forall pk,
            hoare wf (StudentViewSet.upload_image req pk body) (fun _ db => wf db)).
  { intros pk. unfold StudentViewSet.upload_image. cbv zeta.
    apply hoare_bind with
      (R := fun s db => s_user s = user req /\ wf db /\ owned_by (s_id s) (user req) db).
    - eapply hoare_weaken; [apply student_get_object_hoare | auto |].
      intros [s|e] db H; exact H.
    - intros student. apply hoare_pure. intros Hu.
      destruct (ModelSerializer.to_internal_value _ _ _) as [vd|e] eqn:Hvd.
      + apply hoare_bind with (R := fun _ db => wf db).
        * eapply hoare_weaken; [apply (@model_update_wf student vd) | |].
          -- eapply to_internal_value_user; [|exact Hvd]. reflexivity.
          -- intros db (Hwf & Hown). rewrite Hu. auto.
          -- intros [s|e] db H; exact H.
        * intros s. apply hoare_bind with (R := fun _ db => wf db).
          -- eapply hoare_weaken; [apply (serializer_data_hoare _ _ wf) | auto |].
             intros [d|e] db H; exact H.
          -- intros d. apply hoare_ret. auto.
      + destruct e; try (apply hoare_raise; tauto). apply hoare_ret. tauto. }
  unfold StudentViewSet.dispatch.
  destruct p, m; simpl; auto; apply hoare_raise; auto.
Qed.

Lemma label_get_object_hoare k req pk :
  hoare wf (query (BaseStudentAttrViewSet.get_object k req pk))
    (fun r db =>
       match r with
       | Ok x => wf db /\ In x (labels k db)
       | Err _ => wf db
       end).
Proof.
  apply hoare_query. intros db Hwf.
  destruct (BaseStudentAttrViewSet.get_object k req pk db) as [x|e] eqn:H; [|assumption].
  apply label_get_object_Ok in H as (Hin & _). auto.
Qed.

(** Every action of a label viewset keeps the integrity. *)
Lemma label_dispatch_wf k m p req body :
  hoare wf (BaseStudentAttrViewSet.dispatch k m p req body) (fun _ db => wf db).
Proof.
  assert (Hlist : hoare wf (BaseStudentAttrViewSet.list_ k req) (fun _ db => wf db)).
  { intros db Hwf. now rewrite label_list_run. }
  assert (Hupdate : forall partial pk,
            hoare wf (BaseStudentAttrViewSet.update k partial req pk body)
              (fun _ db => wf db)).
  { intros partial pk. unfold BaseStudentAttrViewSet.update.
    apply hoare_bind with (R := fun x db => wf db /\ In x (labels k db)).
    - eapply hoare_weaken; [apply label_get_object_hoare | auto |].
      intros [x|e] db H; exact H.
    - intros instance. apply hoare_bind with (R := fun _ db => wf db /\ In instance (labels k db)).
      + apply hoare_query. intros db H.
        now destruct (ModelSerializer.label_to_internal_value _ _ _).
      + intros vtitle. apply hoare_bind with (R := fun _ db => wf db).
        * unfold ModelSerializer.label_update. cbv zeta.
          apply hoare_bind with (R := fun _ db => wf db).
          -- eapply hoare_weaken; [apply save_label_wf | |].
             ++ intros db (Hwf & Hin). split; [assumption|]. exists instance. auto.
             ++ intros [[]|e] db H; exact H.
          -- intros _. apply hoare_ret. intros db H. exact H.
        * intros x. apply hoare_ret. auto. }
  assert (Hdestroy : forall pk,
            hoare wf (BaseStudentAttrViewSet.destroy k req pk) (fun _ db => wf db)).
  { intros pk. unfold BaseStudentAttrViewSet.destroy.
    apply hoare_bind with (R := fun _ db => wf db).
    - eapply hoare_weaken; [apply label_get_object_hoare | auto |].
      intros [x|e] db H; tauto.
    - intros instance. apply hoare_bind with (R := fun _ db => wf db).
      + eapply hoare_weaken; [apply delete_label_wf | auto |].
        intros [[]|e] db H; exact H.
      + intros _. apply hoare_ret. auto. }
  unfold BaseStudentAttrViewSet.dispatch.
  destruct p, m; simpl; auto; apply hoare_raise; auto.
Qed.

(** Every state the API reaches from the empty database has the
    integrity; in particular its primary keys are unique. *)
Lemma reachable_wf db : reachable db -> wf db.
Proof.
  induction 1 as [|m p req body db _ IH|k m p req body db _ IH].
  - exact wf_empty_db.
  - apply (student_dispatch_wf m p req body). exact IH.
  - apply (label_dispatch_wf k m p req body). exact IH.
Qed.

Lemma wf_pk_unique db : wf db -> pk_unique db.
Proof. now intros (H & _). Qed.

(** In a state with the integrity, the labels nested in a Student of the
    requester are the requester's. *)
Lemma related_owner k db s x :
  wf db -> In s (students db) -> In x (ORM.related k (s_id s) db) ->
  l_user x = s_user s.
Proof.
  intros (Hpk & _ & Hk) Hs Hx. destruct (Hk k) as ((Hnd & _) & Hlinks).
  unfold ORM.related in Hx. apply filter_In in Hx as (Hx & Hex).
  apply existsb_exists in Hex as (r & Hr & Hb).
  apply andb_true_iff in Hb as (Hsid & Hlid). apply Z.eqb_eq in Hsid, Hlid.
  destruct (Hlinks r Hr) as (s' & l' & Hs' & Hl' & H1 & H2 & H3).
  assert (s' = s) by (eapply pk_unique_inj; eauto; congruence). subst s'.
  assert (l' = x); [|congruence].
  assert (Hid : l_id l' = l_id x) by congruence.
  revert Hnd Hl' Hx Hid. clear. induction (labels k db) as [|a t IH]; simpl; [tauto|].
  intros Hnd. inversion Hnd as [|? ? Ha Hnd']; subst.
  intros [-> | Hl] [-> | Hx] Hid; auto.
  - exfalso. apply Ha. rewrite Hid. now apply in_map.
  - exfalso. apply Ha. rewrite <- Hid. now apply in_map.
Qed.

(** ** C8: what the general update never changes *)

(** C8. Whatever the body and the outcome of an update (PUT or PATCH) of
    a Student, every Student keeps its id, its owner and its image
    reference; the keys [id], [user] and [image] of the body are ignored;
    a text field whose key is absent keeps its value in every row; the
    labels and associations of a kind whose key is absent are unchanged;
    the other Students' rows are unchanged. *)
Theorem C8_update_keeps_owner_and_image partial req pk body db db' r :
  pk_unique db ->
  StudentViewSet.update partial req pk body db = (db', r) ->
  map (fun s => (s_id s, s_user s, s_image s)) (students db') =
    map (fun s => (s_id s, s_user s, s_image s)) (students db) /\
  StudentViewSet.update partial req pk (ignore_unlisted body) db = (db', r) /\
  (d_name body = None -> map s_name (students db') = map s_name (students db)) /\
  (d_email body = None -> map s_email (students db') = map s_email (students db)) /\
  (d_address body = None -> map s_address (students db') = map s_address (students db)) /\
  (d_birthday body = None ->
     map s_birthday (students db') = map s_birthday (students db)) /\
  (d_link body = None -> map s_link (students db') = map s_link (students db)) /\
  (forall k, d_labels k body = None ->
     labels k db' = labels k db /\ links k db' = links k db) /\
  (forall s, In s (students db) -> s_id s <> pk -> In s (students db')).
Proof.
  intros Hpk Hrun.
  split; [|split; [rewrite <- Hrun, !student_update_run; reflexivity|]];
    rewrite student_update_run in Hrun;
    destruct (StudentViewSet.get_object req pk db) as [instance|e] eqn:Hobj;
    try (injection Hrun as <- <-; repeat split; auto);
    destruct (ModelSerializer.to_internal_value StudentSerializer.Meta partial body)
      as [vd|e] eqn:Hvd;
    try (injection Hrun as <- <-; repeat split; auto);
    apply student_get_object_Ok in Hobj as (Hin & Hu & Hid);
    apply to_internal_value_student in Hvd
      as (Vuser & Vimage & Vname & Vemail & Vaddress & Vbirthday & Vlink & Vlabels);
    destruct (StudentSerializer.update (user req) instance vd db) as [db1 r1] eqn:Hupd;
    apply serializer_update_any in Hupd as (Hst & Htags & Hcourses & _);
    assert (Hdb : db' = db1) by (destruct r1; now injection Hrun as <- _);
    subst db1;
    assert (Huniq : forall s, In s (students db) -> s_id s = s_id instance -> s = instance)
      by (intros s Hs Hsid; eapply pk_unique_inj; eauto).
  - destruct Hst as [-> | ->]; [reflexivity|].
    apply map_replace_proj; [assumption|]. simpl. now rewrite Vuser, Vimage.
  - assert (Hkeep : forall (B : Type) (f : Student -> B) (v : validated_data -> option B),
              (forall i w, f (ModelSerializer.setattrs i w) =
                           ModelSerializer.default (f i) (v w)) ->
              v (StudentSerializer.pop_labels vd) = None ->
              map f (students db') = map f (students db)).
    { intros B f v Hf Hv. destruct Hst as [-> | ->]; [reflexivity|].
      apply map_replace_proj; [assumption|]. now rewrite Hf, Hv. }
    split; [intros Hn; apply (Hkeep _ s_name v_name); simpl; auto|].
    split; [intros Hn; apply (Hkeep _ s_email v_email); simpl; auto|].
    split; [intros Hn; apply (Hkeep _ s_address v_address); simpl; auto|].
    split; [intros Hn; apply (Hkeep _ s_birthday v_birthday); simpl; auto|].
    split; [intros Hn; apply (Hkeep _ s_link v_link); simpl; auto|].
    split.
    + intros k Hn. specialize (Vlabels k). rewrite Hn in Vlabels.
      destruct k; simpl in Vlabels; auto.
    + intros s Hs Hne. destruct Hst as [-> | ->]; [assumption|].
      apply in_map_iff. exists s. split; [|assumption].
      destruct (Z.eqb_spec (s_id s) (s_id instance)); [congruence | reflexivity].
Qed.

Lemma wf_sample_db : wf sample_db.
Proof.
  split; [unfold pk_unique; simpl; repeat constructor; simpl; intuition discriminate|].
  split; [simpl; intros s [<- | [<- | [<- | []]]]; reflexivity|].
  intros []; (split; [split|]).
  - simpl. repeat constructor; simpl; intuition discriminate.
  - simpl. intros l [<- | [<- | [<- | [<- | []]]]]; reflexivity.
  - intros r [<- | [<- | [<- | [<- | []]]]];
      [exists anna, {| l_id := 1; l_title := "Vegan"; l_user := 1 |}
      |exists anna, {| l_id := 2; l_title := "Dessert"; l_user := 1 |}
      |exists ben, {| l_id := 2; l_title := "Dessert"; l_user := 1 |}
      |exists carl, {| l_id := 3; l_title := "Fruity"; l_user := 2 |}];
      simpl; auto 10.
  - simpl. repeat constructor; simpl; intuition discriminate.
  - simpl. intros l [<- | []]; reflexivity.
  - intros r [<- | []].
    exists anna, {| l_id := 1; l_title := "SCI 101"; l_user := 1 |}. simpl. auto 10.
Qed.

Lemma pk_unique_sample_db : pk_unique sample_db.
Proof.
  unfold pk_unique. simpl. repeat constructor; simpl; intuition discriminate.
Defined.

Lemma C8_witness :
  map (fun s => (s_id s, s_user s, s_image s)) (students (fst patched_owner_image_name)) =
    map (fun s => (s_id s, s_user s, s_image s)) (students sample_db) /\
  StudentViewSet.update true (request_of 1 []) 1 (ignore_unlisted patch_owner_image_name)
    sample_db = (fst patched_owner_image_name, snd patched_owner_image_name) /\
  (d_name patch_owner_image_name = None ->
     map s_name (students (fst patched_owner_image_name)) = map s_name (students sample_db)) /\
  (d_email patch_owner_image_name = None ->
     map s_email (students (fst patched_owner_image_name)) = map s_email (students sample_db)) /\
  (d_address patch_owner_image_name = None ->
     map s_address (students (fst patched_owner_image_name)) =
     map s_address (students sample_db)) /\
  (d_birthday patch_owner_image_name = None ->
     map s_birthday (students (fst patched_owner_image_name)) =
     map s_birthday (students sample_db)) /\
  (d_link patch_owner_image_name = None ->
     map s_link (students (fst patched_owner_image_name)) = map s_link (students sample_db)) /\
  (forall k, d_labels k patch_owner_image_name = None ->
     labels k (fst patched_owner_image_name) = labels k sample_db /\
     links k (fst patched_owner_image_name) = links k sample_db) /\
  (forall s, In s (students sample_db) -> s_id s <> 1 ->
     In s (students (fst patched_owner_image_name))).
Proof.
  apply (@C8_update_keeps_owner_and_image true (request_of 1 []) 1
           patch_owner_image_name sample_db
           (fst patched_owner_image_name) (snd patched_owner_image_name)).
  - exact pk_unique_sample_db.
  - reflexivity.
Defined.

(** The run of the witness: the name changes, owner and image do not. *)
Example patch_with_other_owner :
  students (fst patched_owner_image_name) =
    [ {| s_id := 1; s_user := 1; s_name := "New name"; s_email := "anna@example.com";
         s_address := "1 Main Street"; s_birthday := "01/01/2001"; s_link := "";
         s_image := None |}; ben; carl ] /\
  exists resp, snd patched_owner_image_name = Ok resp /\ status resp = 200.
Proof. split; [reflexivity|]. eexists. split; reflexivity. Qed.

(** The image reference is written by the upload action. *)
Example upload_sets_image :
  students (fst (StudentViewSet.dispatch POST (UploadImage 1) (request_of 1 [])
                   patch_owner_image_name sample_db)) =
    [ {| s_id := 1; s_user := 1; s_name := "Anna"; s_email := "anna@example.com";
         s_address := "1 Main Street"; s_birthday := "01/01/2001"; s_link := "";
         s_image := Some "uploads/student/x.jpg" |}; ben; carl ].
Proof. reflexivity. Qed.

(** ** C3: an update replaces the label sets that its body names *)

(** Resolution fails exactly when a title is ambiguous. *)
Lemma get_or_create_all_Ok_unambiguous k u ts student db db' :
  StudentSerializer.get_or_create_all k u ts student db = (db', Ok tt) ->
  unambiguous k u ts db.
Proof.
  revert db. induction ts as [|t ts IH]; intros db; simpl; [intros _ t []|].
  unfold bind at 1. rewrite get_or_create_run.
  destruct (matching k u t db) as [|l0 [|l1 rest]] eqn:Hm; cbv beta iota zeta;
    [| |discriminate]; unfold bind at 1;
    match goal with |- context [ORM.add k ?a ?b ?d] =>
      destruct (add_run k a b d) as (db2 & Hadd & Hlab2 & _) end;
    rewrite Hadd; intros Hrun; apply IH in Hrun;
    intros t' [<- | Hin]; try (rewrite Hm; simpl; lia);
    specialize (Hrun t' Hin); unfold matching in *; rewrite Hlab2 in Hrun.
  - rewrite labels_set_next_label_id, labels_set_labels in Hrun.
    replace (match k with KTag => _ | KCourse => _ end)
      with (labels k db ++ [{| l_id := next_label_id k db; l_title := t; l_user := u |}])
      in Hrun by (destruct k; reflexivity).
    rewrite matching_in_app, length_app in Hrun. lia.
  - exact Hrun.
Qed.



Lemma In_Valid_titles (t : string) (ts : list string) :
  In (Valid t) (map Valid ts) <-> In t ts.
Proof.
  rewrite in_map_iff. split.
  - intros (x & Hx & Hin). now injection Hx as ->.
  - intros Hin. eauto.
Qed.

(** C3. An update of the requester's Student with a valid body whose
    titles are unambiguous succeeds, and for each kind of label
    independently: every label that existed still exists; when the key is
    absent the labels and associations of the kind are unchanged; when it
    is present the other Students' associations are unchanged, the
    Student is associated with exactly the owner's labels titled as in the
    body, the labels created carry titles of the body that named no label;
    with the empty list nothing is created and nothing stays attached. *)
Theorem C3_update_replaces_label_sets partial req pk body db instance vd :
  StudentViewSet.get_object req pk db = Ok instance ->
  ModelSerializer.to_internal_value StudentSerializer.Meta partial body = Ok vd ->
  unambiguous KTag (user req) (ModelSerializer.default [] (v_tags vd)) db ->
  unambiguous KCourse (user req) (ModelSerializer.default [] (v_courses vd)) db ->
  exists db' resp,
    StudentViewSet.update partial req pk body db = (db', Ok resp) /\
    status resp = 200 /\
    forall k,
      (forall l, In l (labels k db) -> In l (labels k db')) /\
      match d_labels k body with
      | None => labels k db' = labels k db /\ links k db' = links k db
      | Some ds =>
          (forall r, fst r <> pk -> (In r (links k db') <-> In r (links k db))) /\
          (forall lid, In (pk, lid) (links k db') <->
             exists l, In l (labels k db') /\ l_id l = lid /\
                       l_user l = user req /\ In (Valid (l_title l)) (titles ds)) /\
          (exists new,
             labels k db' = labels k db ++ new /\
             forall l, In l new ->
               l_user l = user req /\ In (Valid (l_title l)) (titles ds) /\
               matching k (user req) (l_title l) db = []) /\
          (ds = [] ->
             labels k db' = labels k db /\ forall lid, ~ In (pk, lid) (links k db'))
      end.
Proof.
  intros Hobj Hvd Htags Hcourses.
  destruct (serializer_update_ok instance vd Htags Hcourses)
    as (db' & Hupd & _ & Rtags & Rcourses).
  rewrite student_update_run, Hobj, Hvd, Hupd.
  eexists db', _. split; [reflexivity|]. split; [reflexivity|].
  apply student_get_object_Ok in Hobj as (_ & _ & Hid). subst pk.
  apply to_internal_value_student in Hvd as (_ & _ & _ & _ & _ & _ & _ & Vlabels).
  intros k. specialize (Vlabels k).
  assert (R : replaced k (user req) (v_labels k vd) (s_id instance) db db')
    by (destruct k; assumption).
  clear Rtags Rcourses Htags Hcourses Hupd.
  destruct (d_labels k body) as [ds|].
  - destruct Vlabels as (ts & Hts & Htitles). rewrite Hts in R.
    destruct R as ((new & HL & HT & HU) & Hother & Hmine).
    split; [intros l Hl; rewrite HL, in_app_iff; auto|].
    split; [exact Hother|]. split; [|split].
    + intros lid. rewrite Hmine. rewrite Htitles.
      split; intros (l & H1 & H2 & H3 & H4); exists l;
        repeat split; auto; now apply In_Valid_titles.
    + exists new. split; [exact HL|]. intros l Hl.
      split; [now apply HU|].
      assert (Hm : In (l_title l) (missing k (user req) ts db))
        by (rewrite <- HT; now apply in_map).
      apply missing_in_In in Hm as (Hin & Hnone).
      rewrite Htitles. split; [now apply In_Valid_titles | exact Hnone].
    + intros ->. destruct ts; [|discriminate Htitles].
      simpl in HT. destruct new; [|discriminate HT].
      split; [now rewrite HL, app_nil_r|].
      intros lid Hlid. apply Hmine in Hlid as (l & _ & _ & _ & []).
  - rewrite Vlabels in R. destruct R as (HL & HK).
    split; [intros l Hl; now rewrite HL|]. split; assumption.
Qed.

Lemma C3_witness :
  exists db' resp,
    StudentViewSet.update true (request_of 1 []) 1 patch_tags sample_db = (db', Ok resp) /\
    status resp = 200 /\
    forall k,
      (forall l, In l (labels k sample_db) -> In l (labels k db')) /\
      match d_labels k patch_tags with
      | None => labels k db' = labels k sample_db /\ links k db' = links k sample_db
      | Some ds =>
          (forall r, fst r <> 1 -> (In r (links k db') <-> In r (links k sample_db))) /\
          (forall lid, In (1, lid) (links k db') <->
             exists l, In l (labels k db') /\ l_id l = lid /\
                       l_user l = 1 /\ In (Valid (l_title l)) (titles ds)) /\
          (exists new,
             labels k db' = labels k sample_db ++ new /\
             forall l, In l new ->
               l_user l = 1 /\ In (Valid (l_title l)) (titles ds) /\
               matching k 1 (l_title l) sample_db = []) /\
          (ds = [] ->
             labels k db' = labels k sample_db /\ forall lid, ~ In (1, lid) (links k db'))
      end.
Proof.
  apply (@C3_update_replaces_label_sets true (request_of 1 []) 1 patch_tags sample_db
           anna validated_patch_tags).
  - reflexivity.
  - reflexivity.
  - intros t [<- | [<- | []]]; simpl; lia.
  - intros t [].
Defined.

(** The run of the witness: Anna loses Vegan and Dessert, which remain in
    the table, keeps her course, and gets Lunch and the new Supper. *)
Example patch_tags_run :
  let db' := fst (StudentViewSet.update true (request_of 1 []) 1 patch_tags sample_db) in
  tags db' = tags sample_db ++ [ {| l_id := 5; l_title := "Supper"; l_user := 1 |} ] /\
  student_tags db' = [(2, 2); (3, 3); (1, 4); (1, 5)] /\
  courses db' = courses sample_db /\
  student_courses db' = student_courses sample_db.
Proof. repeat split. Qed.

(** [tags: []] detaches every tag and creates or deletes none. *)
Example clear_tags_run :
  let db' := fst (StudentViewSet.update true (request_of 1 []) 1
                    (student_body "Anna" (Some []) None) sample_db) in
  tags db' = tags sample_db /\ student_tags db' = [(2, 2); (3, 3)] /\
  student_courses db' = student_courses sample_db.
Proof. repeat split. Qed.

(** ** C7: the two projections of a Student *)

Lemma student_keys db s :
  keys (ModelSerializer.to_representation StudentSerializer.Meta db s) =
  ["id"; "name"; "email"; "address"; "birthday"; "link"; "tags"; "courses"].
Proof. reflexivity. Qed.

(** The serializer written for the detail view would add the image; no
    action of the viewset selects it. *)
Lemma student_detail_serializer_keys db s :
  keys (ModelSerializer.to_representation StudentDetailSerializer.Meta db s) =
  ["id"; "name"; "email"; "address"; "birthday"; "link"; "tags"; "courses"; "image"] /\
  forall action,
    meta (StudentViewSet.get_serializer_class action) <> StudentDetailSerializer.Meta.
Proof.
  split; [reflexivity|]. intros []; discriminate.
Qed.

(** C7 (as amended). On a request without label filter, in a database
    with unique primary keys: the detail read of a Student of the
    requester succeeds with a projection that includes [courses]; the
    detail read of an id that names no Student of the requester is
    answered 404; the compact projection of the list and create actions
    includes [courses] too and omits [image]. *)
Theorem C7_student_projections req db pk :
  pk_unique db ->
  Python.truthy (QueryDict_get "tags" (query_params req)) = false ->
  Python.truthy (QueryDict_get "courses" (query_params req)) = false ->
  (forall s, In s (students db) -> s_user s = user req -> s_id s = pk ->
     exists detail,
       StudentViewSet.retrieve req pk db =
         (db, Ok {| status := 200; data := JObj detail |}) /\
       In "courses" (keys detail)) /\
  ((forall x, In x (students db) -> s_id x = pk -> s_user x <> user req) ->
     exists e,
       StudentViewSet.retrieve req pk db = (db, Err e) /\ e = Http404 /\
       status_code e = 404) /\
  (forall action s, action = A_list \/ action = A_create ->
     let compact :=
       ModelSerializer.to_representation
         (meta (StudentViewSet.get_serializer_class action)) db s in
     In "courses" (keys compact) /\ ~ In "image" (keys compact)).
Proof.
  intros Hpk Ht Hc. split; [|split].
  - intros s Hin Hu <-. eexists.
    rewrite student_retrieve_run, (@student_get_object_owned req db s Hpk Hin Hu Ht Hc).
    split; [reflexivity|]. simpl. auto 10.
  - intros Hforeign. exists Http404.
    rewrite student_retrieve_run, (@student_get_object_foreign req pk db Hforeign).
    apply parsed_filter_falsy in Ht, Hc.
    destruct (student_get_queryset_spec req db Ht Hc) as (l & -> & _).
    repeat split.
  - intros action s [-> | ->]; simpl; (split; [auto 10|]);
      intros H; repeat (destruct H as [H|H]; [discriminate H|]); exact H.
Qed.

Lemma C7_witness :
  (forall s, In s (students sample_db) -> s_user s = 2 -> s_id s = 3 ->
     exists detail,
       StudentViewSet.retrieve (request_of 2 []) 3 sample_db =
         (sample_db, Ok {| status := 200; data := JObj detail |}) /\
       In "courses" (keys detail)) /\
  ((forall x, In x (students sample_db) -> s_id x = 3 -> s_user x <> 2) ->
     exists e,
       StudentViewSet.retrieve (request_of 2 []) 3 sample_db = (sample_db, Err e) /\
       e = Http404 /\ status_code e = 404) /\
  (forall action s, action = A_list \/ action = A_create ->
     let compact :=
       ModelSerializer.to_representation
         (meta (StudentViewSet.get_serializer_class action)) sample_db s in
     In "courses" (keys compact) /\ ~ In "image" (keys compact)).
Proof.
  apply (@C7_student_projections (request_of 2 []) sample_db 3).
  - exact pk_unique_sample_db.
  - reflexivity.
  - reflexivity.
Defined.

(** Carl has an image, and his owner's detail read does not show it; the
    list items of owner 1 carry the courses. *)
Lemma C7_compact_has_courses_detail_has_no_image :
  s_image carl = Some "uploads/student/c.jpg" /\
  StudentViewSet.dispatch GET (Detail 3) (request_of 2 []) no_body sample_db =
    (sample_db,
     Ok {| status := 200;
           data := JObj [ ("id", JInt 3); ("name", JStr "Carl");
                          ("email", JStr "carl@example.com");
                          ("address", JStr "3 Main Street");
                          ("birthday", JStr "03/03/2003"); ("link", JStr "");
                          ("tags", JList [JObj [("id", JInt 3); ("title", JStr "Fruity")]]);
                          ("courses", JList []) ] |}) /\
  StudentViewSet.dispatch GET Collection (request_of 1 [("tags", "1")]) no_body sample_db =
    (sample_db,
     Ok {| status := 200;
           data := JList
             [ JObj [ ("id", JInt 1); ("name", JStr "Anna");
                      ("email", JStr "anna@example.com");
                      ("address", JStr "1 Main Street");
                      ("birthday", JStr "01/01/2001"); ("link", JStr "");
                      ("tags", JList [JObj [("id", JInt 1); ("title", JStr "Vegan")];
                                      JObj [("id", JInt 2); ("title", JStr "Dessert")]]);
                      ("courses",
                       JList [JObj [("id", JInt 1); ("title", JStr "SCI 101")]]) ] ] |}) /\
  ~ (forall req db s,
       In s (students db) -> s_user s = user req ->
       (forall detail,
          StudentViewSet.retrieve req (s_id s) db =
            (db, Ok {| status := 200; data := JObj detail |}) ->
          In "image" (keys detail)) /\
       ~ In "courses"
           (keys (ModelSerializer.to_representation
                    (meta (StudentViewSet.get_serializer_class A_list)) db s))).
Proof.
  split; [reflexivity|]. split; [reflexivity|]. split; [reflexivity|].
  intros H.
  destruct (H (request_of 2 []) sample_db carl) as (_ & Hcompact);
    [simpl; auto | reflexivity |].
  apply Hcompact. simpl. auto 10.
Qed.

(** ** C1: isolation between owners *)

Lemma listed_owners_error e req db err :
  listed_owners e req db = Err err -> err = ValueError.
Proof.
  destruct e as [|k]; simpl.
  - destruct (StudentViewSet.get_queryset req db) eqn:H; simpl; [discriminate|].
    intros Heq; injection Heq as <-. eapply student_get_queryset_error; eauto.
  - destruct (BaseStudentAttrViewSet.get_queryset k req db) eqn:H; simpl; [discriminate|].
    intros Heq; injection Heq as <-. eapply label_get_queryset_error; eauto.
Qed.

Lemma owners_foreign_student pk db u :
  (forall v, In v (owners EStudent pk db) -> v <> u) ->
  forall s, In s (students db) -> s_id s = pk -> s_user s <> u.
Proof.
  intros H s Hin Hid. apply H. simpl. apply in_map. apply filter_In.
  split; [assumption | now apply Z.eqb_eq].
Qed.

Lemma owners_foreign_label k pk db u :
  (forall v, In v (owners (ELabel k) pk db) -> v <> u) ->
  forall x, In x (labels k db) -> l_id x = pk -> l_user x <> u.
Proof.
  intros H x Hin Hid. apply H. simpl. apply in_map. apply filter_In.
  split; [assumption | now apply Z.eqb_eq].
Qed.

(** C1 (as amended).  When [pk] names no entity of kind [e] owned by the
    requester, a read, update or delete of [pk] (GET, PUT, PATCH, DELETE
    on the detail URL) fails with [foreign_error] and leaves the database
    as it was: that is 404 whenever the query parameters convert, except
    that a label has no detail read at all (405, whoever owns it); it is
    never a success and never a "forbidden".  The image upload to a
    foreign Student fails alike.  A list returns rows of the requester only,
    and so does [get_object]; in a state with the integrity [wf] (every
    state the API reaches) the labels nested in a listed Student are the
    requester's too. *)
Theorem C1_owner_isolation e req db pk m sbody lbody :
  m <> POST ->
  ((forall u, In u (owners e pk db) -> u <> user req) ->
   handle e m (Detail pk) req sbody lbody db = (db, Err (foreign_error e m req db)) /\
   (e = EStudent ->
    handle e POST (UploadImage pk) req sbody lbody db
      = (db, Err (foreign_error e POST req db)))) /\
  (forall us, listed_owners e req db = Ok us ->
     (m = GET /\ e <> EStudent -> foreign_error e m req db = MethodNotAllowed) /\
     (~ (m = GET /\ e <> EStudent) -> foreign_error e m req db = Http404)) /\
  (forall err, listed_owners e req db = Err err ->
     err = ValueError /\
     (~ (m = GET /\ e <> EStudent) -> foreign_error e m req db = ValueError)) /\
  (forall us, listed_owners e req db = Ok us -> forall u, In u us -> u = user req) /\
  (forall pk' s, StudentViewSet.get_object req pk' db = Ok s -> s_user s = user req) /\
  (forall k pk' x,
     BaseStudentAttrViewSet.get_object k req pk' db = Ok x -> l_user x = user req) /\
  (wf db ->
   forall l s k x,
     StudentViewSet.get_queryset req db = Ok l -> In s l ->
     In x (ORM.related k (s_id s) db) -> l_user x = user req).
Proof.
  intros Hm.
  split; [|split; [|split; [|split; [|split; [|split]]]]].
  - intros Hforeign. split.
    + destruct e as [|k]; simpl.
      * pose proof (@student_get_object_foreign req pk db
                      (@owners_foreign_student pk db (user req) Hforeign)) as Hobj.
        assert (Herr : StudentViewSet.get_object req pk db =
                       Err (foreign_error EStudent m req db)).
        { rewrite Hobj. unfold foreign_error, listed_owners.
          destruct (StudentViewSet.get_queryset req db); destruct m; reflexivity. }
        destruct (@student_detail_fail req pk db _ sbody Herr) as (Hr & Hu & Hd & _).
        destruct m;
          [exact Hr | contradiction | exact (Hu false) | exact (Hu true) | exact Hd].
      * pose proof (@label_get_object_foreign k req pk db
                      (@owners_foreign_label k pk db (user req) Hforeign)) as Hobj.
        destruct m; [reflexivity | contradiction | | |];
          match goal with |- _ = (db, Err ?err) =>
            assert (Herr : BaseStudentAttrViewSet.get_object k req pk db = Err err)
              by (rewrite Hobj; unfold foreign_error, listed_owners;
                  destruct (BaseStudentAttrViewSet.get_queryset k req db); reflexivity)
          end;
          destruct (@label_detail_fail k req pk db _ lbody Herr) as (Hu & Hd);
          [exact (Hu false) | exact (Hu true) | exact Hd].
    + intros ->. simpl.
      pose proof (@student_get_object_foreign req pk db
                    (@owners_foreign_student pk db (user req) Hforeign)) as Hobj.
      assert (Herr : StudentViewSet.get_object req pk db =
                     Err (foreign_error EStudent POST req db)).
      { rewrite Hobj. unfold foreign_error, listed_owners.
        destruct (StudentViewSet.get_queryset req db); reflexivity. }
      now destruct (@student_detail_fail req pk db _ sbody Herr) as (_ & _ & _ & Hup).
  - intros us Hus. unfold foreign_error. rewrite Hus. split.
    + intros (-> & He). destruct e; [contradiction | reflexivity].
    + intros Hn. destruct e; [reflexivity|]. destruct m; try reflexivity.
      exfalso. apply Hn. split; [reflexivity | discriminate].
  - intros err Herr. split; [eapply listed_owners_error; eauto|].
    pose proof (listed_owners_error _ _ _ Herr) as ->.
    intros Hn. unfold foreign_error. rewrite Herr.
    destruct e; [reflexivity|]. destruct m; try reflexivity.
    exfalso. apply Hn. split; [reflexivity | discriminate].
  - intros us Hus u Hin. destruct e as [|k]; simpl in Hus.
    + apply rbind_Ok in Hus as (l & Hl & Heq). injection Heq as <-.
      apply in_map_iff in Hin as (s & <- & Hs).
      destruct (student_get_queryset_Ok _ _ Hl) as (ft & fc & Ht & Hc).
      apply (student_list_both_filters _ _ Ht Hc Hl) in Hs. tauto.
    + apply rbind_Ok in Hus as (l & Hl & Heq). injection Heq as <-.
      apply in_map_iff in Hin as (x & <- & Hx).
      destruct (label_get_queryset_Ok _ _ _ Hl) as (n & Hn).
      destruct (label_get_queryset_spec k req db Hn) as (l' & Hl' & _ & _ & Hmem).
      rewrite Hl in Hl'. injection Hl' as <-. apply Hmem in Hx. tauto.
  - intros pk' s Hs. now apply student_get_object_Ok in Hs.
  - intros k pk' x Hx. now apply label_get_object_Ok in Hx.
  - intros Hwf l s k x Hl Hs Hx.
    destruct (student_get_queryset_Ok _ _ Hl) as (ft & fc & Ht & Hc).
    apply (student_list_both_filters _ _ Ht Hc Hl) in Hs as (Hs & Hu & _).
    rewrite <- Hu. eapply related_owner; eauto.
Qed.

Lemma C1_witness :
  ((forall u, In u (owners EStudent 3 sample_db) -> u <> 1) ->
   handle EStudent DELETE (Detail 3) (request_of 1 []) no_body no_label_body sample_db
     = (sample_db, Err (foreign_error EStudent DELETE (request_of 1 []) sample_db)) /\
   (EStudent = EStudent ->
    handle EStudent POST (UploadImage 3) (request_of 1 []) no_body no_label_body sample_db
      = (sample_db, Err (foreign_error EStudent POST (request_of 1 []) sample_db)))) /\
  (forall us, listed_owners EStudent (request_of 1 []) sample_db = Ok us ->
     (DELETE = GET /\ EStudent <> EStudent ->
        foreign_error EStudent DELETE (request_of 1 []) sample_db = MethodNotAllowed) /\
     (~ (DELETE = GET /\ EStudent <> EStudent) ->
        foreign_error EStudent DELETE (request_of 1 []) sample_db = Http404)) /\
  (forall err, listed_owners EStudent (request_of 1 []) sample_db = Err err ->
     err = ValueError /\
     (~ (DELETE = GET /\ EStudent <> EStudent) ->
        foreign_error EStudent DELETE (request_of 1 []) sample_db = ValueError)) /\
  (forall us, listed_owners EStudent (request_of 1 []) sample_db = Ok us ->
     forall u, In u us -> u = 1) /\
  (forall pk' s,
     StudentViewSet.get_object (request_of 1 []) pk' sample_db = Ok s -> s_user s = 1) /\
  (forall k pk' x,
     BaseStudentAttrViewSet.get_object k (request_of 1 []) pk' sample_db = Ok x ->
     l_user x = 1) /\
  (wf sample_db ->
   forall l s k x,
     StudentViewSet.get_queryset (request_of 1 []) sample_db = Ok l -> In s l ->
     In x (ORM.related k (s_id s) sample_db) -> l_user x = 1).
Proof.
  apply (@C1_owner_isolation EStudent (request_of 1 []) sample_db 3 DELETE
           no_body no_label_body).
  discriminate.
Defined.

(** Deleting another owner's Student: 404, and the Student stays. *)
Example delete_foreign_student :
  StudentViewSet.dispatch DELETE (Detail 3) (request_of 1 []) no_body sample_db
  = (sample_db, Err Http404).
Proof. reflexivity. Qed.

(** Tag 3 belongs to owner 2.  Owner 1's detail read of it is answered
    405, not 404, as is owner 2's own; and owner 1's detail read of owner
    2's Student with a malformed filter parameter is answered 500. *)
Lemma C1_foreign_read_is_not_always_not_found :
  owners (ELabel KTag) 3 sample_db = [2] /\
  TagViewSet.dispatch GET (Detail 3) (request_of 1 []) no_label_body sample_db
    = (sample_db, Err MethodNotAllowed) /\
  TagViewSet.dispatch GET (Detail 3) (request_of 2 []) no_label_body sample_db
    = (sample_db, Err MethodNotAllowed) /\
  status_code MethodNotAllowed = 405 /\
  owners EStudent 3 sample_db = [2] /\
  StudentViewSet.dispatch GET (Detail 3) (request_of 1 [("tags", "abc")]) no_body sample_db
    = (sample_db, Err ValueError) /\
  ~ (forall e req db pk m sbody lbody,
       (forall u, In u (owners e pk db) -> u <> user req) ->
       m <> POST ->
       handle e m (Detail pk) req sbody lbody db = (db, Err Http404)).
Proof.
  repeat (split; [reflexivity|]).
  intros H.
  assert (Hc : handle (ELabel KTag) GET (Detail 3) (request_of 1 []) no_body no_label_body
                 sample_db = (sample_db, Err Http404)).
  { apply H; [|discriminate]. simpl. intros u [<- | []]. discriminate. }
  discriminate Hc.
Qed.

(** * Further properties *)

(** ** Every request is a sequence of row operations on the requester's rows *)

Lemma hoare_step {A} (R : DB -> DB -> Prop) (db0 : DB) (P : DB -> Prop) (m : M A)
    (Q : result A -> DB -> Prop) :
  (forall db, P db -> R db (fst (m db)) /\ Q (snd (m db)) (fst (m db))) ->
  hoare (fun db => steps R db0 db /\ P db) m (fun r db => steps R db0 db /\ Q r db).
Proof.
  intros H db (Hs & HP). destruct (H db HP) as (HR & HQ).
  split; [|exact HQ]. eapply steps_snoc; eassumption.
Qed.

Lemma students_set_labels k l db : students (set_labels k l db) = students db.
Proof. now destruct k. Qed.

Lemma students_set_links k l db : students (set_links k l db) = students db.
Proof. now destruct k. Qed.

Lemma students_set_next_label_id k n db : students (set_next_label_id k n db) = students db.
Proof. now destruct k. Qed.

Lemma get_or_create_students k u t db :
  students (fst (ORM.get_or_create k u t db)) = students db.
Proof.
  rewrite get_or_create_run.
  destruct (matching k u t db) as [|l0 [|l1 rest]]; cbv zeta; simpl; auto.
  now rewrite students_set_next_label_id, students_set_labels.
Qed.

Lemma get_or_create_found k u t db :
  match snd (ORM.get_or_create k u t db) with
  | Ok (l, _) => In l (labels k (fst (ORM.get_or_create k u t db))) /\ l_user l = u
  | Err _ => True
  end.
Proof.
  rewrite get_or_create_run.
  destruct (matching k u t db) as [|l0 [|l1 rest]] eqn:Hm; cbv zeta; simpl; auto.
  - split; [|reflexivity]. rewrite labels_set_next_label_id, labels_set_labels.
    destruct k; apply in_or_app; right; now left.
  - assert (Hin : In l0 (matching k u t db)) by (rewrite Hm; now left).
    apply matching_in_In in Hin. tauto.
Qed.

Lemma owned_by_students sid u db db' :
  students db' = students db -> owned_by sid u db -> owned_by sid u db'.
Proof. unfold owned_by. now intros ->. Qed.

Lemma get_or_create_all_steps k u ts student db0 :
  hoare (fun db => steps (student_write u) db0 db /\ owned_by (s_id student) u db)
    (StudentSerializer.get_or_create_all k u ts student)
    (fun _ db => steps (student_write u) db0 db /\ owned_by (s_id student) u db).
Proof.
  induction ts as [|t ts IH]; simpl.
  - apply hoare_ret. auto.
  - apply hoare_bind with
      (R := fun a db => steps (student_write u) db0 db /\
                        owned_by (s_id student) u db /\
                        In (fst a) (labels k db) /\ l_user (fst a) = u).
    + eapply hoare_weaken; [apply hoare_step with
        (R := student_write u) (db0 := db0) (P := owned_by (s_id student) u)
        (Q := fun r db => owned_by (s_id student) u db /\
                match r with
                | Ok (l, _) => In l (labels k db) /\ l_user l = u
                | Err _ => True
                end) | auto |].
      * intros db Hown. split; [constructor|]. split.
        -- eapply owned_by_students; [apply get_or_create_students | exact Hown].
        -- apply get_or_create_found.
      * intros [[l b]|e] db (Hs & Hown & Hr); simpl; auto.
    + intros [l b]. simpl.
      apply hoare_bind with
        (R := fun _ db => steps (student_write u) db0 db /\ owned_by (s_id student) u db).
      * eapply hoare_weaken; [apply hoare_step with
          (R := student_write u) (db0 := db0)
          (P := fun db => owned_by (s_id student) u db /\ In l (labels k db) /\ l_user l = u)
          (Q := fun _ db => owned_by (s_id student) u db) | auto |].
        -- intros db (Hown & Hl & Hu). split; [now constructor|].
           unfold ORM.add, modify. simpl.
           destruct (existsb _ (links k db)); [assumption|].
           now apply owned_by_set_links.
        -- intros [[]|e] db H; exact H.
      * intros _. exact IH.
Qed.

Lemma replace_labels_steps k u o instance db0 :
  hoare (fun db => steps (student_write u) db0 db /\ owned_by (s_id instance) u db)
    (replace_labels k u o instance)
    (fun _ db => steps (student_write u) db0 db /\ owned_by (s_id instance) u db).
Proof.
  destruct o as [ts|]; simpl; [|apply hoare_ret; auto].
  apply hoare_bind with
    (R := fun _ db => steps (student_write u) db0 db /\ owned_by (s_id instance) u db).
  - eapply hoare_weaken; [apply hoare_step with
      (R := student_write u) (db0 := db0) (P := owned_by (s_id instance) u)
      (Q := fun _ db => owned_by (s_id instance) u db) | auto |].
    + intros db Hown. split; [now constructor|]. now apply owned_by_set_links.
    + intros [[]|e] db H; exact H.
  - intros _. apply get_or_create_all_steps.
Qed.

Lemma save_student_steps u inst db0 :
  s_user inst = u ->
  hoare (fun db => steps (student_write u) db0 db /\ owned_by (s_id inst) u db)
    (ORM.save_student inst)
    (fun _ db => steps (student_write u) db0 db).
Proof.
  intros Hu. eapply hoare_weaken; [apply hoare_step with
    (R := student_write u) (db0 := db0) (P := owned_by (s_id inst) u) (Q := fun _ _ => True) | auto |].
  - intros db Hown. split; [now constructor | exact I].
  - intros r db H. apply H.
Qed.

Lemma serializer_update_steps u instance vd db0 :
  v_user vd = None ->
  s_user instance = u ->
  hoare (fun db => steps (student_write u) db0 db /\ owned_by (s_id instance) u db)
    (StudentSerializer.update u instance vd)
    (fun _ db => steps (student_write u) db0 db).
Proof.
  intros Hv Hu. rewrite serializer_update_unfold.
  set (instance' := ModelSerializer.setattrs instance (StudentSerializer.pop_labels vd)).
  assert (Hu' : s_user instance' = u) by (simpl; now rewrite Hv).
  apply hoare_bind with
    (R := fun _ db => steps (student_write u) db0 db /\ owned_by (s_id instance) u db).
  { eapply hoare_weaken; [apply (@replace_labels_steps KTag u (v_tags vd) instance db0) | auto |].
    intros [[]|e] db H; [exact H | tauto]. }
  intros _.
  apply hoare_bind with
    (R := fun _ db => steps (student_write u) db0 db /\ owned_by (s_id instance) u db).
  { eapply hoare_weaken;
      [apply (@replace_labels_steps KCourse u (v_courses vd) instance db0) | auto |].
    intros [[]|e] db H; [exact H | tauto]. }
  intros _.
  apply hoare_bind with (R := fun _ db => steps (student_write u) db0 db).
  { eapply hoare_weaken; [apply (@save_student_steps u instance' db0 Hu') | auto |].
    intros [[]|e] db H; exact H. }
  intros _. apply hoare_ret. auto.
Qed.

Lemma serializer_create_steps u vd db0 :
  hoare (steps (student_write u) db0)
    (StudentSerializer.create u (ModelSerializer.with_user u vd))
    (fun _ db => steps (student_write u) db0 db).
Proof.
  unfold StudentSerializer.create. cbv zeta.
  apply hoare_bind with
    (R := fun s db => steps (student_write u) db0 db /\ owned_by (s_id s) u db).
  { eapply hoare_weaken; [apply hoare_step with
      (R := student_write u) (db0 := db0) (P := fun _ => True)
      (Q := fun r db => match r with Ok s => owned_by (s_id s) u db | Err _ => True end)
      | intros db H; split; [exact H | exact I] |].
    - intros db _. split; [now constructor|].
      unfold ModelSerializer.objects_create. simpl.
      eexists. split; [simpl; apply in_or_app; right; now left|]. split; reflexivity.
    - intros [s|e] db (Hs & Hown); auto. }
  intros student.
  apply hoare_bind with
    (R := fun _ db => steps (student_write u) db0 db /\ owned_by (s_id student) u db).
  { eapply hoare_weaken; [apply get_or_create_all_steps with (db0 := db0) | auto |].
    intros [[]|e] db H; [exact H | tauto]. }
  intros _.
  apply hoare_bind with
    (R := fun _ db => steps (student_write u) db0 db /\ owned_by (s_id student) u db).
  { eapply hoare_weaken; [apply get_or_create_all_steps with (db0 := db0) | auto |].
    intros [[]|e] db H; [exact H | tauto]. }
  intros _. apply hoare_ret. tauto.
Qed.

Lemma student_get_object_steps R db0 req pk :
  hoare (steps R db0) (query (StudentViewSet.get_object req pk))
    (fun r db =>
       match r with
       | Ok s => (s_user s = user req /\ In s (students db)) /\ steps R db0 db /\
                 owned_by (s_id s) (user req) db
       | Err _ => steps R db0 db
       end).
Proof.
  apply hoare_query. intros db Hs.
  destruct (StudentViewSet.get_object req pk db) as [s|e] eqn:H; [|assumption].
  apply student_get_object_Ok in H as (Hin & Hu & _).
  split; [auto|]. split; [assumption|]. exists s. auto.
Qed.

(** Whatever a request to the Student viewset does to the store, it does
    by row operations on the requester's rows. *)
Lemma student_dispatch_steps m p req body db0 :
  hoare (steps (student_write (user req)) db0) (StudentViewSet.dispatch m p req body)
    (fun _ db => steps (student_write (user req)) db0 db).
Proof.
  set (I := steps (student_write (user req)) db0).
  assert (Hlist : hoare I (StudentViewSet.list_ req) (fun _ db => I db)).
  { intros db H. now rewrite student_list_run. }
  assert (Hcreate : hoare I (StudentViewSet.create req body) (fun _ db => I db)).
  { unfold StudentViewSet.create. cbv zeta.
    apply hoare_bind with (R := fun _ db => I db).
    - apply hoare_query. intros db H. now destruct (ModelSerializer.to_internal_value _ _ _).
    - intros vd. apply hoare_bind with (R := fun _ db => I db).
      + eapply hoare_weaken; [apply (@serializer_create_steps (user req) vd db0) | auto |].
        intros [s|e] db H; exact H.
      + intros s. apply hoare_bind with (R := fun _ db => I db).
        * eapply hoare_weaken; [apply (serializer_data_hoare _ _ I) | auto |].
          intros [d|e] db H; exact H.
        * intros d. apply hoare_ret. auto. }
  assert (Hretrieve : forall pk, hoare I (StudentViewSet.retrieve req pk) (fun _ db => I db)).
  { intros pk db H. now rewrite student_retrieve_run. }
  assert (Hupdate : forall partial pk,
            hoare I (StudentViewSet.update partial req pk body) (fun _ db => I db)).
  { intros partial pk. unfold StudentViewSet.update. cbv zeta.
    replace (StudentViewSet.get_serializer_class (if partial then A_partial_update else A_update))
      with StudentSerializer.cls by (now destruct partial).
    apply hoare_bind with
      (R := fun s db => (s_user s = user req /\ In s (students db)) /\ I db /\
                        owned_by (s_id s) (user req) db).
    - eapply hoare_weaken; [apply student_get_object_steps with (R := student_write (user req)) (db0 := db0) | auto |].
      intros [s|e] db H; exact H.
    - intros instance.
      apply hoare_bind with
        (R := fun vd db => v_user vd = None /\ s_user instance = user req /\ I db /\
                           owned_by (s_id instance) (user req) db).
      + apply hoare_query. intros db ((Hu & _) & H).
        destruct (ModelSerializer.to_internal_value _ _ _) as [vd|e] eqn:Hvd; [|tauto].
        split; [|auto]. eapply to_internal_value_user; [|exact Hvd]. reflexivity.
      + intros vd. apply hoare_pure. intros Hv. apply hoare_pure. intros Hu.
        apply hoare_bind with (R := fun _ db => I db).
        * eapply hoare_weaken;
            [apply (@serializer_update_steps (user req) instance vd db0 Hv Hu) | auto |].
          intros [s|e] db H; exact H.
        * intros s. apply hoare_bind with (R := fun _ db => I db).
          -- eapply hoare_weaken; [apply (serializer_data_hoare _ _ I) | auto |].
             intros [d|e] db H; exact H.
          -- intros d. apply hoare_ret. auto. }
  assert (Hdestroy : forall pk, hoare I (StudentViewSet.destroy req pk) (fun _ db => I db)).
  { intros pk. unfold StudentViewSet.destroy.
    apply hoare_bind with
      (R := fun s db => (s_user s = user req /\ In s (students db)) /\ I db).
    - eapply hoare_weaken; [apply student_get_object_steps with (R := student_write (user req)) (db0 := db0) | auto |].
      intros [s|e] db H; tauto.
    - intros instance. apply hoare_bind with (R := fun _ db => I db).
      + intros db ((Hu & Hin) & H). simpl.
        eapply steps_snoc; [exact H|]. now apply (@sw_delete (user req) db instance).
      + intros _. apply hoare_ret. auto. }
  assert (Hupload : forall pk,
            hoare I (StudentViewSet.upload_image req pk body) (fun _ db => I db)).
  { intros pk. unfold StudentViewSet.upload_image. cbv zeta.
    apply hoare_bind with
      (R := fun s db => s_user s = user req /\ I db /\ owned_by (s_id s) (user req) db).
    - eapply hoare_weaken; [apply student_get_object_steps with (R := student_write (user req)) (db0 := db0) | auto |].
      intros [s|e] db H; [tauto | exact H].
    - intros student. apply hoare_pure. intros Hu.
      destruct (ModelSerializer.to_internal_value _ _ _) as [vd|e] eqn:Hvd.
      + assert (Hv : v_user vd = None).
        { eapply to_internal_value_user; [|exact Hvd]. reflexivity. }
        apply hoare_bind with (R := fun _ db => I db).
        * simpl. unfold ModelSerializer.update. cbv zeta.
          apply hoare_bind with (R := fun _ db => I db).
          -- eapply hoare_weaken; [apply (@save_student_steps (user req)) with (db0 := db0) | auto |].
             ++ simpl. now rewrite Hv.
             ++ intros [[]|e] db H; exact H.
          -- intros _. apply hoare_ret. auto.
        * intros s. apply hoare_bind with (R := fun _ db => I db).
          -- eapply hoare_weaken; [apply (serializer_data_hoare _ _ I) | auto |].
             intros [d|e] db H; exact H.
          -- intros d. apply hoare_ret. auto.
      + destruct e; try (apply hoare_raise; tauto). apply hoare_ret. tauto. }
  unfold StudentViewSet.dispatch.
  destruct p, m; simpl; auto; apply hoare_raise; auto.
Qed.

Lemma label_dispatch_steps k m p req body db0 :
  hoare (steps (label_write k (user req)) db0) (BaseStudentAttrViewSet.dispatch k m p req body)
    (fun _ db => steps (label_write k (user req)) db0 db).
Proof.
  set (I := steps (label_write k (user req)) db0).
  assert (Hlist : hoare I (BaseStudentAttrViewSet.list_ k req) (fun _ db => I db)).
  { intros db H. now rewrite label_list_run. }
  assert (Hobj : forall pk,
    hoare I (query (BaseStudentAttrViewSet.get_object k req pk))
      (fun r db => match r with
                   | Ok x => I db /\ In x (labels k db) /\ l_user x = user req
                   | Err _ => I db
                   end)).
  { intros pk. apply hoare_query. intros db H.
    destruct (BaseStudentAttrViewSet.get_object k req pk db) as [x|e] eqn:Hx; [|assumption].
    apply label_get_object_Ok in Hx as (Hin & Hu & _). auto. }
  assert (Hupdate : forall partial pk,
            hoare I (BaseStudentAttrViewSet.update k partial req pk body)
              (fun _ db => I db)).
  { intros partial pk. unfold BaseStudentAttrViewSet.update.
    apply hoare_bind with
      (R := fun x db => I db /\ In x (labels k db) /\ l_user x = user req).
    - eapply hoare_weaken; [apply Hobj | auto |].
      intros [x|e] db H; exact H.
    - intros instance.
      apply hoare_bind with
        (R := fun _ db => I db /\ In instance (labels k db) /\ l_user instance = user req).
      + apply hoare_query. intros db H.
        now destruct (ModelSerializer.label_to_internal_value _ _ _).
      + intros vtitle. apply hoare_bind with (R := fun _ db => I db).
        * unfold ModelSerializer.label_update. cbv zeta.
          apply hoare_bind with (R := fun _ db => I db).
          -- intros db (H & Hin & Hu). cbv beta. eapply steps_snoc; [exact H|].
             apply (@lw_save k (user req) db
                      {| l_id := l_id instance;
                         l_title := ModelSerializer.default (l_title instance) vtitle;
                         l_user := l_user instance |} instance);
               [exact Hin | reflexivity | exact Hu | exact Hu].
          -- intros _. apply hoare_ret. intros db H. exact H.
        * intros x. apply hoare_ret. auto. }
  assert (Hdestroy : forall pk,
            hoare I (BaseStudentAttrViewSet.destroy k req pk) (fun _ db => I db)).
  { intros pk. unfold BaseStudentAttrViewSet.destroy.
    apply hoare_bind with
      (R := fun x db => I db /\ In x (labels k db) /\ l_user x = user req).
    - eapply hoare_weaken; [apply Hobj | auto |].
      intros [x|e] db H; tauto.
    - intros instance. apply hoare_bind with (R := fun _ db => I db).
      + intros db (H & Hin & Hu). simpl. eapply steps_snoc; [exact H|].
        now apply lw_delete.
      + intros _. apply hoare_ret. auto. }
  unfold BaseStudentAttrViewSet.dispatch.
  destruct p, m; simpl; auto; apply hoare_raise; auto.
Qed.

(** ** What the row operations keep *)

Lemma student_write_wf u db db' : wf db -> student_write u db db' -> wf db'.
Proof.
  intros Hwf H. destruct H as [k t|k sid l Hown Hl Hu|k sid Hown|inst Hown Hu|inst Hin Hu|vd Hv].
  - apply (@get_or_create_wf k u t (fun _ => True) (fun _ _ _ _ => I) db (conj Hwf I)).
  - apply (@add_wf k sid u l (fun _ => True) (fun _ _ _ => I) db).
    exact (conj Hwf (conj I (conj Hown (conj Hl Hu)))).
  - apply (@clear_wf k sid (fun _ => True) (fun _ _ _ => I) db (conj Hwf I)).
  - apply (@save_student_wf inst db). rewrite Hu. exact (conj Hwf Hown).
  - apply (@delete_student_wf inst db Hwf).
  - apply (@objects_create_wf vd u Hv db Hwf).
Qed.

Lemma label_write_wf k u db db' : wf db -> label_write k u db db' -> wf db'.
Proof.
  intros Hwf H. destruct H as [inst old Hin Hid Hou Hu|inst Hin Hu].
  - apply (@save_label_wf k inst db). refine (conj Hwf _).
    exists old. repeat split; congruence.
  - apply (@delete_label_wf k inst db Hwf).
Qed.

Lemma steps_invariant (R : DB -> DB -> Prop) (P : DB -> Prop) db0 db :
  (forall a b, P a -> R a b -> P b) -> P db0 -> steps R db0 db -> P db.
Proof. intros Hstep H0. induction 1; eauto. Qed.

Lemma filter_filter_implied {A} (p q : A -> bool) (l : list A) :
  (forall x, In x l -> q x = true -> p x = true) ->
  filter q (filter p l) = filter q l.
Proof.
  induction l as [|a l IH]; simpl; intros H; [reflexivity|].
  destruct (p a) eqn:Hp; simpl.
  - destruct (q a); rewrite IH; auto.
  - destruct (q a) eqn:Hq; [|apply IH; auto].
    rewrite (H a (or_introl eq_refl) Hq) in Hp. discriminate.
Qed.

Lemma filter_map_fixed {A} (p : A -> bool) (f : A -> A) (l : list A) :
  (forall x, In x l -> f x = x \/ (p (f x) = false /\ p x = false)) ->
  filter p (map f l) = filter p l.
Proof.
  induction l as [|a l IH]; simpl; intros H; [reflexivity|].
  rewrite IH by auto.
  destruct (H a (or_introl eq_refl)) as [-> | (-> & ->)]; reflexivity.
Qed.

Lemma filter_snoc_false {A} (p : A -> bool) (l : list A) (x : A) :
  p x = false -> filter p (l ++ [x]) = filter p l.
Proof. intros H. rewrite filter_app. simpl. rewrite H. apply app_nil_r. Qed.

Lemma NoDup_map_inj {A} (f : A -> Z) (l : list A) (a b : A) :
  NoDup (map f l) -> In a l -> In b l -> f a = f b -> a = b.
Proof.
  induction l as [|x l IH]; simpl; [tauto|].
  intros Hnd. inversion Hnd as [|? ? Hx Hnd']; subst.
  intros [-> | Ha] [-> | Hb] Heq; auto.
  - exfalso. apply Hx. rewrite Heq. now apply in_map.
  - exfalso. apply Hx. rewrite <- Heq. now apply in_map.
Qed.

Lemma students_of_In u db s :
  In s (students_of u db) <-> In s (students db) /\ s_user s = u.
Proof.
  unfold students_of, ORM.filter_student_user. rewrite filter_In.
  now rewrite Z.eqb_eq.
Qed.

Lemma labels_of_In k u db l :
  In l (labels_of k u db) <-> In l (labels k db) /\ l_user l = u.
Proof.
  unfold labels_of, ORM.filter_label_user. rewrite filter_In.
  now rewrite Z.eqb_eq.
Qed.

(** A Student of [u] has no namesake by id among the Students of another
    owner. *)
Lemma owned_not_of v u sid db :
  pk_unique db -> owned_by sid u db -> v <> u ->
  existsb (fun s => s_id s =? sid) (students_of v db) = false.
Proof.
  intros Hpk (s0 & Hs0 & Hid0 & Hu0) Hne.
  destruct (existsb _ (students_of v db)) eqn:Hex; [|reflexivity].
  apply existsb_exists in Hex as (s & Hs & Hid). apply Z.eqb_eq in Hid.
  apply students_of_In in Hs as (Hs & Hv).
  assert (s = s0) by (apply (@pk_unique_inj db s s0); congruence).
  congruence.
Qed.

Lemma same_for_of v db db' :
  students_of v db' = students_of v db ->
  (forall k, labels_of k v db' = labels_of k v db) ->
  (forall k,
     filter (fun r => existsb (fun s => s_id s =? fst r) (students_of v db)) (links k db')
     = links_of k v db) ->
  same_for v db db'.
Proof.
  intros Hs Hl Hk. split; [exact Hs|]. intros k. split; [apply Hl|].
  unfold links_of at 1. rewrite Hs. apply Hk.
Qed.

Lemma same_for_refl v db : same_for v db db.
Proof. split; [reflexivity|]. intros k. split; reflexivity. Qed.

Lemma same_for_trans v db1 db2 db3 :
  same_for v db1 db2 -> same_for v db2 db3 -> same_for v db1 db3.
Proof.
  intros (H1 & H2) (H3 & H4). split; [congruence|].
  intros k. destruct (H2 k), (H4 k). split; congruence.
Qed.

Lemma student_write_same_for u v db db' :
  wf db -> v <> u -> student_write u db db' -> same_for v db db'.
Proof.
  intros Hwf Hne H. pose proof (wf_pk_unique Hwf) as Hpk.
  destruct H as [k t|k sid l Hown Hl Hu|k sid Hown|inst Hown Hu|inst Hin Hu|vd Hv].
  - rewrite get_or_create_run.
    destruct (matching k u t db) as [|l0 [|l1 rest]]; cbv zeta; simpl;
      try apply same_for_refl.
    apply same_for_of.
    + unfold students_of. now rewrite students_set_next_label_id, students_set_labels.
    + intros k'. unfold labels_of.
      rewrite labels_set_next_label_id, labels_set_labels.
      destruct k, k'; try reflexivity; unfold ORM.filter_label_user;
        apply filter_snoc_false; simpl; now apply Z.eqb_neq.
    + intros k'. unfold links_of.
      now rewrite links_set_next_label_id, links_set_labels.
  - unfold ORM.add, modify. simpl.
    destruct (existsb _ (links k db)); [apply same_for_refl|].
    apply same_for_of.
    + unfold students_of. now rewrite students_set_links.
    + intros k'. unfold labels_of. now rewrite labels_set_links.
    + intros k'. unfold links_of. rewrite links_set_links.
      destruct k, k'; try reflexivity;
        apply filter_snoc_false; simpl; now apply owned_not_of with (u := u).
  - rewrite clear_run. simpl.
    apply same_for_of.
    + unfold students_of. now rewrite students_set_links.
    + intros k'. unfold labels_of. now rewrite labels_set_links.
    + intros k'. unfold links_of. rewrite links_set_links.
      assert (Hgo : filter (fun r => existsb (fun s => s_id s =? fst r) (students_of v db))
                      (filter (fun r : Z * Z => negb (fst r =? sid)) (links k db)) =
                    filter (fun r => existsb (fun s => s_id s =? fst r) (students_of v db))
                      (links k db)).
      { apply filter_filter_implied. intros r _ Hr.
        destruct (Z.eqb_spec (fst r) sid) as [Heq|]; [|reflexivity].
        rewrite Heq, (@owned_not_of v u sid db) in Hr; auto. }
      destruct k, k'; try reflexivity; exact Hgo.
  - rewrite save_student_run. simpl. destruct Hown as (s0 & Hs0 & Hid0 & Hu0).
    apply same_for_of.
    + unfold students_of. simpl. unfold ORM.filter_student_user.
      apply filter_map_fixed. intros s Hs.
      destruct (Z.eqb_spec (s_id s) (s_id inst)) as [Heq|]; [right|now left].
      assert (s = s0) by (apply (@pk_unique_inj db s s0); congruence). subst s.
      split; apply Z.eqb_neq; congruence.
    + reflexivity.
    + reflexivity.
  - unfold ORM.delete_student, modify. simpl.
    assert (Hown : owned_by (s_id inst) u db) by (exists inst; auto).
    assert (Hgo : forall k,
              filter (fun r => existsb (fun s => s_id s =? fst r) (students_of v db))
                (filter (fun r : Z * Z => negb (fst r =? s_id inst)) (links k db)) =
              filter (fun r => existsb (fun s => s_id s =? fst r) (students_of v db))
                (links k db)).
    { intros k. apply filter_filter_implied. intros r _ Hr.
      destruct (Z.eqb_spec (fst r) (s_id inst)) as [Heq|]; [|reflexivity].
      rewrite Heq, (@owned_not_of v u (s_id inst) db) in Hr; auto. }
    apply same_for_of.
    + unfold students_of. simpl. unfold ORM.filter_student_user.
      apply filter_filter_implied. intros s Hs Hv. apply Z.eqb_eq in Hv.
      destruct (Z.eqb_spec (s_id s) (s_id inst)) as [Heq|]; [|reflexivity].
      assert (s = inst) by (apply (@pk_unique_inj db s inst); congruence).
      congruence.
    + intros []; reflexivity.
    + intros []; [exact (Hgo KTag) | exact (Hgo KCourse)].
  - unfold ModelSerializer.objects_create. rewrite Hv. simpl.
    apply same_for_of.
    + unfold students_of. simpl. unfold ORM.filter_student_user.
      apply filter_snoc_false. simpl. apply Z.eqb_neq. congruence.
    + reflexivity.
    + reflexivity.
Qed.

Lemma label_write_same_for k u v db db' :
  wf db -> v <> u -> label_write k u db db' -> same_for v db db'.
Proof.
  intros Hwf Hne H. pose proof (wf_pk_unique Hwf) as Hpk.
  assert (Hnd : NoDup (map l_id (labels k db))) by (destruct Hwf as (_ & _ & Hk); apply Hk).
  destruct H as [inst old Hin Hid Hou Hu|inst Hin Hu].
  - unfold ORM.save_label, modify. simpl.
    apply same_for_of.
    + unfold students_of. now rewrite students_set_labels.
    + intros k'. unfold labels_of. rewrite labels_set_labels.
      assert (Hgo : ORM.filter_label_user v
                      (map (fun l => if l_id l =? l_id inst then inst else l) (labels k db)) =
                    ORM.filter_label_user v (labels k db)).
      { apply filter_map_fixed. intros l Hl.
        destruct (Z.eqb_spec (l_id l) (l_id inst)) as [Heq|]; [right|now left].
        assert (l = old) by (apply (@NoDup_map_inj _ l_id (labels k db)); congruence).
        subst l. split; apply Z.eqb_neq; congruence. }
      destruct k, k'; try reflexivity; exact Hgo.
    + intros k'. unfold links_of. now rewrite links_set_labels.
  - unfold ORM.delete_label, modify. simpl.
    apply same_for_of.
    + unfold students_of. now rewrite students_set_labels, students_set_links.
    + intros k'. unfold labels_of. rewrite labels_set_labels, labels_set_links.
      assert (Hgo : ORM.filter_label_user v
                      (filter (fun l => negb (l_id l =? l_id inst)) (labels k db)) =
                    ORM.filter_label_user v (labels k db)).
      { apply filter_filter_implied. intros l Hl Hv. apply Z.eqb_eq in Hv.
        destruct (Z.eqb_spec (l_id l) (l_id inst)) as [Heq|]; [|reflexivity].
        assert (l = inst) by (apply (@NoDup_map_inj _ l_id (labels k db)); congruence).
        congruence. }
      destruct k, k'; try reflexivity; exact Hgo.
    + intros k'. unfold links_of. rewrite links_set_labels, links_set_links.
      assert (Hgo : filter (fun r => existsb (fun s => s_id s =? fst r) (students_of v db))
                      (filter (fun r : Z * Z => negb (snd r =? l_id inst)) (links k db)) =
                    filter (fun r => existsb (fun s => s_id s =? fst r) (students_of v db))
                      (links k db)).
      { apply filter_filter_implied. intros r Hr Hex.
        destruct (Z.eqb_spec (snd r) (l_id inst)) as [Heq|]; [exfalso|reflexivity].
        apply existsb_exists in Hex as (s & Hs & Hsid). apply Z.eqb_eq in Hsid.
        apply students_of_In in Hs as (Hs & Hv).
        destruct Hwf as (_ & _ & Hk). destruct (Hk k) as (_ & Hlinks).
        destruct (Hlinks r Hr) as (s' & l' & Hs' & Hl' & H1 & H2 & H3).
        assert (s' = s) by (apply (@pk_unique_inj db s' s); congruence).
        assert (l' = inst) by (apply (@NoDup_map_inj _ l_id (labels k db)); congruence).
        congruence. }
      destruct k, k'; try reflexivity; exact Hgo.
Qed.

(** ** What an owner reads depends on what the owner holds *)

Lemma filter_flat_map_copies {A B} (p : A -> bool) (g : A -> list B) (l : list A) :
  filter p (flat_map (fun a => map (fun _ => a) (g a)) l) =
  flat_map (fun a => map (fun _ => a) (g a)) (filter p l).
Proof.
  induction l as [|a l IH]; simpl; [reflexivity|].
  rewrite filter_app, IH.
  assert (H : filter p (map (fun _ : B => a) (g a)) =
              if p a then map (fun _ => a) (g a) else []).
  { induction (g a) as [|b bs IHb]; simpl; [now destruct (p a)|].
    rewrite IHb. now destruct (p a). }
  rewrite H. destruct (p a); reflexivity.
Qed.

Lemma flat_map_ext_in {A B} (f g : A -> list B) (l : list A) :
  (forall a, In a l -> f a = g a) -> flat_map f l = flat_map g l.
Proof.
  induction l as [|a l IH]; simpl; intros H; [reflexivity|].
  rewrite (H a) by now left. rewrite IH; auto.
Qed.

Lemma existsb_filter_implied {A} (f q : A -> bool) (l : list A) :
  (forall x, In x l -> f x = true -> q x = true) ->
  existsb f (filter q l) = existsb f l.
Proof.
  induction l as [|a l IH]; simpl; intros H; [reflexivity|].
  destruct (q a) eqn:Hq; simpl; rewrite IH by auto; [reflexivity|].
  destruct (f a) eqn:Hf; [|reflexivity].
  rewrite (H a (or_introl eq_refl) Hf) in Hq. discriminate.
Qed.

(** The association rows of one Student of [u] are among the rows [u]
    holds. *)
Lemma links_of_student k u db s (e : Z * Z -> bool) :
  In s (students db) -> s_user s = u ->
  filter (fun r => (fst r =? s_id s) && e r) (links k db) =
  filter (fun r => (fst r =? s_id s) && e r) (links_of k u db).
Proof.
  intros Hs Hu. unfold links_of. symmetry. apply filter_filter_implied.
  intros r _ Hr. apply andb_true_iff in Hr as (Hr & _). apply Z.eqb_eq in Hr.
  apply existsb_exists. exists s. split; [now apply students_of_In|].
  now apply Z.eqb_eq.
Qed.

Lemma filter_join_view u k ids db qs :
  (forall s, In s qs -> In s (students db)) ->
  ORM.filter_student_user u (ORM.filter_label_id_in k ids db qs) =
  flat_map
    (fun s =>
       map (fun _ => s)
         (filter (fun r => (fst r =? s_id s) && existsb (Z.eqb (snd r)) ids)
            (links_of k u db)))
    (ORM.filter_student_user u qs).
Proof.
  intros Hqs. unfold ORM.filter_label_id_in, ORM.filter_student_user.
  rewrite filter_flat_map_copies. apply flat_map_ext_in.
  intros s Hs. apply filter_In in Hs as (Hs & Hu). apply Z.eqb_eq in Hu.
  f_equal. now apply links_of_student; [apply Hqs|].
Qed.

Lemma join_students k f db qs s :
  (forall x, In x qs -> In x (students db)) -> In s (join k f db qs) -> In s (students db).
Proof.
  intros Hqs. destruct f as [ids|]; simpl; [|apply Hqs].
  intros H. apply filter_label_id_in_In in H as (H & _). now apply Hqs.
Qed.

Lemma filter_join_same u k f db1 db2 qs1 qs2 :
  links_of k u db2 = links_of k u db1 ->
  (forall s, In s qs1 -> In s (students db1)) ->
  (forall s, In s qs2 -> In s (students db2)) ->
  ORM.filter_student_user u qs2 = ORM.filter_student_user u qs1 ->
  ORM.filter_student_user u (join k f db2 qs2) =
  ORM.filter_student_user u (join k f db1 qs1).
Proof.
  intros Hl H1 H2 Hq. destruct f as [ids|]; simpl; [|exact Hq].
  rewrite !filter_join_view by assumption. now rewrite Hl, Hq.
Qed.

Lemma student_queryset_same req db1 db2 :
  same_for (user req) db1 db2 ->
  StudentViewSet.get_queryset req db2 = StudentViewSet.get_queryset req db1.
Proof.
  intros (Hs & Hk). rewrite !student_get_queryset_unfold.
  destruct (parsed_filter (QueryDict_get "tags" _)) as [ft|e]; [|reflexivity].
  destruct (parsed_filter (QueryDict_get "courses" _)) as [fc|e]; [|reflexivity].
  simpl. do 3 f_equal.
  apply filter_join_same.
  - apply Hk.
  - intros s. apply join_students. auto.
  - intros s. apply join_students. auto.
  - apply filter_join_same; auto. apply Hk.
Qed.

Lemma labels_unique k db l l' :
  wf db -> In l (labels k db) -> In l' (labels k db) -> l_id l = l_id l' -> l = l'.
Proof.
  intros (_ & _ & Hk). destruct (Hk k) as ((Hnd & _) & _).
  now apply NoDup_map_inj.
Qed.

Lemma related_view k u db s :
  wf db -> In s (students db) -> s_user s = u ->
  ORM.related k (s_id s) db =
  filter
    (fun l => existsb (fun r => (fst r =? s_id s) && (snd r =? l_id l)) (links_of k u db))
    (labels_of k u db).
Proof.
  intros Hwf Hs Hu. unfold ORM.related.
  assert (Hex : forall l,
            existsb (fun r => (fst r =? s_id s) && (snd r =? l_id l)) (links k db) =
            existsb (fun r => (fst r =? s_id s) && (snd r =? l_id l)) (links_of k u db)).
  { intros l. unfold links_of. symmetry. apply existsb_filter_implied.
    intros r _ Hr. apply andb_true_iff in Hr as (Hr & _). apply Z.eqb_eq in Hr.
    apply existsb_exists. exists s. split; [now apply students_of_In|].
    now apply Z.eqb_eq. }
  rewrite (filter_ext _ _ Hex).
  unfold labels_of, ORM.filter_label_user. symmetry. apply filter_filter_implied.
  intros l Hl Hp. apply Z.eqb_eq. rewrite <- Hu.
  apply (@related_owner k db s l Hwf Hs).
  unfold ORM.related. apply filter_In. split; [exact Hl|]. now rewrite Hex.
Qed.

Lemma representation_same m u db1 db2 s :
  wf db1 -> wf db2 -> same_for u db1 db2 ->
  In s (students db1) -> s_user s = u ->
  ModelSerializer.to_representation m db2 s = ModelSerializer.to_representation m db1 s.
Proof.
  intros Hwf1 Hwf2 (Hs & Hk) Hin Hu.
  assert (Hin2 : In s (students db2)).
  { assert (H : In s (students_of u db1)) by now apply students_of_In.
    rewrite <- Hs in H. now apply students_of_In in H. }
  assert (Hrel : forall k, ORM.related k (s_id s) db2 = ORM.related k (s_id s) db1).
  { intros k. rewrite (@related_view k u db1 s), (@related_view k u db2 s) by assumption.
    destruct (Hk k) as (-> & ->). reflexivity. }
  unfold ModelSerializer.to_representation. apply flat_map_ext_in. intros f _.
  unfold ModelSerializer.student_field. now rewrite !Hrel.
Qed.

Lemma links_of_label k u db l :
  wf db -> In l (labels k db) -> l_user l = u ->
  filter (fun r => snd r =? l_id l) (links k db) =
  filter (fun r => snd r =? l_id l) (links_of k u db).
Proof.
  intros Hwf Hl Hu. unfold links_of. symmetry. apply filter_filter_implied.
  intros r Hr Hp. apply Z.eqb_eq in Hp.
  destruct Hwf as (Hpk & Hseq & Hk). destruct (Hk k) as ((Hnd & _) & Hlinks).
  destruct (Hlinks r Hr) as (s' & l' & Hs' & Hl' & H1 & H2 & H3).
  assert (l' = l) by (apply (@NoDup_map_inj _ l_id (labels k db)); congruence).
  apply existsb_exists. exists s'. split; [apply students_of_In; split; congruence|].
  now apply Z.eqb_eq.
Qed.

Lemma label_queryset_same k req db1 db2 :
  wf db1 -> wf db2 -> same_for (user req) db1 db2 ->
  BaseStudentAttrViewSet.get_queryset k req db2 =
  BaseStudentAttrViewSet.get_queryset k req db1.
Proof.
  intros Hwf1 Hwf2 (Hs & Hk). destruct (Hk k) as (Hlab & Hlnk).
  unfold BaseStudentAttrViewSet.get_queryset.
  destruct (match QueryDict_get "assigned_only" (query_params req) with
            | Some s => int_or_ValueError s
            | None => Ok 0
            end) as [n|e]; [|reflexivity].
  simpl. do 3 f_equal. destruct (negb (n =? 0)); [|exact Hlab].
  assert (Hgo : forall db, wf db ->
            ORM.filter_label_user (user req) (ORM.filter_student_notnull k db (labels k db)) =
            flat_map
              (fun l => map (fun _ => l)
                          (filter (fun r => snd r =? l_id l) (links_of k (user req) db)))
              (labels_of k (user req) db)).
  { intros db Hwf. unfold ORM.filter_student_notnull, ORM.filter_label_user.
    rewrite filter_flat_map_copies. apply flat_map_ext_in.
    intros l Hl. apply filter_In in Hl as (Hl & Hu). apply Z.eqb_eq in Hu.
    f_equal. now apply links_of_label. }
  rewrite !Hgo by assumption. now rewrite Hlab, Hlnk.
Qed.

(** Two states with the integrity in which an owner holds the same rows
    answer the owner's reads alike. *)
Lemma reads_same e p req sbody lbody sbody' lbody' db1 db2 :
  wf db1 -> wf db2 -> same_for (user req) db1 db2 ->
  snd (handle e GET p req sbody' lbody' db2) = snd (handle e GET p req sbody lbody db1).
Proof.
  intros Hwf1 Hwf2 Hsame. destruct e as [|k], p as [|pk|pk]; try reflexivity.
  - change (snd (StudentViewSet.list_ req db2) = snd (StudentViewSet.list_ req db1)).
    rewrite !student_list_run. simpl.
    rewrite (@student_queryset_same req db1 db2 Hsame).
    destruct (StudentViewSet.get_queryset req db1) as [l|err] eqn:Hq; [|reflexivity].
    do 2 f_equal. unfold student_list_data. f_equal. apply map_ext_in.
    intros s Hs. f_equal.
    pose proof (@student_get_queryset_Ok req db1 l Hq) as Hx.
    destruct Hx as (ft & Hx). destruct Hx as (fc & Hft & Hfc).
    destruct (proj1 (@student_list_both_filters req db1 ft fc l Hft Hfc Hq s) Hs)
      as (Hin & Hu & _).
    now apply representation_same with (u := user req).
  - change (snd (StudentViewSet.retrieve req pk db2) =
            snd (StudentViewSet.retrieve req pk db1)).
    rewrite !student_retrieve_run. simpl.
    unfold StudentViewSet.get_object. rewrite (@student_queryset_same req db1 db2 Hsame).
    destruct (rbind (StudentViewSet.get_queryset req db1) (ORM.get_student pk))
      as [s|err] eqn:Hq; [|reflexivity].
    apply student_get_object_Ok in Hq as (Hin & Hu & _).
    do 3 f_equal. now apply representation_same with (u := user req).
  - change (snd (BaseStudentAttrViewSet.list_ k req db2) =
            snd (BaseStudentAttrViewSet.list_ k req db1)).
    rewrite !label_list_run. simpl.
    now rewrite (@label_queryset_same k req db1 db2 Hwf1 Hwf2 Hsame).
Qed.

Lemma handle_steps e m p req sbody lbody db :
  exists R,
    steps R db (fst (handle e m p req sbody lbody db)) /\
    (forall a b, wf a -> R a b -> wf b) /\
    (forall v a b, wf a -> v <> user req -> R a b -> same_for v a b).
Proof.
  destruct e as [|k].
  - exists (student_write (user req)). split; [|split].
    + apply (@student_dispatch_steps m p req sbody db db). constructor.
    + intros a b. apply student_write_wf.
    + intros v a b. apply student_write_same_for.
  - exists (label_write k (user req)). split; [|split].
    + apply (@label_dispatch_steps k m p req lbody db db). constructor.
    + intros a b. apply label_write_wf.
    + intros v a b. apply label_write_same_for.
Qed.

Lemma handle_same_for e m p req sbody lbody db v :
  wf db -> v <> user req ->
  wf (fst (handle e m p req sbody lbody db)) /\
  same_for v db (fst (handle e m p req sbody lbody db)).
Proof.
  intros Hwf Hne.
  destruct (handle_steps e m p req sbody lbody db) as (R & Hsteps & HRwf & HRsame).
  apply (@steps_invariant R (fun d => wf d /\ same_for v db d) db); [| |exact Hsteps].
  - intros a b (Ha & Hs) Hab. split; [eauto|].
    eapply same_for_trans; [exact Hs|]. eauto.
  - split; [assumption | apply same_for_refl].
Qed.

(** ** Integrity and isolation of the writes *)

(** X1. The integrity of the store is an invariant of the API: in every
    state reached from the empty database primary keys are unique and
    below their sequences and every association row joins an existing
    Student and an existing label of the same owner, and every further
    request, whatever its outcome, leads to such a state again. *)
Theorem store_integrity_is_invariant db :
  reachable db ->
  wf db /\
  forall e m p req sbody lbody, wf (fst (handle e m p req sbody lbody db)).
Proof.
  intros Hr. pose proof (reachable_wf Hr) as Hwf. split; [exact Hwf|].
  intros [|k] m p req sbody lbody.
  - apply (@student_dispatch_wf m p req sbody db Hwf).
  - apply (@label_dispatch_wf k m p req lbody db Hwf).
Qed.

Lemma store_integrity_is_invariant_witness :
  wf db_two_thai /\
  forall e m p req sbody lbody, wf (fst (handle e m p req sbody lbody db_two_thai)).
Proof.
  apply (@store_integrity_is_invariant db_two_thai).
  apply (@reachable_label KTag PATCH (Detail 2) (request_of 1 [])
           {| lu_id := None; lu_user := None; lu_title := Some (Valid "Thai") |}
           db_thai_dinner).
  apply (@reachable_student POST Collection (request_of 1 [])
           (student_body "Sample name" (Some ["Thai"; "Dinner"]) None) empty_db).
  apply reachable_empty.
Defined.

(** X2. Isolation of the writes.  In a state with the integrity, a
    request of one owner, to any viewset and with any outcome, leaves what
    every other owner holds as it was (their Students, their labels and the
    association rows of their Students), and every read of another owner
    (a list or a detail) is answered after the request as before it. *)
Theorem requests_leave_other_owners_alone e m p req sbody lbody db v :
  wf db ->
  v <> user req ->
  let db' := fst (handle e m p req sbody lbody db) in
  same_for v db db' /\
  forall e' p' req' sbody' lbody',
    user req' = v ->
    snd (handle e' GET p' req' sbody' lbody' db') =
    snd (handle e' GET p' req' sbody' lbody' db).
Proof.
  intros Hwf Hne db'.
  destruct (@handle_same_for e m p req sbody lbody db v Hwf Hne) as (Hwf' & Hsame).
  split; [exact Hsame|].
  intros e' p' req' sbody' lbody' Hv. subst v.
  now apply reads_same.
Qed.

Lemma requests_leave_other_owners_alone_witness :
  let db' := fst (handle EStudent DELETE (Detail 1) (request_of 1 []) no_body
                    no_label_body sample_db) in
  same_for 2 sample_db db' /\
  forall e' p' req' sbody' lbody',
    user req' = 2 ->
    snd (handle e' GET p' req' sbody' lbody' db') =
    snd (handle e' GET p' req' sbody' lbody' sample_db).
Proof.
  apply (@requests_leave_other_owners_alone EStudent DELETE (Detail 1) (request_of 1 [])
           no_body no_label_body sample_db 2).
  - exact wf_sample_db.
  - simpl. lia.
Defined.

Lemma student_write_labels u db db' :
  student_write u db db' ->
  forall k, exists new,
    labels k db' = labels k db ++ new /\ forall l, In l new -> l_user l = u.
Proof.
  intros H k'.
  assert (Hsame : labels k' db' = labels k' db ->
            exists new, labels k' db' = labels k' db ++ new /\
                        forall l, In l new -> l_user l = u).
  { intros ->. exists []. split; [now rewrite app_nil_r | intros l []]. }
  destruct H as [k t|k sid l Hown Hl Hu|k sid Hown|inst Hown Hu|inst Hin Hu|vd Hv].
  - revert Hsame. rewrite get_or_create_run.
    destruct (matching k u t db) as [|l0 [|l1 rest]]; cbv zeta; simpl; auto.
    intros _. rewrite labels_set_next_label_id, labels_set_labels.
    destruct k, k'; try (exists []; split; [now rewrite app_nil_r | intros l []]);
      (eexists; split; [reflexivity|]; intros l [<- | []]; reflexivity).
  - apply Hsame. unfold ORM.add, modify. simpl.
    destruct (existsb _ (links k db)); [reflexivity|]. apply labels_set_links.
  - apply Hsame. rewrite clear_run. simpl. apply labels_set_links.
  - apply Hsame. reflexivity.
  - apply Hsame. now destruct k'.
  - apply Hsame. unfold ModelSerializer.objects_create. now destruct (v_user vd).
Qed.

(** X3. A request to the Student viewset never deletes or changes a Tag
    or a Course: whatever the request and its outcome, each label table
    afterwards is the table before followed by new labels, all owned by the
    requester. *)
Theorem student_requests_only_add_own_labels m p req body db k :
  exists new,
    labels k (fst (StudentViewSet.dispatch m p req body db)) = labels k db ++ new /\
    forall l, In l new -> l_user l = user req.
Proof.
  apply (@steps_invariant (student_write (user req))
           (fun d => exists new, labels k d = labels k db ++ new /\
                                 forall l, In l new -> l_user l = user req) db).
  - intros a b (new & Ha & Hnew) Hab.
    destruct (student_write_labels Hab k) as (new' & Hb & Hnew').
    exists (new ++ new'). split; [now rewrite Hb, Ha, app_assoc|].
    intros l Hl. apply in_app_or in Hl as [Hl | Hl]; auto.
  - exists []. split; [now rewrite app_nil_r | intros l []].
  - apply (@student_dispatch_steps m p req body db db). constructor.
Qed.

Lemma label_write_effect k u db db' :
  label_write k u db db' ->
  frame k db db' /\
  next_label_id k db' = next_label_id k db /\
  incl (links k db') (links k db) /\
  (List.length (labels k db') <= List.length (labels k db))%nat /\
  (wf db -> forall l', In l' (labels k db') ->
     exists l, In l (labels k db) /\ l_id l = l_id l' /\ l_user l = l_user l').
Proof.
  intros H. destruct H as [inst old Hin Hid Hou Hu|inst Hin Hu].
  - unfold ORM.save_label, modify. simpl.
    split; [destruct k; repeat split|]. split; [now destruct k|].
    rewrite links_set_labels, labels_set_labels.
    assert (Hlab : match k, k with
                   | KTag, KTag | KCourse, KCourse =>
                       map (fun l => if l_id l =? l_id inst then inst else l) (labels k db)
                   | _, _ => labels k db
                   end = map (fun l => if l_id l =? l_id inst then inst else l) (labels k db))
      by now destruct k.
    rewrite Hlab. split; [apply incl_refl|]. split; [now rewrite length_map|].
    intros Hwf l' Hl'. apply in_map_iff in Hl' as (l & <- & Hl).
    destruct (Z.eqb_spec (l_id l) (l_id inst)) as [Heq|]; [|eauto].
    assert (l = old) by (apply (@labels_unique k db l old); congruence). subst l.
    exists old. repeat split; congruence.
  - unfold ORM.delete_label, modify. simpl.
    split; [destruct k; repeat split|]. split; [now destruct k|].
    rewrite links_set_labels, links_set_links, labels_set_labels, labels_set_links.
    assert (Hlab : match k, k with
                   | KTag, KTag | KCourse, KCourse =>
                       filter (fun l => negb (l_id l =? l_id inst)) (labels k db)
                   | _, _ => labels k db
                   end = filter (fun l => negb (l_id l =? l_id inst)) (labels k db))
      by now destruct k.
    assert (Hlnk : match k, k with
                   | KTag, KTag | KCourse, KCourse =>
                       filter (fun r : Z * Z => negb (snd r =? l_id inst)) (links k db)
                   | _, _ => links k db
                   end = filter (fun r : Z * Z => negb (snd r =? l_id inst)) (links k db))
      by now destruct k.
    rewrite Hlab, Hlnk. split; [apply incl_filter|]. split; [apply filter_length_le|].
    intros _ l' Hl'. apply filter_In in Hl' as (Hl' & _). eauto.
Qed.

(** X4. A request to a label viewset touches the labels of its kind
    only: the Students, the sequences and the tables of the other kind
    stay as they are; no label and no association row is added; and, in a
    state with the integrity, every label left has the id and the owner it
    had. *)
Theorem label_requests_touch_own_kind_only k m p req body db :
  let db' := fst (BaseStudentAttrViewSet.dispatch k m p req body db) in
  frame k db db' /\
  next_label_id k db' = next_label_id k db /\
  incl (links k db') (links k db) /\
  (List.length (labels k db') <= List.length (labels k db))%nat /\
  (wf db -> forall l', In l' (labels k db') ->
     exists l, In l (labels k db) /\ l_id l = l_id l' /\ l_user l = l_user l').
Proof.
  intros db'.
  assert (H : (frame k db db' /\
               next_label_id k db' = next_label_id k db /\
               incl (links k db') (links k db) /\
               (List.length (labels k db') <= List.length (labels k db))%nat) /\
              (wf db -> wf db' /\ forall l', In l' (labels k db') ->
                 exists l, In l (labels k db) /\ l_id l = l_id l' /\ l_user l = l_user l')).
  { apply (@steps_invariant (label_write k (user req))
             (fun d => (frame k db d /\
                        next_label_id k d = next_label_id k db /\
                        incl (links k d) (links k db) /\
                        (List.length (labels k d) <= List.length (labels k db))%nat) /\
                       (wf db -> wf d /\ forall l', In l' (labels k d) ->
                          exists l, In l (labels k db) /\ l_id l = l_id l' /\
                                    l_user l = l_user l')) db).
    - intros a b ((Hf & Hn & Hi & Hlen) & Hwf) Hab.
      destruct (label_write_effect Hab) as (Hf' & Hn' & Hi' & Hlen' & Hown').
      split.
      + split; [eapply frame_trans; eassumption|]. split; [congruence|].
        split; [eapply incl_tran; eassumption | lia].
      + intros Hwf0. destruct (Hwf Hwf0) as (Hwfa & Hown).
        split; [eapply label_write_wf; eassumption|].
        intros l' Hl'. destruct (Hown' Hwfa l' Hl') as (l1 & Hl1 & Hid1 & Hu1).
        destruct (Hown l1 Hl1) as (l & Hl & Hid & Hu).
        exists l. repeat split; congruence.
    - split; [split; [apply frame_refl|]; split; [reflexivity|];
              split; [apply incl_refl | lia]|].
      intros Hwf0. split; [exact Hwf0|]. eauto.
    - apply (@label_dispatch_steps k m p req body db db). constructor. }
  destruct H as ((Hf & Hn & Hi & Hlen) & Hwf).
  repeat (split; [assumption|]). intros Hwf0. now apply Hwf.
Qed.

Lemma student_write_titles_unique u db db' :
  titles_unique db -> student_write u db db' -> titles_unique db'.
Proof.
  intros Huniq H.
  assert (Hsame : (forall k, labels k db' = labels k db) -> titles_unique db').
  { intros Hl k' u' t'. unfold matching. rewrite Hl. apply Huniq. }
  destruct H as [k t|k sid l Hown Hl Hu|k sid Hown|inst Hown Hu|inst Hin Hu|vd Hv].
  - revert Hsame. rewrite get_or_create_run.
    destruct (matching k u t db) as [|l0 [|l1 rest]] eqn:Hm; cbv zeta; simpl; auto.
    intros _ k' u' t'. unfold matching.
    rewrite labels_set_next_label_id, labels_set_labels.
    assert (Hgo : (List.length
                     (matching_in u' t'
                        (labels k db ++
                         [{| l_id := next_label_id k db; l_title := t; l_user := u |}]))
                   <= 1)%nat).
    { rewrite matching_in_app, length_app. simpl.
      destruct (Z.eqb_spec u u') as [<-|Hne]; simpl; [|specialize (Huniq k u' t'); unfold matching in Huniq; lia].
      destruct (String.eqb_spec t t') as [<-|Hne]; simpl;
        [|specialize (Huniq k u t'); unfold matching in Huniq; lia].
      unfold matching in Hm. rewrite Hm. simpl. lia. }
    destruct k, k'; try exact Hgo; apply (Huniq _ u' t').
  - apply Hsame. intros k'. unfold ORM.add, modify. simpl.
    destruct (existsb _ (links k db)); [reflexivity|]. apply labels_set_links.
  - apply Hsame. intros k'. rewrite clear_run. simpl. apply labels_set_links.
  - apply Hsame. reflexivity.
  - apply Hsame. now intros [].
  - apply Hsame. intros k'. unfold ModelSerializer.objects_create. now destruct (v_user vd).
Qed.

(** X5. The Student viewset never makes a title ambiguous: if no owner
    has two labels of one kind with the same title before a request to it,
    none has after the request, whatever the request creates. *)
Theorem student_requests_keep_titles_unique m p req body db :
  titles_unique db ->
  titles_unique (fst (StudentViewSet.dispatch m p req body db)).
Proof.
  intros Huniq.
  apply (@steps_invariant (student_write (user req)) titles_unique db).
  - intros a b Ha Hab. eapply student_write_titles_unique; eassumption.
  - exact Huniq.
  - apply (@student_dispatch_steps m p req body db db). constructor.
Qed.

Lemma titles_unique_sample_db : titles_unique sample_db.
Proof.
  intros k u t. unfold matching.
  assert (H : forall ls, NoDup (map l_title ls) ->
            (List.length (matching_in u t ls) <= 1)%nat).
  { unfold matching_in. induction ls as [|a ls IH]; simpl; [lia|].
    intros Hnd. inversion Hnd as [|? ? Ha Hnd']; subst.
    destruct ((l_user a =? u) && String.eqb (l_title a) t) eqn:Hb; [|auto].
    apply andb_true_iff in Hb as (_ & Hb). apply String.eqb_eq in Hb.
    simpl. rewrite (proj2 (length_zero_iff_nil _)); [lia|].
    destruct (filter _ ls) as [|b bs] eqn:Hf; [reflexivity|exfalso].
    assert (Hin : In b (filter (fun l => (l_user l =? u) && String.eqb (l_title l) t) ls))
      by (rewrite Hf; now left).
    apply filter_In in Hin as (Hin & Hb'). apply andb_true_iff in Hb' as (_ & Hb').
    apply String.eqb_eq in Hb'. apply Ha. rewrite Hb, <- Hb'. now apply in_map. }
  destruct k; apply H; simpl; repeat constructor; simpl; intuition discriminate.
Qed.

Lemma student_requests_keep_titles_unique_witness :
  titles_unique
    (fst (StudentViewSet.dispatch PATCH (Detail 1) (request_of 1 []) patch_tags sample_db)).
Proof.
  apply (@student_requests_keep_titles_unique PATCH (Detail 1) (request_of 1 []) patch_tags
           sample_db).
  exact titles_unique_sample_db.
Defined.

(** ** The actions of the Student viewset, one by one *)

Lemma student_create_run req body db :
  StudentViewSet.create req body db =
  match ModelSerializer.to_internal_value StudentSerializer.Meta false body with
  | Err e => (db, Err e)
  | Ok vd =>
      match StudentSerializer.create (user req) (ModelSerializer.with_user (user req) vd) db with
      | (db', Ok s) =>
          (db', Ok {| status := 201;
                      data := JObj (ModelSerializer.to_representation
                                      StudentSerializer.Meta db' s) |})
      | (db', Err e) => (db', Err e)
      end
  end.
Proof.
  unfold StudentViewSet.create, StudentViewSet.perform_create, bind, query. simpl.
  destruct (ModelSerializer.to_internal_value _ _ _) as [vd|e]; [|reflexivity].
  destruct (StudentSerializer.create _ _ db) as [db' [s|e]]; reflexivity.
Qed.

Lemma student_destroy_run req pk db :
  StudentViewSet.destroy req pk db =
  match StudentViewSet.get_object req pk db with
  | Err e => (db, Err e)
  | Ok s => (fst (ORM.delete_student s db), Ok {| status := 204; data := JNull |})
  end.
Proof.
  unfold StudentViewSet.destroy, bind, query.
  destruct (StudentViewSet.get_object req pk db); reflexivity.
Qed.

Lemma student_upload_run req pk body db :
  StudentViewSet.upload_image req pk body db =
  match StudentViewSet.get_object req pk db with
  | Err e => (db, Err e)
  | Ok s =>
      match ModelSerializer.to_internal_value StudentImageSerializer.Meta false body with
      | Ok vd =>
          let s' := ModelSerializer.setattrs s vd in
          let db' := fst (ORM.save_student s' db) in
          (db', Ok {| status := 200;
                      data := JObj (ModelSerializer.to_representation
                                      StudentImageSerializer.Meta db' s') |})
      | Err (ValidationError errs) =>
          (db, Ok {| status := 400; data := errors_json errs |})
      | Err e => (db, Err e)
      end
  end.
Proof.
  unfold StudentViewSet.upload_image, bind, query. simpl.
  destruct (StudentViewSet.get_object req pk db) as [s|e]; [|reflexivity].
  destruct (ModelSerializer.to_internal_value _ _ _) as [vd|[]]; reflexivity.
Qed.

Lemma label_update_run k partial req pk body db :
  BaseStudentAttrViewSet.update k partial req pk body db =
  match BaseStudentAttrViewSet.get_object k req pk db with
  | Err e => (db, Err e)
  | Ok x =>
      match ModelSerializer.label_to_internal_value
              (BaseStudentAttrViewSet.serializer_class k) partial body with
      | Err e => (db, Err e)
      | Ok vtitle =>
          let x' := with_title x (ModelSerializer.default (l_title x) vtitle) in
          (fst (ORM.save_label k x' db),
           Ok {| status := 200; data := ModelSerializer.label_representation x' |})
      end
  end.
Proof.
  unfold BaseStudentAttrViewSet.update, bind, query.
  destruct (BaseStudentAttrViewSet.get_object k req pk db) as [x|e]; [|reflexivity].
  destruct (ModelSerializer.label_to_internal_value _ _ _) as [vtitle|e]; reflexivity.
Qed.

Lemma label_destroy_run k req pk db :
  BaseStudentAttrViewSet.destroy k req pk db =
  match BaseStudentAttrViewSet.get_object k req pk db with
  | Err e => (db, Err e)
  | Ok x => (fst (ORM.delete_label k x db), Ok {| status := 204; data := JNull |})
  end.
Proof.
  unfold BaseStudentAttrViewSet.destroy, bind, query.
  destruct (BaseStudentAttrViewSet.get_object k req pk db); reflexivity.
Qed.

Lemma serializer_create_run u vd db :
  let s := created_student u vd db in
  let db1 := set_next_student_id (next_student_id db + 1)
               (set_students (students db ++ [s]) db) in
  StudentSerializer.create u (ModelSerializer.with_user u vd) db =
  bind (StudentSerializer.get_or_create_all KTag u (ModelSerializer.default [] (v_tags vd)) s)
    (fun _ =>
       bind (StudentSerializer.get_or_create_all KCourse u
               (ModelSerializer.default [] (v_courses vd)) s)
         (fun _ => ret s)) db1.
Proof. reflexivity. Qed.

(** The only exception of the resolution loop. *)
Lemma get_or_create_all_error k u ts student db db' e :
  StudentSerializer.get_or_create_all k u ts student db = (db', Err e) ->
  e = MultipleObjectsReturned.
Proof.
  revert db. induction ts as [|t ts IH]; intros db; simpl; [discriminate|].
  unfold bind at 1. rewrite get_or_create_run.
  destruct (matching k u t db) as [|l0 [|l1 rest]]; cbv beta iota zeta;
    try unfold bind at 1.
  - match goal with |- context [ORM.add k ?a ?b ?d] =>
      destruct (add_run k a b d) as (db2 & Hadd & _) end.
    rewrite Hadd. apply IH.
  - match goal with |- context [ORM.add k ?a ?b ?d] =>
      destruct (add_run k a b d) as (db2 & Hadd & _) end.
    rewrite Hadd. apply IH.
  - intros H; now injection H as _ <-.
Qed.

Lemma get_or_create_all_outcome k u ts student db :
  exists db',
    students db' = students db /\ next_student_id db' = next_student_id db /\
    (StudentSerializer.get_or_create_all k u ts student db = (db', Ok tt) \/
     StudentSerializer.get_or_create_all k u ts student db =
       (db', Err MultipleObjectsReturned) /\ ~ unambiguous k u ts db).
Proof.
  destruct (StudentSerializer.get_or_create_all k u ts student db) as [db' r] eqn:H.
  exists db'. destruct (get_or_create_all_frame _ _ _ _ _ H) as ((Hs & Hn & _) & _).
  split; [exact Hs|]. split; [exact Hn|].
  destruct r as [[]|e]; [now left|right].
  rewrite (get_or_create_all_error _ _ _ _ _ H) in *. split; [reflexivity|].
  intros Hun. destruct (get_or_create_all_spec student Hun) as (db2 & new & Hrun & _).
  congruence.
Qed.

Lemma filter_all {A} (p : A -> bool) (l : list A) :
  (forall x, In x l -> p x = true) -> filter p l = l.
Proof.
  induction l as [|a l IH]; simpl; intros H; [reflexivity|].
  rewrite (H a) by now left. f_equal. apply IH. auto.
Qed.

Lemma set_links_same k db : set_links k (links k db) db = db.
Proof. now destruct k, db. Qed.

Lemma clear_noop k sid db :
  (forall r, In r (links k db) -> fst r <> sid) -> ORM.clear k sid db = (db, Ok tt).
Proof.
  intros H. rewrite clear_run. f_equal. rewrite filter_all; [apply set_links_same|].
  intros r Hr. apply negb_true_iff, Z.eqb_neq. now apply H.
Qed.

(** In a state with the integrity no association row names the next
    primary key. *)
Lemma no_links_of_next k db r :
  wf db -> In r (links k db) -> fst r <> next_student_id db.
Proof.
  intros (_ & Hseq & Hk) Hr. destruct (Hk k) as (_ & Hlinks).
  destruct (Hlinks r Hr) as (s & _ & Hs & _ & Hid & _).
  apply Hseq in Hs. lia.
Qed.

Lemma unambiguous_labels k u ts db db' :
  labels k db' = labels k db -> unambiguous k u ts db -> unambiguous k u ts db'.
Proof. intros Hl H t Ht. unfold matching. rewrite Hl. now apply H. Qed.

Lemma replace_labels_fresh k u ts s db :
  (forall r, In r (links k db) -> fst r <> s_id s) ->
  replace_labels k u (Some ts) s db = StudentSerializer.get_or_create_all k u ts s db.
Proof. intros H. unfold replace_labels, bind. now rewrite clear_noop. Qed.

Lemma serializer_create_ok u vd db :
  wf db ->
  unambiguous KTag u (ModelSerializer.default [] (v_tags vd)) db ->
  unambiguous KCourse u (ModelSerializer.default [] (v_courses vd)) db ->
  exists db',
    StudentSerializer.create u (ModelSerializer.with_user u vd) db
      = (db', Ok (created_student u vd db)) /\
    students db' = students db ++ [created_student u vd db] /\
    next_student_id db' = next_student_id db + 1 /\
    forall k,
      replaced k u (Some (ModelSerializer.default [] (v_labels k vd)))
        (next_student_id db) db db'.
Proof.
  intros Hwf Ht Hc. rewrite serializer_create_run. cbv zeta.
  set (s := created_student u vd db).
  set (db1 := set_next_student_id _ _).
  assert (Hno1 : forall k r, In r (links k db1) -> fst r <> s_id s).
  { intros k r Hr. apply (@no_links_of_next k db r Hwf). now destruct k. }
  assert (Ht1 : unambiguous KTag u (ModelSerializer.default [] (Some (ModelSerializer.default [] (v_tags vd)))) db1)
    by exact Ht.
  destruct (replace_labels_replaced _ s Ht1) as (db2 & H2 & R2 & F2).
  rewrite replace_labels_fresh in H2 by apply Hno1.
  assert (Hc2 : unambiguous KCourse u
                  (ModelSerializer.default [] (Some (ModelSerializer.default [] (v_courses vd)))) db2).
  { apply unambiguous_labels with (db := db); [|exact Hc].
    exact (frame_other_labels F2). }
  destruct (replace_labels_replaced _ s Hc2) as (db3 & H3 & R3 & F3).
  rewrite replace_labels_fresh in H3.
  2:{ intros r Hr. apply (Hno1 KCourse).
      now rewrite <- (frame_other_links F2 : links KCourse db2 = links KCourse db1). }
  exists db3. unfold bind, ret. rewrite H2, H3.
  split; [reflexivity|].
  split; [now rewrite (frame_students F3), (frame_students F2)|].
  split.
  { destruct F3 as (_ & -> & _). destruct F2 as (_ & -> & _). reflexivity. }
  intros [|].
  - eapply replaced_transport; [exact R2 | reflexivity | reflexivity | |].
    + exact (frame_other_labels F3).
    + exact (frame_other_links F3).
  - eapply replaced_transport; [exact R3 | | | reflexivity | reflexivity].
    + symmetry. exact (frame_other_labels F2).
    + symmetry. exact (frame_other_links F2).
Qed.

(** X6. Creating a Student.  In a state with the integrity, a POST whose
    body is valid and whose label titles are unambiguous is answered 201;
    one Student is appended, with the next primary key, the requester as
    owner (a [user] in the body plays no role) and no image; its labels of
    each kind are the requester's labels titled as in the body, the missing
    ones created; and reading the new Student back returns the
    representation the POST returned. *)
Theorem create_student_effect req body db vd :
  wf db ->
  ModelSerializer.to_internal_value StudentSerializer.Meta false body = Ok vd ->
  unambiguous KTag (user req) (ModelSerializer.default [] (v_tags vd)) db ->
  unambiguous KCourse (user req) (ModelSerializer.default [] (v_courses vd)) db ->
  let s := created_student (user req) vd db in
  exists db',
    StudentViewSet.dispatch POST Collection req body db =
      (db', Ok {| status := 201;
                  data := JObj (ModelSerializer.to_representation
                                  StudentSerializer.Meta db' s) |}) /\
    s_id s = next_student_id db /\ s_user s = user req /\ s_image s = None /\
    students db' = students db ++ [s] /\
    next_student_id db' = next_student_id db + 1 /\
    (forall k,
       replaced k (user req) (Some (ModelSerializer.default [] (v_labels k vd)))
         (s_id s) db db') /\
    forall req' body',
      user req' = user req ->
      Python.truthy (QueryDict_get "tags" (query_params req')) = false ->
      Python.truthy (QueryDict_get "courses" (query_params req')) = false ->
      StudentViewSet.dispatch GET (Detail (s_id s)) req' body' db' =
        (db', Ok {| status := 200;
                    data := JObj (ModelSerializer.to_representation
                                    StudentSerializer.Meta db' s) |}).
Proof.
  intros Hwf Hvd Ht Hc s.
  destruct (@serializer_create_ok (user req) vd db Hwf Ht Hc) as (db' & Hrun & Hst & Hn & Hrep).
  assert (Hdisp : StudentViewSet.dispatch POST Collection req body db =
                  (db', Ok {| status := 201;
                              data := JObj (ModelSerializer.to_representation
                                              StudentSerializer.Meta db' s) |})).
  { change (StudentViewSet.dispatch POST Collection req body db)
      with (StudentViewSet.create req body db).
    now rewrite student_create_run, Hvd, Hrun. }
  exists db'. split; [exact Hdisp|].
  split; [reflexivity|]. split; [reflexivity|].
  split. { apply to_internal_value_student in Hvd as (_ & Hi & _). unfold s. simpl. now rewrite Hi. }
  split; [exact Hst|]. split; [exact Hn|]. split; [exact Hrep|].
  intros req' body' Hu Hft Hfc.
  assert (Hwf' : wf db').
  { pose proof (@student_dispatch_wf POST Collection req body db Hwf) as H.
    now rewrite Hdisp in H. }
  change (StudentViewSet.dispatch GET (Detail (s_id s)) req' body' db')
    with (StudentViewSet.retrieve req' (s_id s) db').
  rewrite student_retrieve_run.
  rewrite (@student_get_object_owned req' db' s); auto.
  - now apply wf_pk_unique.
  - rewrite Hst. apply in_or_app. right. now left.
Qed.

Lemma create_student_effect_witness :
  let req := request_of 1 [] in
  let body := student_body "Dana" (Some ["Lunch"; "Supper"]) None in
  let vd := {| v_user := None; v_name := Some "Dana"; v_email := Some "sample@sample.com";
               v_address := Some "Sample Street"; v_birthday := Some "01/01/2001";
               v_link := None; v_image := None;
               v_tags := Some ["Lunch"; "Supper"]; v_courses := None |} in
  let s := created_student (user req) vd sample_db in
  exists db',
    StudentViewSet.dispatch POST Collection req body sample_db =
      (db', Ok {| status := 201;
                  data := JObj (ModelSerializer.to_representation
                                  StudentSerializer.Meta db' s) |}) /\
    s_id s = next_student_id sample_db /\ s_user s = user req /\ s_image s = None /\
    students db' = students sample_db ++ [s] /\
    next_student_id db' = next_student_id sample_db + 1 /\
    (forall k,
       replaced k (user req) (Some (ModelSerializer.default [] (v_labels k vd)))
         (s_id s) sample_db db') /\
    forall req' body',
      user req' = user req ->
      Python.truthy (QueryDict_get "tags" (query_params req')) = false ->
      Python.truthy (QueryDict_get "courses" (query_params req')) = false ->
      StudentViewSet.dispatch GET (Detail (s_id s)) req' body' db' =
        (db', Ok {| status := 200;
                    data := JObj (ModelSerializer.to_representation
                                    StudentSerializer.Meta db' s) |}).
Proof.
  intros req body vd.
  apply (@create_student_effect req body sample_db vd).
  - exact wf_sample_db.
  - reflexivity.
  - intros t _. apply titles_unique_sample_db.
  - intros t _. apply titles_unique_sample_db.
Defined.

(** X7. A create is not atomic.  When the body is valid but one of its
    titles names several labels of the requester, the POST fails with
    [MultipleObjectsReturned] (a 500 response), and the Student row it
    inserted before resolving the labels stays in the table. *)
Theorem create_student_ambiguous_title req body db vd :
  ModelSerializer.to_internal_value StudentSerializer.Meta false body = Ok vd ->
  ~ (unambiguous KTag (user req) (ModelSerializer.default [] (v_tags vd)) db /\
     unambiguous KCourse (user req) (ModelSerializer.default [] (v_courses vd)) db) ->
  exists db',
    StudentViewSet.dispatch POST Collection req body db =
      (db', Err MultipleObjectsReturned) /\
    status_code MultipleObjectsReturned = 500 /\
    students db' = students db ++ [created_student (user req) vd db].
Proof.
  intros Hvd Hamb.
  change (StudentViewSet.dispatch POST Collection req body db)
    with (StudentViewSet.create req body db).
  rewrite student_create_run, Hvd, serializer_create_run. cbv zeta.
  set (s := created_student (user req) vd db).
  set (db1 := set_next_student_id _ _).
  unfold bind at 1.
  destruct (get_or_create_all_outcome KTag (user req)
              (ModelSerializer.default [] (v_tags vd)) s db1)
    as (db2 & Hs2 & _ & [H2 | (H2 & Hn2)]); rewrite H2.
  - pose proof (get_or_create_all_Ok_unambiguous _ _ _ _ _ H2) as Hu1.
    destruct (get_or_create_all_frame _ _ _ _ _ H2) as (F2 & _).
    unfold bind at 1.
    destruct (get_or_create_all_outcome KCourse (user req)
                (ModelSerializer.default [] (v_courses vd)) s db2)
      as (db3 & Hs3 & _ & [H3 | (H3 & Hn3)]); rewrite H3.
    + exfalso. apply Hamb. split; [exact Hu1|].
      pose proof (get_or_create_all_Ok_unambiguous _ _ _ _ _ H3) as Hu2.
      apply unambiguous_labels with (db := db2); [|exact Hu2].
      symmetry. exact (frame_other_labels F2).
    + exists db3. split; [reflexivity|]. split; [reflexivity|].
      now rewrite Hs3, Hs2.
  - exists db2. split; [reflexivity|]. split; [reflexivity|]. exact Hs2.
Qed.

Lemma create_student_ambiguous_title_witness :
  exists db',
    StudentViewSet.dispatch POST Collection (request_of 1 [])
      (student_body "Second" (Some ["Thai"]) None) db_two_thai =
      (db', Err MultipleObjectsReturned) /\
    status_code MultipleObjectsReturned = 500 /\
    students db' =
      students db_two_thai ++
      [created_student 1
         {| v_user := None; v_name := Some "Second"; v_email := Some "sample@sample.com";
            v_address := Some "Sample Street"; v_birthday := Some "01/01/2001";
            v_link := None; v_image := None; v_tags := Some ["Thai"]; v_courses := None |}
         db_two_thai].
Proof.
  apply (@create_student_ambiguous_title (request_of 1 [])
           (student_body "Second" (Some ["Thai"]) None) db_two_thai).
  - reflexivity.
  - intros (H & _). specialize (H "Thai" (or_introl eq_refl)).
    vm_compute in H. lia.
Defined.

(** X8. Deleting a Student.  A DELETE of a Student the request can see is
    answered 204; every row with that primary key leaves the Student table
    and every association row of it leaves the two association tables; the
    other rows and all labels stay; afterwards no request gets that
    Student. *)
Theorem destroy_student_effect req pk body db s :
  StudentViewSet.get_object req pk db = Ok s ->
  exists db',
    StudentViewSet.dispatch DELETE (Detail pk) req body db =
      (db', Ok {| status := 204; data := JNull |}) /\
    (forall x, In x (students db') <-> In x (students db) /\ s_id x <> pk) /\
    next_student_id db' = next_student_id db /\
    (forall k,
       labels k db' = labels k db /\ next_label_id k db' = next_label_id k db /\
       forall r, In r (links k db') <-> In r (links k db) /\ fst r <> pk) /\
    forall req' x, StudentViewSet.get_object req' pk db' <> Ok x.
Proof.
  intros Hobj. pose proof (student_get_object_Ok _ _ _ Hobj) as (Hin & Hu & Hid).
  change (StudentViewSet.dispatch DELETE (Detail pk) req body db)
    with (StudentViewSet.destroy req pk db).
  rewrite student_destroy_run, Hobj.
  eexists. split; [reflexivity|].
  assert (Hne : forall a : Z, negb (a =? s_id s) = true <-> a <> pk).
  { intros a. rewrite Hid, negb_true_iff. apply Z.eqb_neq. }
  split; [|split; [reflexivity|split]].
  - intros x. simpl. rewrite filter_In. now rewrite Hne.
  - intros k. split; [now destruct k|]. split; [now destruct k|].
    intros r. destruct k; simpl; rewrite filter_In; now rewrite Hne.
  - intros req' x Hx. apply student_get_object_Ok in Hx as (Hx & _ & Hidx).
    simpl in Hx. apply filter_In in Hx as (_ & Hx). apply Hne in Hx. contradiction.
Qed.

Lemma destroy_student_effect_witness :
  exists db',
    StudentViewSet.dispatch DELETE (Detail 1) (request_of 1 []) no_body sample_db =
      (db', Ok {| status := 204; data := JNull |}) /\
    (forall x, In x (students db') <-> In x (students sample_db) /\ s_id x <> 1) /\
    next_student_id db' = next_student_id sample_db /\
    (forall k,
       labels k db' = labels k sample_db /\
       next_label_id k db' = next_label_id k sample_db /\
       forall r, In r (links k db') <-> In r (links k sample_db) /\ fst r <> 1) /\
    forall req' x, StudentViewSet.get_object req' 1 db' <> Ok x.
Proof.
  apply (@destroy_student_effect (request_of 1 []) 1 no_body sample_db anna).
  reflexivity.
Defined.

Lemma image_to_internal_value body :
  ModelSerializer.to_internal_value StudentImageSerializer.Meta false body =
  match d_image body with
  | Some (Valid image) =>
      Ok {| v_user := None; v_name := None; v_email := None; v_address := None;
            v_birthday := None; v_link := None; v_image := Some image;
            v_tags := None; v_courses := None |}
  | _ => Err (ValidationError ["image"])
  end.
Proof.
  unfold ModelSerializer.to_internal_value, ModelSerializer.run_field. simpl.
  destruct (d_image body) as [[image|]|]; reflexivity.
Qed.

(** X9. Uploading an image.  For a Student the request can see: a body
    whose [image] is valid is answered 200 with the keys [id] and [image];
    the image of that Student is replaced and nothing else changes,
    whatever else the body holds.  A body whose [image] is absent or
    invalid is answered 400 and the store is not touched. *)
Theorem upload_image_effect req pk body db s :
  StudentViewSet.get_object req pk db = Ok s ->
  match d_image body with
  | Some (Valid image) =>
      exists db',
        StudentViewSet.dispatch POST (UploadImage pk) req body db =
          (db', Ok {| status := 200;
                      data := JObj [("id", JInt pk); ("image", image_json image)] |}) /\
        students db' =
          map (fun x => if s_id x =? pk then with_image s image else x) (students db) /\
        next_student_id db' = next_student_id db /\
        forall k,
          labels k db' = labels k db /\ links k db' = links k db /\
          next_label_id k db' = next_label_id k db
  | _ =>
      StudentViewSet.dispatch POST (UploadImage pk) req body db =
        (db, Ok {| status := 400; data := errors_json ["image"] |})
  end.
Proof.
  intros Hobj. pose proof (student_get_object_Ok _ _ _ Hobj) as (Hin & Hu & Hid).
  change (StudentViewSet.dispatch POST (UploadImage pk) req body db)
    with (StudentViewSet.upload_image req pk body db).
  rewrite student_upload_run, Hobj, image_to_internal_value.
  destruct (d_image body) as [[image|]|]; try reflexivity.
  cbv zeta.
  change (ModelSerializer.setattrs s _) with (with_image s image).
  exists (fst (ORM.save_student (with_image s image) db)). split; [|split; [|split]].
  - unfold ModelSerializer.to_representation. simpl. now rewrite Hid.
  - simpl. now rewrite Hid.
  - reflexivity.
  - intros k. now destruct k.
Qed.

Lemma upload_image_effect_witness :
  match d_image patch_owner_image_name with
  | Some (Valid image) =>
      exists db',
        StudentViewSet.dispatch POST (UploadImage 1) (request_of 1 [])
          patch_owner_image_name sample_db =
          (db', Ok {| status := 200;
                      data := JObj [("id", JInt 1); ("image", image_json image)] |}) /\
        students db' =
          map (fun x => if s_id x =? 1 then with_image anna image else x)
            (students sample_db) /\
        next_student_id db' = next_student_id sample_db /\
        forall k,
          labels k db' = labels k sample_db /\ links k db' = links k sample_db /\
          next_label_id k db' = next_label_id k sample_db
  | _ =>
      StudentViewSet.dispatch POST (UploadImage 1) (request_of 1 [])
        patch_owner_image_name sample_db =
        (sample_db, Ok {| status := 400; data := errors_json ["image"] |})
  end.
Proof.
  apply (@upload_image_effect (request_of 1 []) 1 patch_owner_image_name sample_db anna).
  reflexivity.
Defined.

(** ** The actions of a label viewset, one by one *)

Lemma label_to_internal_value_cases k partial body :
  ModelSerializer.label_to_internal_value (BaseStudentAttrViewSet.serializer_class k)
    partial body =
  match lu_title body with
  | Some (Valid t) => Ok (Some t)
  | Some Invalid => Err (ValidationError ["title"])
  | None => if partial then Ok None else Err (ValidationError ["title"])
  end.
Proof.
  unfold ModelSerializer.label_to_internal_value, ModelSerializer.run_field.
  destruct k, (lu_title body) as [[t|]|], partial; reflexivity.
Qed.

Lemma with_title_same x : with_title x (l_title x) = x.
Proof. now destruct x. Qed.

Lemma labels_after_save k inst db :
  labels k (fst (ORM.save_label k inst db)) =
  map (fun l => if l_id l =? l_id inst then inst else l) (labels k db).
Proof. now destruct k. Qed.

Lemma save_label_frame k inst db :
  frame k db (fst (ORM.save_label k inst db)) /\
  links k (fst (ORM.save_label k inst db)) = links k db /\
  next_label_id k (fst (ORM.save_label k inst db)) = next_label_id k db.
Proof. destruct k; repeat split. Qed.

(** X10. Renaming a label.  For a label the request can see, in a state
    with the integrity: a body with a valid title is answered 200, with PUT
    and with PATCH; the title of that label is replaced, its id and owner
    stay, and nothing else changes (an [id] or [user] in the body plays no
    role).  An invalid title, or a PUT without title, is refused by
    validation and nothing is written; a PATCH without title changes
    nothing. *)
Theorem update_label_effect k (partial : bool) req pk body db x :
  wf db ->
  BaseStudentAttrViewSet.get_object k req pk db = Ok x ->
  let m := if partial then PATCH else PUT in
  match lu_title body, partial with
  | Some (Valid t), _ =>
      exists db',
        BaseStudentAttrViewSet.dispatch k m (Detail pk) req body db =
          (db', Ok {| status := 200;
                      data := ModelSerializer.label_representation (with_title x t) |}) /\
        labels k db' =
          map (fun l => if l_id l =? pk then with_title x t else l) (labels k db) /\
        links k db' = links k db /\ next_label_id k db' = next_label_id k db /\
        frame k db db'
  | None, true =>
      exists db',
        BaseStudentAttrViewSet.dispatch k m (Detail pk) req body db =
          (db', Ok {| status := 200; data := ModelSerializer.label_representation x |}) /\
        labels k db' = labels k db /\
        links k db' = links k db /\ next_label_id k db' = next_label_id k db /\
        frame k db db'
  | _, _ =>
      BaseStudentAttrViewSet.dispatch k m (Detail pk) req body db =
        (db, Err (ValidationError ["title"]))
  end.
Proof.
  intros Hwf Hobj m. pose proof (label_get_object_Ok _ _ _ _ Hobj) as (Hin & Hu & Hid).
  assert (Hd : BaseStudentAttrViewSet.dispatch k m (Detail pk) req body db =
               BaseStudentAttrViewSet.update k partial req pk body db)
    by (now destruct partial).
  rewrite Hd, label_update_run, Hobj, label_to_internal_value_cases.
  destruct (lu_title body) as [[t|]|]; [| now destruct partial |].
  - assert (Hgo : exists db',
        (let x' := with_title x (ModelSerializer.default (l_title x) (Some t)) in
         (fst (ORM.save_label k x' db),
          Ok {| status := 200; data := ModelSerializer.label_representation x' |})) =
        (db', Ok {| status := 200;
                    data := ModelSerializer.label_representation (with_title x t) |}) /\
        labels k db' =
          map (fun l => if l_id l =? pk then with_title x t else l) (labels k db) /\
        links k db' = links k db /\ next_label_id k db' = next_label_id k db /\
        frame k db db').
    { cbv zeta. simpl ModelSerializer.default. eexists. split; [reflexivity|].
      rewrite labels_after_save. simpl l_id. rewrite Hid.
      split; [reflexivity|].
      destruct (save_label_frame k (with_title x t) db) as (Hf & Hl & Hn). auto. }
    now destruct partial.
  - destruct partial; [|reflexivity].
    cbv zeta. simpl ModelSerializer.default. rewrite with_title_same.
    eexists. split; [reflexivity|].
    destruct (save_label_frame k x db) as (Hf & Hl & Hn).
    split; [|auto]. rewrite labels_after_save.
    rewrite <- (map_id (labels k db)) at 2. apply map_ext_in. intros l Hl'.
    destruct (Z.eqb_spec (l_id l) (l_id x)) as [Heq|]; [|reflexivity].
    symmetry. now apply (@labels_unique k db l x).
Qed.

Lemma update_label_effect_witness :
  let body := {| lu_id := Some 9; lu_user := Some 2; lu_title := Some (Valid "Brunch") |} in
  let x := {| l_id := 4; l_title := "Lunch"; l_user := 1 |} in
  let m := if true then PATCH else PUT in
  match lu_title body, true with
  | Some (Valid t), _ =>
      exists db',
        BaseStudentAttrViewSet.dispatch KTag m (Detail 4) (request_of 1 []) body sample_db =
          (db', Ok {| status := 200;
                      data := ModelSerializer.label_representation (with_title x t) |}) /\
        labels KTag db' =
          map (fun l => if l_id l =? 4 then with_title x t else l) (labels KTag sample_db) /\
        links KTag db' = links KTag sample_db /\
        next_label_id KTag db' = next_label_id KTag sample_db /\
        frame KTag sample_db db'
  | None, true =>
      exists db',
        BaseStudentAttrViewSet.dispatch KTag m (Detail 4) (request_of 1 []) body sample_db =
          (db', Ok {| status := 200; data := ModelSerializer.label_representation x |}) /\
        labels KTag db' = labels KTag sample_db /\
        links KTag db' = links KTag sample_db /\
        next_label_id KTag db' = next_label_id KTag sample_db /\
        frame KTag sample_db db'
  | _, _ =>
      BaseStudentAttrViewSet.dispatch KTag m (Detail 4) (request_of 1 []) body sample_db =
        (sample_db, Err (ValidationError ["title"]))
  end.
Proof.
  intros body x.
  apply (@update_label_effect KTag true (request_of 1 []) 4 body sample_db x).
  - exact wf_sample_db.
  - reflexivity.
Defined.

(** X11. Deleting a label.  A DELETE of a label the request can see is
    answered 204; every row with that primary key leaves the label table
    and every association row naming it leaves the association table of
    its kind; everything else stays, so no Student lists it any more. *)
Theorem destroy_label_effect k req pk body db x :
  BaseStudentAttrViewSet.get_object k req pk db = Ok x ->
  exists db',
    BaseStudentAttrViewSet.dispatch k DELETE (Detail pk) req body db =
      (db', Ok {| status := 204; data := JNull |}) /\
    (forall l, In l (labels k db') <-> In l (labels k db) /\ l_id l <> pk) /\
    (forall r, In r (links k db') <-> In r (links k db) /\ snd r <> pk) /\
    next_label_id k db' = next_label_id k db /\
    frame k db db' /\
    forall sid l, In l (ORM.related k sid db') -> l_id l <> pk.
Proof.
  intros Hobj. pose proof (label_get_object_Ok _ _ _ _ Hobj) as (Hin & Hu & Hid).
  change (BaseStudentAttrViewSet.dispatch k DELETE (Detail pk) req body db)
    with (BaseStudentAttrViewSet.destroy k req pk db).
  rewrite label_destroy_run, Hobj.
  eexists. split; [reflexivity|].
  assert (Hne : forall a : Z, negb (a =? l_id x) = true <-> a <> pk).
  { intros a. rewrite Hid, negb_true_iff. apply Z.eqb_neq. }
  assert (Hlab : forall l, In l (labels k (fst (ORM.delete_label k x db))) <->
                           In l (labels k db) /\ l_id l <> pk).
  { intros l. destruct k; simpl; rewrite filter_In; now rewrite Hne. }
  split; [exact Hlab|]. split; [|split; [now destruct k|split]].
  - intros r. destruct k; simpl; rewrite filter_In; now rewrite Hne.
  - destruct k; repeat split.
  - intros sid l Hl. unfold ORM.related in Hl. apply filter_In in Hl as (Hl & _).
    now apply Hlab in Hl.
Qed.

Lemma destroy_label_effect_witness :
  exists db',
    BaseStudentAttrViewSet.dispatch KTag DELETE (Detail 2) (request_of 1 []) no_label_body
      sample_db = (db', Ok {| status := 204; data := JNull |}) /\
    (forall l, In l (labels KTag db') <-> In l (labels KTag sample_db) /\ l_id l <> 2) /\
    (forall r, In r (links KTag db') <-> In r (links KTag sample_db) /\ snd r <> 2) /\
    next_label_id KTag db' = next_label_id KTag sample_db /\
    frame KTag sample_db db' /\
    forall sid l, In l (ORM.related KTag sid db') -> l_id l <> 2.
Proof.
  apply (@destroy_label_effect KTag (request_of 1 []) 2 no_label_body sample_db
           {| l_id := 2; l_title := "Dessert"; l_user := 1 |}).
  reflexivity.
Defined.

Lemma two_in_filter {A} (p : A -> bool) (l : list A) (a b : A) :
  In a l -> In b l -> a <> b -> p a = true -> p b = true ->
  (2 <= List.length (filter p l))%nat.
Proof.
  intros Ha Hb Hne Hpa Hpb.
  assert (Hnd : NoDup [a; b]).
  { constructor; [intros [H | []]; congruence|]. constructor; [intros []|constructor]. }
  apply (NoDup_incl_length Hnd).
  intros y [<- | [<- | []]]; apply filter_In; auto.
Qed.

Lemma get_or_create_ambiguous k u t db :
  (2 <= List.length (matching k u t db))%nat ->
  ORM.get_or_create k u t db = (db, Err MultipleObjectsReturned).
Proof.
  intros H. rewrite get_or_create_run.
  destruct (matching k u t db) as [|l0 [|l1 rest]]; simpl in H; try lia. reflexivity.
Qed.

(** X12. Nothing keeps the titles of an owner apart.  Renaming a label
    to the title of another label of the same owner is accepted with 200;
    from then on the title names two labels, and every resolution of that
    title for this owner (a create or an update of a Student naming it)
    fails with [MultipleObjectsReturned]. *)
Theorem rename_to_existing_title k partial req pk body db x twin t :
  wf db ->
  BaseStudentAttrViewSet.get_object k req pk db = Ok x ->
  lu_title body = Some (Valid t) ->
  In twin (labels k db) -> l_user twin = user req -> l_title twin = t -> l_id twin <> pk ->
  exists db' resp,
    BaseStudentAttrViewSet.update k partial req pk body db = (db', Ok resp) /\
    status resp = 200 /\
    ~ unambiguous k (user req) [t] db' /\
    forall student rest,
      StudentSerializer.get_or_create_all k (user req) (t :: rest) student db' =
        (db', Err MultipleObjectsReturned).
Proof.
  intros Hwf Hobj Hbody Htwin Htu Htt Htid.
  pose proof (label_get_object_Ok _ _ _ _ Hobj) as (Hin & Hu & Hid).
  rewrite label_update_run, Hobj, label_to_internal_value_cases, Hbody.
  cbv zeta. simpl ModelSerializer.default.
  eexists. eexists. split; [reflexivity|]. split; [reflexivity|].
  set (db' := fst (ORM.save_label k (with_title x t) db)).
  assert (Hlab : labels k db' =
                 map (fun l => if l_id l =? pk then with_title x t else l) (labels k db)).
  { unfold db'. rewrite labels_after_save. simpl l_id. now rewrite Hid. }
  assert (Htwo : (2 <= List.length (matching k (user req) t db'))%nat).
  { unfold matching, matching_in. rewrite Hlab.
    apply two_in_filter with (a := twin) (b := with_title x t).
    - apply in_map_iff. exists twin. split; [|exact Htwin].
      destruct (Z.eqb_spec (l_id twin) pk); [contradiction | reflexivity].
    - apply in_map_iff. exists x. split; [|exact Hin].
      now rewrite Hid, Z.eqb_refl.
    - intros Heq. apply Htid. rewrite Heq. exact Hid.
    - rewrite Htu, Htt, Z.eqb_refl, String.eqb_refl. reflexivity.
    - simpl. rewrite Hu, Z.eqb_refl, String.eqb_refl. reflexivity. }
  split.
  - intros Hun. specialize (Hun t (or_introl eq_refl)). lia.
  - intros student rest. simpl. unfold bind at 1.
    now rewrite get_or_create_ambiguous.
Qed.

Lemma rename_to_existing_title_witness :
  exists db' resp,
    BaseStudentAttrViewSet.update KTag true (request_of 1 []) 2
      {| lu_id := None; lu_user := None; lu_title := Some (Valid "Vegan") |} sample_db
      = (db', Ok resp) /\
    status resp = 200 /\
    ~ unambiguous KTag (user (request_of 1 [])) ["Vegan"] db' /\
    forall student rest,
      StudentSerializer.get_or_create_all KTag (user (request_of 1 [])) ("Vegan" :: rest)
        student db' = (db', Err MultipleObjectsReturned).
Proof.
  apply (@rename_to_existing_title KTag true (request_of 1 []) 2
           {| lu_id := None; lu_user := None; lu_title := Some (Valid "Vegan") |}
           sample_db {| l_id := 2; l_title := "Dessert"; l_user := 1 |}
           {| l_id := 1; l_title := "Vegan"; l_user := 1 |} "Vegan").
  - exact wf_sample_db.
  - reflexivity.
  - reflexivity.
  - simpl. auto.
  - reflexivity.
  - reflexivity.
  - simpl. lia.
Defined.

(** ** Requests that fail *)

Lemma to_internal_value_error m partial body e :
  ModelSerializer.to_internal_value m partial body = Err e ->
  exists errs, e = ValidationError errs.
Proof.
  unfold ModelSerializer.to_internal_value.
  destruct (ModelSerializer.run_field _ _ _ "user" _) as [e0 vuser].
  destruct (ModelSerializer.run_field _ _ _ "name" _) as [e1 vname].
  destruct (ModelSerializer.run_field _ _ _ "email" _) as [e2 vemail].
  destruct (ModelSerializer.run_field _ _ _ "address" _) as [e3 vaddress].
  destruct (ModelSerializer.run_field _ _ _ "birthday" _) as [e4 vbirthday].
  destruct (ModelSerializer.run_field _ _ _ "link" _) as [e5 vlink].
  destruct (ModelSerializer.run_field _ _ _ "image" _) as [e6 vimage].
  destruct (ModelSerializer.run_field _ _ _ "tags" _) as [e7 vtags].
  destruct (ModelSerializer.run_field _ _ _ "courses" _) as [e8 vcourses].
  destruct (e0 ++ e1 ++ e2 ++ e3 ++ e4 ++ e5 ++ e6 ++ e7 ++ e8); [discriminate|].
  intros H; injection H as <-. eauto.
Qed.

Lemma get_student_error pk qs e :
  ORM.get_student pk qs = Err e -> e = Http404 \/ e = MultipleObjectsReturned.
Proof.
  unfold ORM.get_student. destruct (filter _ qs) as [|s [|s' l]]; intros H;
    try discriminate; injection H as <-; auto.
Qed.

Lemma get_label_error pk qs e :
  ORM.get_label pk qs = Err e -> e = Http404 \/ e = MultipleObjectsReturned.
Proof.
  unfold ORM.get_label. destruct (filter _ qs) as [|s [|s' l]]; intros H;
    try discriminate; injection H as <-; auto.
Qed.

Lemma student_get_object_error req pk db e :
  StudentViewSet.get_object req pk db = Err e -> e <> IntegrityError.
Proof.
  unfold StudentViewSet.get_object.
  destruct (StudentViewSet.get_queryset req db) as [l|e'] eqn:Hq; simpl.
  - intros H. apply get_student_error in H as [-> | ->]; discriminate.
  - intros H; injection H as <-. apply student_get_queryset_error in Hq as ->. discriminate.
Qed.

Lemma label_get_object_error k req pk db e :
  BaseStudentAttrViewSet.get_object k req pk db = Err e -> e <> IntegrityError.
Proof.
  unfold BaseStudentAttrViewSet.get_object.
  destruct (BaseStudentAttrViewSet.get_queryset k req db) as [l|e'] eqn:Hq; simpl.
  - intros H. apply get_label_error in H as [-> | ->]; discriminate.
  - intros H; injection H as <-. apply label_get_queryset_error in Hq as ->. discriminate.
Qed.

Lemma replace_labels_error k u o instance db db' e :
  replace_labels k u o instance db = (db', Err e) -> e = MultipleObjectsReturned.
Proof.
  destruct o as [ts|]; simpl; [|discriminate].
  unfold bind. rewrite clear_run. apply get_or_create_all_error.
Qed.

Lemma serializer_update_error u instance vd db db' e :
  StudentSerializer.update u instance vd db = (db', Err e) -> e = MultipleObjectsReturned.
Proof.
  rewrite serializer_update_unfold. unfold bind, ret.
  destruct (replace_labels KTag u (v_tags vd) instance db) as [db1 [[]|e1]] eqn:H1.
  - destruct (replace_labels KCourse u (v_courses vd) instance db1) as [db2 [[]|e2]] eqn:H2.
    + rewrite save_student_run. discriminate.
    + intros H; injection H as _ <-. eapply replace_labels_error; eassumption.
  - intros H; injection H as _ <-. eapply replace_labels_error; eassumption.
Qed.

Lemma serializer_create_error u vd db db' e :
  StudentSerializer.create u (ModelSerializer.with_user u vd) db = (db', Err e) ->
  e = MultipleObjectsReturned.
Proof.
  rewrite serializer_create_run. cbv zeta. unfold bind, ret.
  match goal with |- context [StudentSerializer.get_or_create_all KTag u ?ts ?s ?d] =>
    destruct (StudentSerializer.get_or_create_all KTag u ts s d) as [db1 [[]|e1]] eqn:H1 end.
  - match goal with |- context [StudentSerializer.get_or_create_all KCourse u ?ts ?s ?d] =>
      destruct (StudentSerializer.get_or_create_all KCourse u ts s d)
        as [db2 [[]|e2]] eqn:H2 end.
    + discriminate.
    + intros H; injection H as _ <-. eapply get_or_create_all_error; eassumption.
  - intros H; injection H as _ <-. eapply get_or_create_all_error; eassumption.
Qed.

(** How a request can end: without a write and without [IntegrityError];
    or with a 2xx response to a method other than GET; or with
    [MultipleObjectsReturned]. *)
Lemma handle_outcome e m p req sbody lbody db :
  let out := handle e m p req sbody lbody db in
  (fst out = db /\
   (forall err, snd out = Err err -> err <> IntegrityError) /\
   (forall resp, snd out = Ok resp -> status resp = 400 \/ m = GET)) \/
  (m <> GET /\ exists resp, snd out = Ok resp /\ status resp <> 400) \/
  (m <> GET /\ snd out = Err MultipleObjectsReturned).
Proof.
  cbv zeta.
  assert (Hquiet : forall (err : Error),
            err <> IntegrityError ->
            (db = db /\
             (forall err', @Err Response err = Err err' -> err' <> IntegrityError) /\
             (forall resp, @Err Response err = Ok resp -> status resp = 400 \/ m = GET))).
  { intros err Hne. split; [reflexivity|]. split; [|discriminate].
    intros err' H; injection H as <-. exact Hne. }
  destruct e as [|k]; simpl.
  - unfold StudentViewSet.dispatch.
    destruct p as [|pk|pk], m; simpl;
      try (left; apply Hquiet; discriminate).
    + rewrite student_list_run. simpl. left. split; [reflexivity|].
      destruct (StudentViewSet.get_queryset req db) as [l|err] eqn:Hq.
      * split; [discriminate|]. auto.
      * split; [|discriminate]. intros err' H; injection H as <-.
        apply student_get_queryset_error in Hq as ->. discriminate.
    + rewrite student_create_run.
      destruct (ModelSerializer.to_internal_value _ _ _) as [vd|err] eqn:Hvd.
      * destruct (StudentSerializer.create _ _ db) as [db' [s|err]] eqn:Hc; simpl.
        -- right. left. split; [discriminate|]. eexists. split; [reflexivity|]. simpl. lia.
        -- right. right. split; [discriminate|].
           now rewrite (serializer_create_error _ _ _ Hc).
      * left. apply to_internal_value_error in Hvd as (errs & ->). apply Hquiet. discriminate.
    + rewrite student_retrieve_run. simpl. left. split; [reflexivity|].
      destruct (StudentViewSet.get_object req pk db) as [s|err] eqn:Hq.
      * split; [discriminate|]. auto.
      * split; [|discriminate]. intros err' H; injection H as <-.
        now apply student_get_object_error in Hq.
    + rewrite student_update_run.
      destruct (StudentViewSet.get_object req pk db) as [s|err] eqn:Hq;
        [|left; apply Hquiet; now apply student_get_object_error in Hq].
      destruct (ModelSerializer.to_internal_value _ _ _) as [vd|err] eqn:Hvd;
        [|left; apply to_internal_value_error in Hvd as (errs & ->);
          apply Hquiet; discriminate].
      destruct (StudentSerializer.update _ _ _ db) as [db' [s'|err]] eqn:Hc; simpl.
      * right. left. split; [discriminate|]. eexists. split; [reflexivity|]. simpl. lia.
      * right. right. split; [discriminate|].
        now rewrite (serializer_update_error _ _ _ _ Hc).
    + rewrite student_update_run.
      destruct (StudentViewSet.get_object req pk db) as [s|err] eqn:Hq;
        [|left; apply Hquiet; now apply student_get_object_error in Hq].
      destruct (ModelSerializer.to_internal_value _ _ _) as [vd|err] eqn:Hvd;
        [|left; apply to_internal_value_error in Hvd as (errs & ->);
          apply Hquiet; discriminate].
      destruct (StudentSerializer.update _ _ _ db) as [db' [s'|err]] eqn:Hc; simpl.
      * right. left. split; [discriminate|]. eexists. split; [reflexivity|]. simpl. lia.
      * right. right. split; [discriminate|].
        now rewrite (serializer_update_error _ _ _ _ Hc).
    + rewrite student_destroy_run.
      destruct (StudentViewSet.get_object req pk db) as [s|err] eqn:Hq;
        [|left; apply Hquiet; now apply student_get_object_error in Hq].
      right. left. split; [discriminate|]. eexists. split; [reflexivity|]. simpl. lia.
    + rewrite student_upload_run.
      destruct (StudentViewSet.get_object req pk db) as [s|err] eqn:Hq;
        [|left; apply Hquiet; now apply student_get_object_error in Hq].
      destruct (ModelSerializer.to_internal_value _ _ _) as [vd|err] eqn:Hvd.
      * right. left. split; [discriminate|]. eexists. split; [reflexivity|]. simpl. lia.
      * apply to_internal_value_error in Hvd as (errs & ->). left.
        split; [reflexivity|]. split; [discriminate|].
        intros resp H; injection H as <-. now left.
  - unfold BaseStudentAttrViewSet.dispatch.
    destruct p as [|pk|pk], m; simpl;
      try (left; apply Hquiet; discriminate).
    + rewrite label_list_run. simpl. left. split; [reflexivity|].
      destruct (BaseStudentAttrViewSet.get_queryset k req db) as [l|err] eqn:Hq.
      * split; [discriminate|]. auto.
      * split; [|discriminate]. intros err' H; injection H as <-.
        apply label_get_queryset_error in Hq as ->. discriminate.
    + rewrite label_update_run.
      destruct (BaseStudentAttrViewSet.get_object k req pk db) as [x|err] eqn:Hq;
        [|left; apply Hquiet; now apply label_get_object_error in Hq].
      rewrite label_to_internal_value_cases.
      destruct (lu_title lbody) as [[t|]|];
        try (left; apply Hquiet; discriminate).
      right. left. split; [discriminate|]. eexists. split; [reflexivity|]. simpl. lia.
    + rewrite label_update_run.
      destruct (BaseStudentAttrViewSet.get_object k req pk db) as [x|err] eqn:Hq;
        [|left; apply Hquiet; now apply label_get_object_error in Hq].
      rewrite label_to_internal_value_cases.
      destruct (lu_title lbody) as [[t|]|];
        try (left; apply Hquiet; discriminate);
        right; left; (split; [discriminate|]); eexists; (split; [reflexivity|]); simpl; lia.
    + rewrite label_destroy_run.
      destruct (BaseStudentAttrViewSet.get_object k req pk db) as [x|err] eqn:Hq;
        [|left; apply Hquiet; now apply label_get_object_error in Hq].
      right. left. split; [discriminate|]. eexists. split; [reflexivity|]. simpl. lia.
Qed.

(** X13. A request that fails writes nothing, with one exception.  A
    GET never writes.  A request answered 400, or ended by an exception
    other than [MultipleObjectsReturned] (a 404, a 405, a validation error,
    a [ValueError]), leaves the store exactly as it was.  And no request
    fails on the owner column: [IntegrityError] is never raised. *)
Theorem failed_requests_write_nothing e m p req sbody lbody db :
  let out := handle e m p req sbody lbody db in
  (m = GET -> fst out = db) /\
  (forall err, snd out = Err err -> err <> MultipleObjectsReturned -> fst out = db) /\
  (forall resp, snd out = Ok resp -> status resp = 400 -> fst out = db) /\
  (forall err, snd out = Err err -> err <> IntegrityError).
Proof.
  cbv zeta.
  destruct (handle_outcome e m p req sbody lbody db)
    as [(Hdb & Herr & Hresp) | [(Hm & resp & Hr & Hst) | (Hm & Hmor)]].
  - repeat split; auto.
  - repeat split.
    + intros ->. contradiction.
    + intros err H. congruence.
    + intros resp' H Hs. congruence.
    + intros err H. congruence.
  - repeat split.
    + intros ->. contradiction.
    + intros err H Hne. congruence.
    + intros resp H. congruence.
    + intros err H. rewrite Hmor in H. injection H as <-. discriminate.
Qed.

(** ** The object of a detail route *)

(** X14. The detail routes of a Student work on the filtered list.  With
    a unique primary key and well-formed filters, [get_object] returns the
    Student with the given primary key exactly when the requester owns it
    and it passes the [tags] and [courses] filters of the request.  When
    no such Student exists, be it the requester's own Student hidden by a
    filter, every detail action is answered 404 and nothing is written. *)
Theorem detail_routes_use_the_filtered_list req db pk ft fc :
  pk_unique db ->
  parsed_filter (QueryDict_get "tags" (query_params req)) = Ok ft ->
  parsed_filter (QueryDict_get "courses" (query_params req)) = Ok fc ->
  (forall s,
     StudentViewSet.get_object req pk db = Ok s <->
     In s (students db) /\ s_id s = pk /\ s_user s = user req /\
     passes KTag ft db s /\ passes KCourse fc db s) /\
  ((forall s, In s (students db) -> s_id s = pk -> s_user s = user req ->
      ~ (passes KTag ft db s /\ passes KCourse fc db s)) ->
   forall m body,
     m <> POST ->
     StudentViewSet.dispatch m (Detail pk) req body db = (db, Err Http404) /\
     StudentViewSet.dispatch POST (UploadImage pk) req body db = (db, Err Http404)).
Proof.
  intros Hpk Hft Hfc.
  destruct (student_get_queryset_spec req db Hft Hfc) as (l & Hq & Hnd & _ & Hmem).
  assert (Hobj : StudentViewSet.get_object req pk db = ORM.get_student pk l).
  { unfold StudentViewSet.get_object. now rewrite Hq. }
  split.
  - intros s. rewrite Hobj. split.
    + intros H. apply get_student_Ok in H as (Hin & Hid).
      apply Hmem in Hin. tauto.
    + intros (Hin & Hid & Hu & Ht & Hc).
      apply get_student_unique; auto.
      * apply Hmem. auto.
      * intros x Hx Hxid. apply Hmem in Hx as (Hx & _).
        apply (@pk_unique_inj db x s); congruence.
  - intros Hnone m body Hm.
    assert (H404 : StudentViewSet.get_object req pk db = Err Http404).
    { rewrite Hobj. apply get_student_none. intros s Hs Hid.
      apply Hmem in Hs as (Hs & Hu & Hp). now apply (Hnone s). }
    destruct (student_detail_fail req pk db body H404) as (Hr & Hu & Hd & Hup).
    split; [|exact Hup].
    destruct m; try exact Hr; try exact Hd; try apply Hu. contradiction.
Qed.

Lemma detail_routes_use_the_filtered_list_witness :
  (forall s,
     StudentViewSet.get_object (request_of 1 [("tags", "3")]) 1 sample_db = Ok s <->
     In s (students sample_db) /\ s_id s = 1 /\ s_user s = 1 /\
     passes KTag (Some [3]) sample_db s /\ passes KCourse None sample_db s) /\
  ((forall s, In s (students sample_db) -> s_id s = 1 -> s_user s = 1 ->
      ~ (passes KTag (Some [3]) sample_db s /\ passes KCourse None sample_db s)) ->
   forall m body,
     m <> POST ->
     StudentViewSet.dispatch m (Detail 1) (request_of 1 [("tags", "3")]) body sample_db =
       (sample_db, Err Http404) /\
     StudentViewSet.dispatch POST (UploadImage 1) (request_of 1 [("tags", "3")]) body
       sample_db = (sample_db, Err Http404)).
Proof.
  apply (@detail_routes_use_the_filtered_list (request_of 1 [("tags", "3")]) sample_db 1
           (Some [3]) None).
  - exact pk_unique_sample_db.
  - reflexivity.
  - reflexivity.
Defined.

(** Anna is the requester's own Student, and tag 3 hides her. *)
Example own_student_hidden_by_filter :
  StudentViewSet.dispatch GET (Detail 1) (request_of 1 []) no_body sample_db <>
    (sample_db, Err Http404) /\
  StudentViewSet.dispatch GET (Detail 1) (request_of 1 [("tags", "3")]) no_body sample_db =
    (sample_db, Err Http404) /\
  StudentViewSet.dispatch DELETE (Detail 1) (request_of 1 [("tags", "3")]) no_body sample_db =
    (sample_db, Err Http404).
Proof. split; [discriminate|]. split; reflexivity. Qed.


Lemma get_or_create_all_noop k u ts student db :
  (forall t, In t ts ->
     exists l, matching k u t db = [l] /\ In (s_id student, l_id l) (links k db)) ->
  StudentSerializer.get_or_create_all k u ts student db = (db, Ok tt).
Proof.
  induction ts as [|t ts IH]; intros H; simpl; [reflexivity|].
  destruct (H t (or_introl eq_refl)) as (l & Hm & Hl).
  unfold bind at 1. rewrite get_or_create_run, Hm. cbv beta iota.
  unfold bind at 1, ORM.add, modify. simpl fst.
  assert (Hex : existsb (fun r => (fst r =? s_id student) && (snd r =? l_id l)) (links k db)
                = true).
  { apply existsb_exists. exists (s_id student, l_id l). split; [exact Hl|].
    simpl. now rewrite !Z.eqb_refl. }
  rewrite Hex. apply IH. intros t' Ht'. apply H. now right.
Qed.

(** X16. Resolving labels is idempotent.  After the titles [ts] have
    been resolved for a Student, resolving them again for that Student
    finds every label and every association row in place: it succeeds and
    leaves the store exactly as it is. *)
Theorem label_resolution_is_idempotent k u ts student db :
  unambiguous k u ts db ->
  let db1 := fst (StudentSerializer.get_or_create_all k u ts student db) in
  StudentSerializer.get_or_create_all k u ts student db1 = (db1, Ok tt).
Proof.
  intros Hun db1.
  destruct (label_resolution student Hun)
    as (db' & new & Hrun & _ & _ & _ & _ & Hold & Hnew & _).
  assert (Hdb : db1 = db') by (unfold db1; now rewrite Hrun).
  rewrite Hdb. apply get_or_create_all_noop. intros t Ht.
  destruct (matching k u t db) as [|l rest] eqn:Hm.
  - destruct (Hnew t Ht Hm) as (l & _ & Hm' & Hl). eauto.
  - destruct (Hold t l Ht) as (Hm' & Hl); [rewrite Hm; now left|]. eauto.
Qed.

Lemma label_resolution_is_idempotent_witness :
  let db1 := fst (StudentSerializer.get_or_create_all KTag 1 ["Lunch"; "Supper"] ben
                    sample_db) in
  StudentSerializer.get_or_create_all KTag 1 ["Lunch"; "Supper"] ben db1 = (db1, Ok tt).
Proof.
  apply (@label_resolution_is_idempotent KTag 1 ["Lunch"; "Supper"] ben sample_db).
  intros t _. apply titles_unique_sample_db.
Defined.

(** ** [_params_to_ints] *)

Lemma digit_char_spec d :
  0 <= d < 10 ->
  Python.is_digit (digit_char d) = true /\ Python.digit_value (digit_char d) = d.
Proof.
  intros H.
  assert (Hd : d = 0 \/ d = 1 \/ d = 2 \/ d = 3 \/ d = 4 \/ d = 5 \/ d = 6 \/ d = 7 \/
               d = 8 \/ d = 9) by lia.
  repeat (destruct Hd as [-> | Hd]; [split; reflexivity|]). subst. split; reflexivity.
Qed.

Lemma decimal_digits_all fuel n acc :
  0 <= n -> all_chars Python.is_digit acc = true ->
  all_chars Python.is_digit (decimal_digits fuel n acc) = true.
Proof.
  revert n acc. induction fuel as [|fuel IH]; intros n acc Hn Hacc; simpl; [exact Hacc|].
  assert (Hd : Python.is_digit (digit_char (n mod 10)) = true).
  { apply digit_char_spec. apply Z.mod_pos_bound. lia. }
  destruct (n <? 10).
  - simpl. now rewrite Hd.
  - apply IH; [apply Z.div_pos; lia|]. simpl. now rewrite Hd.
Qed.

Lemma digits_step c acc b r :
  Python.is_digit c = true ->
  Python.digits acc b (String c r) = Python.digits (10 * acc + Python.digit_value c) true r.
Proof. intros H. cbn [Python.digits]. now rewrite H. Qed.

Lemma decimal_digits_value fuel n acc :
  0 <= n < 10 ^ Z.of_nat (S fuel) ->
  Python.digits 0 false (decimal_digits (S fuel) n acc) = Python.digits n true acc.
Proof.
  revert n acc. induction fuel as [|fuel IH]; intros n acc Hn.
  - change (10 ^ Z.of_nat 1) with 10 in Hn.
    cbn [decimal_digits]. destruct (Z.ltb_spec n 10); [|lia].
    destruct (@digit_char_spec (n mod 10)) as (Hd & Hv); [apply Z.mod_pos_bound; lia|].
    rewrite digits_step, Hv by exact Hd. f_equal. rewrite Z.mod_small; lia.
  - change (decimal_digits (S (S fuel)) n acc)
      with (if n <? 10 then String (digit_char (n mod 10)) acc
            else decimal_digits (S fuel) (n / 10) (String (digit_char (n mod 10)) acc)).
    destruct (@digit_char_spec (n mod 10)) as (Hd & Hv); [apply Z.mod_pos_bound; lia|].
    destruct (Z.ltb_spec n 10).
    + rewrite digits_step, Hv by exact Hd. f_equal. rewrite Z.mod_small; lia.
    + rewrite IH.
      * rewrite digits_step, Hv by exact Hd. f_equal. pose proof (Z.div_mod n 10). lia.
      * split; [apply Z.div_pos; lia|].
        apply Z.div_lt_upper_bound; [lia|].
        replace (Z.of_nat (S (S fuel))) with (Z.succ (Z.of_nat (S fuel))) in Hn by lia.
        rewrite Z.pow_succ_r in Hn by lia. lia.
Qed.

Lemma log2_fuel n : 0 <= n -> n < 10 ^ Z.of_nat (S (Z.to_nat (Z.log2 n))).
Proof.
  intros Hn. destruct (Z.eq_dec n 0) as [-> | Hne]; [reflexivity|].
  assert (Hl : 0 <= Z.log2 n) by apply Z.log2_nonneg.
  replace (Z.of_nat (S (Z.to_nat (Z.log2 n)))) with (Z.succ (Z.log2 n)) by lia.
  destruct (Z.log2_spec n) as (_ & Hlt); [lia|].
  eapply Z.lt_le_trans; [exact Hlt|].
  apply Z.pow_le_mono_l. lia.
Qed.

Lemma lstrip_head c r : Python.is_space c = false -> Python.lstrip (String c r) = String c r.
Proof. intros H. simpl. now rewrite H. Qed.

Lemma rstrip_no_space s :
  all_chars (fun c => negb (Python.is_space c)) s = true -> Python.rstrip s = s.
Proof.
  induction s as [|c r IH]; simpl; [reflexivity|].
  intros H. apply andb_true_iff in H as (Hc & Hr). rewrite (IH Hr).
  apply negb_true_iff in Hc. rewrite Hc. now destruct r.
Qed.

Lemma strip_no_space s :
  all_chars (fun c => negb (Python.is_space c)) s = true -> Python.strip s = s.
Proof.
  intros H. unfold Python.strip.
  destruct s as [|c r]; [reflexivity|].
  pose proof H as H'. simpl in H'. apply andb_true_iff in H' as (Hc & _).
  apply negb_true_iff in Hc. rewrite lstrip_head by exact Hc.
  now apply rstrip_no_space.
Qed.

Lemma all_chars_impl (p q : ascii -> bool) s :
  (forall c, p c = true -> q c = true) -> all_chars p s = true -> all_chars q s = true.
Proof.
  intros Hpq. induction s as [|c r IH]; simpl; [reflexivity|].
  intros H. apply andb_true_iff in H as (Hc & Hr). now rewrite (Hpq c Hc), IH.
Qed.

Lemma digit_facts c :
  Python.is_digit c = true ->
  Python.is_space c = false /\ Ascii.eqb c ","%char = false /\
  c <> "+"%char /\ c <> "-"%char.
Proof.
  destruct c as [[] [] [] [] [] [] [] []]; try discriminate; intros _;
    repeat split; discriminate.
Qed.

Lemma int_digits s :
  s <> "" -> all_chars Python.is_digit s = true ->
  Python.int s = Python.digits 0 false s.
Proof.
  intros Hne Hall. unfold Python.int.
  rewrite strip_no_space.
  - destruct s as [|c r]; [contradiction|].
    simpl in Hall. apply andb_true_iff in Hall as (Hc & _).
    destruct (digit_facts c Hc) as (_ & _ & Hp & Hm).
    destruct c as [[] [] [] [] [] [] [] []]; try reflexivity; contradiction.
  - apply all_chars_impl with (p := Python.is_digit); [|exact Hall].
    intros c Hc. destruct (digit_facts c Hc) as (-> & _). reflexivity.
Qed.

Lemma decimal_digits_nonempty fuel n acc : decimal_digits (S fuel) n acc <> "".
Proof.
  revert n acc. induction fuel as [|fuel IH]; intros n acc.
  - simpl. destruct (n <? 10); discriminate.
  - change (decimal_digits (S (S fuel)) n acc)
      with (if n <? 10 then String (digit_char (n mod 10)) acc
            else decimal_digits (S fuel) (n / 10) (String (digit_char (n mod 10)) acc)).
    destruct (n <? 10); [discriminate | apply IH].
Qed.

Lemma int_decimal_nonneg n :
  0 <= n ->
  Python.int (decimal_digits (S (Z.to_nat (Z.log2 n))) n "") = Some n.
Proof.
  intros Hn. rewrite int_digits.
  - rewrite decimal_digits_value; [reflexivity|].
    split; [exact Hn | now apply log2_fuel].
  - apply decimal_digits_nonempty.
  - now apply decimal_digits_all.
Qed.

(** [int] reads back what [str] writes. *)
Lemma int_decimal n : Python.int (decimal n) = Some n.
Proof.
  unfold decimal. destruct (Z.ltb_spec n 0) as [Hneg|Hpos]; [|now apply int_decimal_nonneg].
  set (d := decimal_digits _ (- n) "").
  assert (Hall : all_chars Python.is_digit d = true)
    by (apply decimal_digits_all; [lia | reflexivity]).
  assert (Hd : Python.int d = Some (- n)) by (apply int_decimal_nonneg; lia).
  rewrite int_digits in Hd; [|apply decimal_digits_nonempty | exact Hall].
  unfold Python.int. rewrite strip_no_space.
  - rewrite Hd. simpl. f_equal. lia.
  - simpl. apply all_chars_impl with (p := Python.is_digit); [|exact Hall].
    intros c Hc. destruct (digit_facts c Hc) as (-> & _). reflexivity.
Qed.

Lemma decimal_no_comma n :
  all_chars (fun c => negb (Ascii.eqb c ","%char)) (decimal n) = true.
Proof.
  assert (H : forall s, all_chars Python.is_digit s = true ->
                        all_chars (fun c => negb (Ascii.eqb c ","%char)) s = true).
  { intros s. apply all_chars_impl. intros c Hc.
    destruct (digit_facts c Hc) as (_ & -> & _). reflexivity. }
  unfold decimal. destruct (Z.ltb_spec n 0).
  - cbn [all_chars]. apply andb_true_iff. split; [reflexivity|].
    apply H. apply decimal_digits_all; [lia | reflexivity].
  - apply H. apply decimal_digits_all; [lia | reflexivity].
Qed.

Lemma split_comma_nonempty s : Python.split_comma s <> [].
Proof.
  induction s as [|c r IH]; simpl; [discriminate|].
  destruct (Ascii.eqb c ","%char); [discriminate|].
  destruct (Python.split_comma r); [contradiction | discriminate].
Qed.

(** Splitting at a comma: the pieces before it, then the pieces after
    it. *)
Lemma split_comma_app a b :
  Python.split_comma (a ++ String "," b) = Python.split_comma a ++ Python.split_comma b.
Proof.
  induction a as [|c r IH]; [reflexivity|].
  change (String c r ++ String "," b)%string with (String c (r ++ String "," b)).
  simpl. rewrite IH.
  destruct (Ascii.eqb c ","%char); [reflexivity|].
  pose proof (split_comma_nonempty r) as Hne.
  destruct (Python.split_comma r) as [|h t]; [contradiction | reflexivity].
Qed.

Lemma split_comma_no_comma s :
  all_chars (fun c => negb (Ascii.eqb c ","%char)) s = true -> Python.split_comma s = [s].
Proof.
  induction s as [|c r IH]; simpl; [reflexivity|].
  intros H. apply andb_true_iff in H as (Hc & Hr). apply negb_true_iff in Hc.
  now rewrite Hc, (IH Hr).
Qed.

Lemma split_join_comma pieces :
  pieces <> [] ->
  Forall (fun s => all_chars (fun c => negb (Ascii.eqb c ","%char)) s = true) pieces ->
  Python.split_comma (join_comma pieces) = pieces.
Proof.
  induction pieces as [|a rest IH]; [contradiction|].
  intros _ Hall. inversion Hall as [|? ? Ha Hrest]; subst.
  destruct rest as [|b rest'].
  - simpl. now apply split_comma_no_comma.
  - change (join_comma (a :: b :: rest')) with (a ++ String "," (join_comma (b :: rest')))%string.
    rewrite split_comma_app, split_comma_no_comma by exact Ha.
    rewrite IH; [reflexivity | discriminate | exact Hrest].
Qed.

(** X17. The ids of a filter survive the round trip.  For every
    non-empty list of integers, the decimal numerals joined by commas are
    converted back to the list; as the value of [tags] or [courses] they
    are therefore the ids the list is filtered by.  The empty string alone
    is not convertible. *)
Theorem params_to_ints_round_trip ids :
  ids <> [] ->
  StudentViewSet._params_to_ints (join_comma (map decimal ids)) = Ok ids /\
  parsed_filter (Some (join_comma (map decimal ids))) = Ok (Some ids) /\
  StudentViewSet._params_to_ints "" = Err ValueError.
Proof.
  intros Hne.
  assert (Hrt : StudentViewSet._params_to_ints (join_comma (map decimal ids)) = Ok ids).
  { unfold StudentViewSet._params_to_ints. rewrite split_join_comma.
    - apply mapM_Ok_Forall2. clear Hne. induction ids as [|n ids IH]; constructor; auto.
      unfold int_or_ValueError. now rewrite int_decimal.
    - destruct ids; [contradiction | discriminate].
    - apply Forall_forall. intros s Hs. apply in_map_iff in Hs as (n & <- & _).
      apply decimal_no_comma. }
  split; [exact Hrt|]. split; [|reflexivity].
  apply parsed_filter_ids; [|exact Hrt].
  intros Hempty. rewrite Hempty in Hrt. discriminate.
Qed.

Lemma params_to_ints_round_trip_witness :
  StudentViewSet._params_to_ints (join_comma (map decimal [12; 7; -3])) = Ok [12; 7; -3] /\
  parsed_filter (Some (join_comma (map decimal [12; 7; -3]))) = Ok (Some [12; 7; -3]) /\
  StudentViewSet._params_to_ints "" = Err ValueError.
Proof.
  apply (@params_to_ints_round_trip [12; 7; -3]). discriminate.
Defined.

Example decimal_examples :
  decimal 0 = "0" /\ decimal 1205 = "1205" /\ decimal (-40) = "-40" /\
  join_comma (map decimal [12; 7; -3]) = "12,7,-3".
Proof. repeat split. Qed.

Lemma params_to_ints_empty_piece t :
  In "" (Python.split_comma t) -> StudentViewSet._params_to_ints t = Err ValueError.
Proof.
  intros H. apply mapM_Err.
  - intros x e. unfold int_or_ValueError. destruct (Python.int x); [discriminate|].
    intros Heq; now injection Heq as <-.
  - exists "". split; [exact H|]. exists ValueError. reflexivity.
Qed.

(** X18. A stray comma is fatal.  A filter value that ends with a comma,
    starts with one, or holds two in a row has an empty piece, which [int]
    rejects: the conversion raises [ValueError], and a Student list
    request with such a [tags] or [courses] value fails with it (a 500
    response) instead of ignoring the empty piece. *)
Theorem stray_comma_raises_ValueError (a b : string) :
  StudentViewSet._params_to_ints (a ++ ",") = Err ValueError /\
  StudentViewSet._params_to_ints ("," ++ a) = Err ValueError /\
  StudentViewSet._params_to_ints (a ++ ",," ++ b) = Err ValueError /\
  forall k req db t,
    QueryDict_get (param_name k) (query_params req) = Some t ->
    t = (a ++ ",")%string \/ t = ("," ++ a)%string \/ t = (a ++ ",," ++ b)%string ->
    StudentViewSet.list_ req db = (db, Err ValueError) /\ status_code ValueError = 500.
Proof.
  assert (H1 : In "" (Python.split_comma (a ++ ","))).
  { rewrite split_comma_app. apply in_or_app. right. now left. }
  assert (H2 : In "" (Python.split_comma ("," ++ a))) by now left.
  assert (H3 : In "" (Python.split_comma (a ++ ",," ++ b))).
  { change (a ++ ",," ++ b)%string with (a ++ String "," (String "," b))%string.
    rewrite split_comma_app. apply in_or_app. right. now left. }
  split; [now apply params_to_ints_empty_piece|].
  split; [now apply params_to_ints_empty_piece|].
  split; [now apply params_to_ints_empty_piece|].
  intros k req db t Hq Ht. split; [|reflexivity].
  assert (Hmal : malformed (Some t)).
  { exists t. split; [reflexivity|]. split.
    - destruct Ht as [-> | [-> | ->]]; destruct a; discriminate.
    - exists "". split; [|reflexivity]. destruct Ht as [-> | [-> | ->]]; assumption. }
  rewrite student_list_run.
  destruct (StudentViewSet.get_queryset req db) as [l|e] eqn:Hl.
  - exfalso. apply student_get_queryset_Ok in Hl as (ft & fc & Hft & Hfc).
    apply malformed_parsed in Hmal. destruct k; simpl in Hq; rewrite Hq in *; congruence.
  - now apply student_get_queryset_error in Hl as ->.
Qed.

Example trailing_comma_example :
  StudentViewSet.dispatch GET Collection (request_of 1 [("tags", "1,2,")]) no_body sample_db
  = (sample_db, Err ValueError).
Proof. reflexivity. Qed.

(** ** [student_image_file_path] *)






Lemma all_chars_app p a b :
  all_chars p (a ++ b) = all_chars p a && all_chars p b.
Proof.
  induction a as [|c r IH]; simpl; [reflexivity|]. now rewrite IH, andb_assoc.
Qed.





Example image_path_examples :
  student_image_file_path "1b9d6bcd-bbfd-4b2d-9b5d-ab8dfbbd4bed" "example.jpg" =
    "uploads/student/1b9d6bcd-bbfd-4b2d-9b5d-ab8dfbbd4bed.jpg" /\
  os_path.splitext "archive.tar.gz" = ("archive.tar", ".gz") /\
  os_path.splitext ".bashrc" = (".bashrc", "") /\
  os_path.splitext "dir.d/readme" = ("dir.d/readme", "") /\
  os_path.splitext "dir/..hidden.txt" = ("dir/..hidden", ".txt") /\
  os_path.join "uploads" ["/etc"; "passwd"] = "/etc/passwd".
Proof. repeat split. Qed.

(** ** [UserManager] *)

Lemma rfind_from_app c a b i :
  0 <= i ->
  all_chars (fun x => negb (Ascii.eqb x c)) b = true ->
  str.rfind_from c (a ++ String c b) i = i + Z.of_nat (String.length a).
Proof.
  intros Hi Hb.
  assert (Hnone : forall j, str.rfind_from c b j = -1).
  { clear Hi. induction b as [|x r IH]; intros j; [reflexivity|].
    simpl in Hb. apply andb_true_iff in Hb as (Hx & Hr). apply negb_true_iff in Hx.
    cbn [str.rfind_from]. cbv zeta. rewrite (IH Hr), Hx. reflexivity. }
  revert i Hi. induction a as [|x r IH]; intros i Hi.
  - cbn [append str.rfind_from String.length]. cbv zeta.
    rewrite Hnone, Ascii.eqb_refl. simpl. lia.
  - cbn [append str.rfind_from String.length]. cbv zeta.
    rewrite IH by lia. destruct (Z.leb_spec 0 (i + 1 + Z.of_nat (String.length r))); lia.
Qed.

Lemma substring_app_l a b : substring 0 (String.length a) (a ++ b) = a.
Proof.
  induction a as [|c r IH]; simpl; [now destruct b | now rewrite IH].
Qed.

Lemma substring_app_r a c b :
  substring (S (String.length a)) (String.length (a ++ String c b) - S (String.length a))
    (a ++ String c b) = b.
Proof.
  assert (H : forall s, substring 0 (String.length s) s = s)
    by (induction s as [|y s IHs]; simpl; [reflexivity | now rewrite IHs]).
  induction a as [|x r IH].
  - simpl. rewrite ?Nat.sub_0_r. apply H.
  - simpl in *. exact IH.
Qed.

Lemma lower_char_keeps (p : ascii -> bool) c :
  (forall n, (97 <= n <= 122)%N -> p (ascii_of_N n) = true) ->
  p c = true -> p (str.lower_char c) = true.
Proof.
  intros Hp Hc. unfold str.lower_char.
  destruct ((65 <=? N_of_ascii c) && (N_of_ascii c <=? 90))%N eqn:Hu; [|exact Hc].
  apply andb_true_iff in Hu as (H1 & H2). apply N.leb_le in H1, H2.
  apply Hp. lia.
Qed.

Lemma lower_all_chars (p : ascii -> bool) s :
  (forall n, (97 <= n <= 122)%N -> p (ascii_of_N n) = true) ->
  all_chars p s = true -> all_chars p (str.lower s) = true.
Proof.
  intros Hp. induction s as [|c r IH]; simpl; [reflexivity|].
  intros H. apply andb_true_iff in H as (Hc & Hr).
  now rewrite (lower_char_keeps p c Hp Hc), IH.
Qed.

Lemma letter_cases (p : ascii -> bool) :
  p "a"%char = true -> p "b"%char = true -> p "c"%char = true -> p "d"%char = true ->
  p "e"%char = true -> p "f"%char = true -> p "g"%char = true -> p "h"%char = true ->
  p "i"%char = true -> p "j"%char = true -> p "k"%char = true -> p "l"%char = true ->
  p "m"%char = true -> p "n"%char = true -> p "o"%char = true -> p "p"%char = true ->
  p "q"%char = true -> p "r"%char = true -> p "s"%char = true -> p "t"%char = true ->
  p "u"%char = true -> p "v"%char = true -> p "w"%char = true -> p "x"%char = true ->
  p "y"%char = true -> p "z"%char = true ->
  forall n, (97 <= n <= 122)%N -> p (ascii_of_N n) = true.
Proof.
  intros. 
  assert (Hn : (n = 97 \/ n = 98 \/ n = 99 \/ n = 100 \/ n = 101 \/ n = 102 \/ n = 103 \/
                n = 104 \/ n = 105 \/ n = 106 \/ n = 107 \/ n = 108 \/ n = 109 \/ n = 110 \/
                n = 111 \/ n = 112 \/ n = 113 \/ n = 114 \/ n = 115 \/ n = 116 \/ n = 117 \/
                n = 118 \/ n = 119 \/ n = 120 \/ n = 121 \/ n = 122)%N) by lia.
  repeat (destruct Hn as [-> | Hn]; [assumption|]). subst. assumption.
Qed.

Lemma lower_lower_char c : str.lower_char (str.lower_char c) = str.lower_char c.
Proof. destruct c as [[] [] [] [] [] [] [] []]; reflexivity. Qed.

Lemma lower_lower s : str.lower (str.lower s) = str.lower s.
Proof.
  induction s as [|c r IH]; simpl; [reflexivity|]. now rewrite lower_lower_char, IH.
Qed.

Lemma normalize_email_address email_name domain_part :
  all_chars (fun c => negb (Python.is_space c)) (email_name ++ String "@" domain_part) = true ->
  all_chars (fun c => negb (Ascii.eqb c "@"%char)) domain_part = true ->
  BaseUserManager.normalize_email (Some (email_name ++ String "@" domain_part)%string) =
  (email_name ++ String "@" (str.lower domain_part))%string.
Proof.
  intros Hsp Hat. unfold BaseUserManager.normalize_email. cbv zeta.
  rewrite strip_no_space by exact Hsp.
  unfold str.rfind. rewrite rfind_from_app by (try lia; exact Hat).
  rewrite Z.add_0_l, Nat2Z.id.
  destruct (Z.leb_spec 0 (Z.of_nat (String.length email_name))); [|lia].
  now rewrite substring_app_l, substring_app_r.
Qed.

Lemma lstrip_all_chars p s : all_chars p s = true -> all_chars p (Python.lstrip s) = true.
Proof.
  induction s as [|c r IH]; [reflexivity|]. intros H. cbn [Python.lstrip].
  destruct (Python.is_space c); [|exact H].
  simpl in H. apply andb_true_iff in H as (_ & Hr). now apply IH.
Qed.

Lemma rstrip_all_chars p s : all_chars p s = true -> all_chars p (Python.rstrip s) = true.
Proof.
  induction s as [|c r IH]; [reflexivity|]. intros H. cbn [Python.rstrip].
  simpl in H. apply andb_true_iff in H as (Hc & Hr). specialize (IH Hr).
  destruct (Python.rstrip r) as [|c' r'].
  - destruct (Python.is_space c); [reflexivity|]. simpl. now rewrite Hc.
  - cbn [all_chars] in *. now rewrite Hc.
Qed.

Lemma rfind_none c s :
  all_chars (fun x => negb (Ascii.eqb x c)) s = true -> str.rfind c s = -1.
Proof.
  unfold str.rfind. generalize 0. induction s as [|x r IH]; intros j H; [reflexivity|].
  simpl in H. apply andb_true_iff in H as (Hx & Hr). apply negb_true_iff in Hx.
  cbn [str.rfind_from]. cbv zeta. rewrite (IH _ Hr), Hx. reflexivity.
Qed.

(** X20. [normalize_email].  In an address without white space, the part
    after the last [@] is lowercased and the part before it is kept as it
    is, so normalizing again changes nothing and two addresses that differ
    only in the case of the domain normalize to the same text.  A text
    without [@] is returned unchanged. *)
Theorem normalize_email_lowers_the_domain email_name domain_part :
  all_chars (fun c => negb (Python.is_space c)) (email_name ++ String "@" domain_part) = true ->
  all_chars (fun c => negb (Ascii.eqb c "@"%char)) domain_part = true ->
  let normal := BaseUserManager.normalize_email (Some (email_name ++ String "@" domain_part)%string) in
  normal = (email_name ++ String "@" (str.lower domain_part))%string /\
  BaseUserManager.normalize_email (Some normal) = normal /\
  BaseUserManager.normalize_email (Some (email_name ++ String "@" (str.lower domain_part))%string)
    = normal /\
  forall text,
    all_chars (fun c => negb (Ascii.eqb c "@"%char)) text = true ->
    BaseUserManager.normalize_email (Some text) = text.
Proof.
  intros Hsp Hat normal.
  assert (Hn : normal = (email_name ++ String "@" (str.lower domain_part))%string)
    by now apply normalize_email_address.
  assert (Hsp' : all_chars (fun c => negb (Python.is_space c))
                   (email_name ++ String "@" (str.lower domain_part)) = true).
  { rewrite all_chars_app in *. apply andb_true_iff in Hsp as (Ha & Hb).
    rewrite Ha. cbn [all_chars] in *. apply andb_true_iff in Hb as (Hb0 & Hb).
    rewrite Hb0. apply lower_all_chars; [|exact Hb].
    apply (letter_cases (fun c => negb (Python.is_space c))); reflexivity. }
  assert (Hat' : all_chars (fun c => negb (Ascii.eqb c "@"%char)) (str.lower domain_part) = true).
  { apply lower_all_chars; [|exact Hat].
    apply (letter_cases (fun c => negb (Ascii.eqb c "@"%char))); reflexivity. }
  assert (Hagain : BaseUserManager.normalize_email
                     (Some (email_name ++ String "@" (str.lower domain_part))%string) = normal).
  { rewrite normalize_email_address by assumption. now rewrite lower_lower, Hn. }
  split; [exact Hn|]. split; [now rewrite Hn at 1|]. split; [exact Hagain|].
  intros text Htext. unfold BaseUserManager.normalize_email. cbv zeta.
  assert (Hstrip : all_chars (fun c => negb (Ascii.eqb c "@"%char)) (Python.strip text) = true)
    by (unfold Python.strip; now apply rstrip_all_chars, lstrip_all_chars).
  now rewrite rfind_none.
Qed.

Lemma normalize_email_lowers_the_domain_witness :
  let normal := BaseUserManager.normalize_email (Some ("Test.User" ++ String "@" "EXAMPLE.Com")%string) in
  normal = ("Test.User" ++ String "@" (str.lower "EXAMPLE.Com"))%string /\
  BaseUserManager.normalize_email (Some normal) = normal /\
  BaseUserManager.normalize_email (Some ("Test.User" ++ String "@" (str.lower "EXAMPLE.Com"))%string)
    = normal /\
  forall text,
    all_chars (fun c => negb (Ascii.eqb c "@"%char)) text = true ->
    BaseUserManager.normalize_email (Some text) = text.
Proof.
  apply (@normalize_email_lowers_the_domain "Test.User" "EXAMPLE.Com"); reflexivity.
Defined.

Example normalize_email_examples :
  BaseUserManager.normalize_email (Some "Test.User@EXAMPLE.Com") = "Test.User@example.com" /\
  BaseUserManager.normalize_email (Some "  a@b@C.ORG ") = "a@b@c.org" /\
  BaseUserManager.normalize_email (Some " NoAt ") = " NoAt " /\
  BaseUserManager.normalize_email None = "".
Proof. repeat split. Qed.

Lemma existsb_false {A} (p : A -> bool) (l : list A) :
  (forall x, In x l -> p x = false) -> existsb p l = false.
Proof.
  induction l as [|a l IH]; simpl; intros H; [reflexivity|].
  rewrite (H a) by now left. apply IH. auto.
Qed.

(** Saving again the instance that the last INSERT stored rewrites that
    row only. *)
Lemma save_update_last rows next (u u' : User) n :
  (forall r, In r rows -> UserManager.has_id n r = false) ->
  (forall r, In r rows -> u_email r <> u_email u') ->
  u_id u = Some n -> u_id u' = Some n ->
  UserManager.save u' {| user_rows := rows ++ [u]; next_user_id := next |} =
  ({| user_rows := rows ++ [u']; next_user_id := next |}, Ok u').
Proof.
  intros Hold Hnew Hu Hu'.
  assert (Hid : UserManager.has_id n u = true)
    by (unfold UserManager.has_id; rewrite Hu; apply Z.eqb_refl).
  assert (E1 : existsb (fun r => String.eqb (u_email r) (u_email u') &&
                                 negb (UserManager.has_id n r)) (rows ++ [u]) = false).
  { apply existsb_false. intros r Hr. apply in_app_or in Hr as [Hr | [<- | []]].
    - apply andb_false_iff. left. apply String.eqb_neq. now apply Hnew.
    - rewrite Hid. apply andb_false_r. }
  assert (E2 : existsb (UserManager.has_id n) (rows ++ [u]) = true).
  { apply existsb_exists. exists u. split; [|exact Hid]. apply in_or_app. right. now left. }
  assert (E3 : map (fun r => if UserManager.has_id n r then u' else r) (rows ++ [u]) =
               rows ++ [u']).
  { rewrite map_app. f_equal.
    - rewrite <- (map_id rows) at 2. apply map_ext_in. intros r Hr. now rewrite (Hold r Hr).
    - simpl. now rewrite Hid. }
  unfold UserManager.save. rewrite Hu'. cbn [user_rows next_user_id].
  now rewrite E1, E2, E3.
Qed.

(** X21. Creating users.  An empty or missing email is refused with
    [ValueError] before anything is stored.  The email is stored
    normalized, and normalized it must be new: otherwise the unique column
    refuses the row with [IntegrityError] and nothing is stored.  In a
    sound table, [create_user] appends one row with the next primary key,
    the hashed password and the defaults (active, not staff, not
    superuser, unless [extra_field] says otherwise); [create_superuser]
    appends the same row with [is_staff] and [is_superuser] set, and only
    that row: its second [save] rewrites the row just inserted.  Afterwards
    every email with the same normal form is taken. *)
Theorem create_superuser_effect (make_password : option string -> string)
    email password t :
  user_table_ok t ->
  let address := BaseUserManager.normalize_email email in
  (Python.truthy email = false ->
   (forall extra,
      UserManager.create_user make_password email password extra t = (t, Err ValueError)) /\
   UserManager.create_superuser make_password email password t = (t, Err ValueError)) /\
  (Python.truthy email = true ->
   (exists r, In r (user_rows t) /\ u_email r = address) ->
   (forall extra,
      UserManager.create_user make_password email password extra t
        = (t, Err IntegrityError)) /\
   UserManager.create_superuser make_password email password t = (t, Err IntegrityError)) /\
  (Python.truthy email = true ->
   (forall r, In r (user_rows t) -> u_email r <> address) ->
   let user :=
     {| u_id := Some (next_user_id t); u_email := address;
        u_password := make_password password; u_name := "";
        u_is_active := true; u_is_staff := false; u_is_superuser := false |} in
   let added (u : User) :=
     {| user_rows := user_rows t ++ [u]; next_user_id := next_user_id t + 1 |} in
   UserManager.create_user make_password email password no_extra_field t
     = (added user, Ok user) /\
   UserManager.create_superuser make_password email password t
     = (added (UserManager.as_superuser user), Ok (UserManager.as_superuser user)) /\
   user_table_ok (added (UserManager.as_superuser user)) /\
   forall email' password' extra,
     Python.truthy email' = true ->
     BaseUserManager.normalize_email email' = address ->
     UserManager.create_user make_password email' password' extra
       (added (UserManager.as_superuser user))
     = (added (UserManager.as_superuser user), Err IntegrityError)).
Proof.
  intros Hok address. split; [|split].
  - intros Hf. unfold UserManager.create_superuser, UserManager.create_user.
    rewrite Hf. split; reflexivity.
  - intros Ht (r & Hr & He).
    assert (Hex : existsb (fun r0 => String.eqb (u_email r0) address) (user_rows t) = true).
    { apply existsb_exists. exists r. split; [exact Hr|]. now apply String.eqb_eq. }
    assert (Hc : forall extra,
              UserManager.create_user make_password email password extra t
              = (t, Err IntegrityError)).
    { intros extra. unfold UserManager.create_user. rewrite Ht. cbv zeta.
      unfold UserManager.save. cbn [u_id UserManager.set_password UserManager.model u_email].
      fold address. now rewrite Hex. }
    split; [exact Hc|]. unfold UserManager.create_superuser. now rewrite Hc.
  - intros Ht Hnew user added.
    assert (Hex : existsb (fun r0 => String.eqb (u_email r0) address) (user_rows t) = false).
    { apply existsb_false. intros r Hr. apply String.eqb_neq. now apply Hnew. }
    assert (Hc : UserManager.create_user make_password email password no_extra_field t
                 = (added user, Ok user)).
    { unfold UserManager.create_user. rewrite Ht. cbv zeta.
      unfold UserManager.save. cbn [u_id UserManager.set_password UserManager.model u_email].
      fold address. rewrite Hex. reflexivity. }
    assert (Hold : forall r, In r (user_rows t) ->
                     UserManager.has_id (next_user_id t) r = false).
    { intros r Hr. destruct (Hok r Hr) as (id & Hid & Hlt).
      unfold UserManager.has_id. rewrite Hid. apply Z.eqb_neq. lia. }
    assert (Hs : UserManager.create_superuser make_password email password t
                 = (added (UserManager.as_superuser user),
                    Ok (UserManager.as_superuser user))).
    { unfold UserManager.create_superuser. rewrite Hc. unfold added.
      apply save_update_last with (n := next_user_id t); try reflexivity; assumption. }
    split; [exact Hc|]. split; [exact Hs|]. split.
    + intros r Hr. cbn [added user_rows next_user_id] in *.
      apply in_app_or in Hr as [Hr | [<- | []]].
      * destruct (Hok r Hr) as (id & Hid & Hlt). exists id. split; [exact Hid | lia].
      * exists (next_user_id t). split; [reflexivity | lia].
    + intros email' password' extra Ht' Hn'.
      unfold UserManager.create_user. rewrite Ht'. cbv zeta.
      unfold UserManager.save. cbn [u_id UserManager.set_password UserManager.model u_email].
      rewrite Hn'. cbn [added user_rows]. rewrite existsb_app. cbn [existsb].
      cbn [UserManager.as_superuser user u_email]. rewrite String.eqb_refl.
      now rewrite orb_true_r.
Qed.

Lemma create_superuser_effect_witness :
  let make_password (raw : option string) :=
    match raw with Some p => ("hash$" ++ p)%string | None => "!" end in
  let email := Some "Admin@Example.COM" in
  let password := Some "test123" in
  let t := {| user_rows := []; next_user_id := 1 |} in
  let address := BaseUserManager.normalize_email email in
  (Python.truthy email = false ->
   (forall extra,
      UserManager.create_user make_password email password extra t = (t, Err ValueError)) /\
   UserManager.create_superuser make_password email password t = (t, Err ValueError)) /\
  (Python.truthy email = true ->
   (exists r, In r (user_rows t) /\ u_email r = address) ->
   (forall extra,
      UserManager.create_user make_password email password extra t
        = (t, Err IntegrityError)) /\
   UserManager.create_superuser make_password email password t = (t, Err IntegrityError)) /\
  (Python.truthy email = true ->
   (forall r, In r (user_rows t) -> u_email r <> address) ->
   let user :=
     {| u_id := Some (next_user_id t); u_email := address;
        u_password := make_password password; u_name := "";
        u_is_active := true; u_is_staff := false; u_is_superuser := false |} in
   let added (u : User) :=
     {| user_rows := user_rows t ++ [u]; next_user_id := next_user_id t + 1 |} in
   UserManager.create_user make_password email password no_extra_field t
     = (added user, Ok user) /\
   UserManager.create_superuser make_password email password t
     = (added (UserManager.as_superuser user), Ok (UserManager.as_superuser user)) /\
   user_table_ok (added (UserManager.as_superuser user)) /\
   forall email' password' extra,
     Python.truthy email' = true ->
     BaseUserManager.normalize_email email' = address ->
     UserManager.create_user make_password email' password' extra
       (added (UserManager.as_superuser user))
     = (added (UserManager.as_superuser user), Err IntegrityError)).
Proof.
  intros make_password email password t.
  apply (@create_superuser_effect make_password email password t).
  intros r [].
Defined.

Example create_superuser_example :
  UserManager.create_superuser (fun _ => "!") (Some "Admin@Example.COM") (Some "test123")
    {| user_rows := []; next_user_id := 1 |} =
  ({| user_rows := [ {| u_id := Some 1; u_email := "Admin@example.com"; u_password := "!";
                        u_name := ""; u_is_active := true; u_is_staff := true;
                        u_is_superuser := true |} ];
      next_user_id := 2 |},
   Ok {| u_id := Some 1; u_email := "Admin@example.com"; u_password := "!";
         u_name := ""; u_is_active := true; u_is_staff := true; u_is_superuser := true |}).
Proof. reflexivity. Qed.
(** ** More edges of the requests *)

Lemma label_get_queryset_malformed k req db s :
  QueryDict_get "assigned_only" (query_params req) = Some s ->
  Python.int s = None ->
  BaseStudentAttrViewSet.get_queryset k req db = Err ValueError.
Proof.
  intros Hq Hs. unfold BaseStudentAttrViewSet.get_queryset, int_or_ValueError.
  now rewrite Hq, Hs.
Qed.

(** X22. [assigned_only] is read with [int], unguarded.  A value that
    [int] rejects makes every action of a label viewset that builds the
    queryset fail with [ValueError] (a 500 response) without a write: the
    list, the updates and the delete.  The empty value is such a value:
    unlike an empty [tags] or [courses], an empty [assigned_only] is not
    taken as absent. *)
Theorem malformed_assigned_only_raises_ValueError k req db s :
  QueryDict_get "assigned_only" (query_params req) = Some s ->
  Python.int s = None ->
  BaseStudentAttrViewSet.dispatch k GET Collection req no_label_body db
    = (db, Err ValueError) /\
  (forall pk body m,
     m = PUT \/ m = PATCH \/ m = DELETE ->
     BaseStudentAttrViewSet.dispatch k m (Detail pk) req body db = (db, Err ValueError)) /\
  status_code ValueError = 500 /\
  Python.int "" = None.
Proof.
  intros Hq Hs.
  pose proof (@label_get_queryset_malformed k req db s Hq Hs) as Hqs.
  split; [|split; [|split; reflexivity]].
  - change (BaseStudentAttrViewSet.dispatch k GET Collection req no_label_body db)
      with (BaseStudentAttrViewSet.list_ k req db).
    now rewrite label_list_run, Hqs.
  - intros pk body m Hm.
    assert (Hobj : BaseStudentAttrViewSet.get_object k req pk db = Err ValueError)
      by (unfold BaseStudentAttrViewSet.get_object; now rewrite Hqs).
    destruct (@label_detail_fail k req pk db ValueError body Hobj) as (Hu & Hd).
    destruct Hm as [-> | [-> | ->]]; [apply (Hu false) | apply (Hu true) | exact Hd].
Qed.

Lemma malformed_assigned_only_raises_ValueError_witness :
  BaseStudentAttrViewSet.dispatch KTag GET Collection (request_of 1 [("assigned_only", "")])
    no_label_body sample_db = (sample_db, Err ValueError) /\
  (forall pk body m,
     m = PUT \/ m = PATCH \/ m = DELETE ->
     BaseStudentAttrViewSet.dispatch KTag m (Detail pk)
       (request_of 1 [("assigned_only", "")]) body sample_db = (sample_db, Err ValueError)) /\
  status_code ValueError = 500 /\
  Python.int "" = None.
Proof.
  apply (@malformed_assigned_only_raises_ValueError KTag
           (request_of 1 [("assigned_only", "")]) sample_db "");
    reflexivity.
Defined.

Lemma setattrs_nothing s :
  ModelSerializer.setattrs s
    {| v_user := None; v_name := None; v_email := None; v_address := None;
       v_birthday := None; v_link := None; v_image := None; v_tags := None;
       v_courses := None |} = s.
Proof. now destruct s. Qed.

Lemma set_students_same db : set_students (students db) db = db.
Proof. now destruct db. Qed.

Lemma save_student_same db s :
  pk_unique db -> In s (students db) -> ORM.save_student s db = (db, Ok tt).
Proof.
  intros Hpk Hs.
  assert (Hmap : map (fun x => if s_id x =? s_id s then s else x) (students db) =
                 students db).
  { rewrite <- (map_id (students db)) at 2. apply map_ext_in. intros x Hx.
    destruct (Z.eqb_spec (s_id x) (s_id s)) as [Heq|]; [|reflexivity].
    symmetry. now apply (@pk_unique_inj db x s). }
  now rewrite save_student_run, Hmap, set_students_same.
Qed.

(** X23. A PATCH that names no field changes nothing.  When the body
    holds none of the writable fields of the Student serializer (it may
    hold [id], [user] or [image], which are not read), a PATCH of a Student
    the request can see is answered 200 with the Student as it is, and the
    store after the request is the store before it. *)
Theorem empty_patch_changes_nothing req pk body db s :
  pk_unique db ->
  StudentViewSet.get_object req pk db = Ok s ->
  ignore_unlisted body = no_body ->
  StudentViewSet.dispatch PATCH (Detail pk) req body db =
    (db, Ok {| status := 200;
               data := JObj (ModelSerializer.to_representation StudentSerializer.Meta db s) |}).
Proof.
  intros Hpk Hobj Hbody.
  pose proof (student_get_object_Ok _ _ _ Hobj) as (Hin & _).
  change (StudentViewSet.dispatch PATCH (Detail pk) req body db)
    with (StudentViewSet.update true req pk body db).
  rewrite student_update_run, Hobj, to_internal_value_ignores_unlisted, Hbody.
  change (ModelSerializer.to_internal_value StudentSerializer.Meta true no_body)
    with (Ok {| v_user := None; v_name := None; v_email := None; v_address := None;
                v_birthday := None; v_link := None; v_image := None; v_tags := None;
                v_courses := None |}).
  cbv beta iota.
  rewrite serializer_update_unfold. cbn [v_tags v_courses replace_labels].
  unfold bind, ret.
  change (StudentSerializer.pop_labels _)
    with {| v_user := None; v_name := None; v_email := None; v_address := None;
            v_birthday := None; v_link := None; v_image := @None (option string);
            v_tags := None; v_courses := None |}.
  rewrite setattrs_nothing, (@save_student_same db s Hpk Hin). reflexivity.
Qed.

Lemma empty_patch_changes_nothing_witness :
  StudentViewSet.dispatch PATCH (Detail 1) (request_of 1 [])
    {| d_id := Some 7; d_user := Some 2; d_name := None; d_email := None;
       d_address := None; d_birthday := None; d_link := None;
       d_image := Some (Valid (Some "uploads/student/x.jpg"));
       d_tags := None; d_courses := None |} sample_db =
    (sample_db,
     Ok {| status := 200;
           data := JObj (ModelSerializer.to_representation StudentSerializer.Meta
                           sample_db anna) |}).
Proof.
  apply (@empty_patch_changes_nothing (request_of 1 []) 1 _ sample_db anna).
  - exact pk_unique_sample_db.
  - reflexivity.
  - reflexivity.
Defined.

Lemma create_students req body db vd :
  ModelSerializer.to_internal_value StudentSerializer.Meta false body = Ok vd ->
  students (fst (StudentViewSet.dispatch POST Collection req body db)) =
  students db ++ [created_student (user req) vd db].
Proof.
  intros Hvd.
  change (StudentViewSet.dispatch POST Collection req body db)
    with (StudentViewSet.create req body db).
  rewrite student_create_run, Hvd, serializer_create_run. cbv zeta.
  set (s := created_student (user req) vd db).
  set (db1 := set_next_student_id _ _).
  unfold bind at 1.
  destruct (get_or_create_all_outcome KTag (user req)
              (ModelSerializer.default [] (v_tags vd)) s db1)
    as (db2 & Hs2 & _ & [H2 | (H2 & _)]); rewrite H2; [|exact Hs2].
  unfold bind at 1.
  destruct (get_or_create_all_outcome KCourse (user req)
              (ModelSerializer.default [] (v_courses vd)) s db2)
    as (db3 & Hs3 & _ & [H3 | (H3 & _)]); rewrite H3; simpl; now rewrite Hs3, Hs2.
Qed.

Lemma order_by_greatest (s : Student) (l acc : list Student) :
  (forall a, In a l -> ORM.id_desc a s = false) ->
  fold_right (ORM.insert ORM.id_desc) (s :: acc) l =
  s :: fold_right (ORM.insert ORM.id_desc) acc l.
Proof.
  induction l as [|a l IH]; intros H; [reflexivity|].
  simpl. rewrite IH by (intros x Hx; apply H; now right).
  simpl. now rewrite (H a (or_introl eq_refl)).
Qed.

Lemma unfiltered_queryset req db :
  Python.truthy (QueryDict_get "tags" (query_params req)) = false ->
  Python.truthy (QueryDict_get "courses" (query_params req)) = false ->
  StudentViewSet.get_queryset req db =
  Ok (ORM.distinct_students
        (ORM.order_by ORM.id_desc (ORM.filter_student_user (user req) (students db)))).
Proof.
  intros Ht Hc. rewrite student_get_queryset_unfold.
  now rewrite (parsed_filter_falsy _ Ht), (parsed_filter_falsy _ Hc).
Qed.

(** X24. A created Student heads the list.  In a state with the
    integrity, after a POST with a valid body (whether or not its labels
    could be resolved), the unfiltered Student list of the requester is the
    new Student followed by the list as it was before. *)
Theorem created_student_heads_the_list req body db vd req' :
  wf db ->
  ModelSerializer.to_internal_value StudentSerializer.Meta false body = Ok vd ->
  user req' = user req ->
  Python.truthy (QueryDict_get "tags" (query_params req')) = false ->
  Python.truthy (QueryDict_get "courses" (query_params req')) = false ->
  exists l,
    StudentViewSet.get_queryset req' db = Ok l /\
    StudentViewSet.get_queryset req' (fst (StudentViewSet.dispatch POST Collection req body db))
      = Ok (created_student (user req) vd db :: l).
Proof.
  intros (Hpk & Hseq & _) Hvd Hu Ht Hc.
  rewrite !unfiltered_queryset by assumption. eexists. split; [reflexivity|].
  rewrite (@create_students req body db vd Hvd).
  set (s := created_student (user req) vd db).
  unfold ORM.filter_student_user. rewrite filter_app. simpl.
  rewrite Hu, Z.eqb_refl.
  set (mine := filter (fun x => s_user x =? user req) (students db)).
  assert (Hlt : forall a, In a mine -> s_id a < s_id s).
  { intros a Ha. apply filter_In in Ha as (Ha & _). now apply Hseq. }
  unfold ORM.order_by. rewrite fold_right_app. simpl.
  rewrite order_by_greatest.
  2:{ intros a Ha. unfold ORM.id_desc. apply Z.leb_gt. now apply Hlt. }
  f_equal. unfold ORM.distinct_students. simpl.
  destruct (in_dec ORM.Student_eq_dec s _) as [Hin|]; [exfalso|reflexivity].
  apply (proj1 (@order_by_In Student ORM.id_desc mine s)) in Hin.
  apply Hlt in Hin. lia.
Qed.

Lemma created_student_heads_the_list_witness :
  exists l,
    StudentViewSet.get_queryset (request_of 1 []) sample_db = Ok l /\
    StudentViewSet.get_queryset (request_of 1 [])
      (fst (StudentViewSet.dispatch POST Collection (request_of 1 [])
              (student_body "Dana" (Some ["Lunch"; "Supper"]) None) sample_db))
      = Ok (created_student (user (request_of 1 []))
              {| v_user := None; v_name := Some "Dana"; v_email := Some "sample@sample.com";
                 v_address := Some "Sample Street"; v_birthday := Some "01/01/2001";
                 v_link := None; v_image := None;
                 v_tags := Some ["Lunch"; "Supper"]; v_courses := None |} sample_db :: l).
Proof.
  apply (@created_student_heads_the_list (request_of 1 [])
           (student_body "Dana" (Some ["Lunch"; "Supper"]) None) sample_db _ (request_of 1 []));
    try reflexivity.
  exact wf_sample_db.
Defined.

(** ** Validation of a Student body *)





Example validation_examples :
  ModelSerializer.to_internal_value StudentSerializer.Meta false no_body =
    Err (ValidationError ["name"; "email"; "address"; "birthday"]) /\
  ModelSerializer.to_internal_value StudentSerializer.Meta true no_body =
    Ok {| v_user := None; v_name := None; v_email := None; v_address := None;
          v_birthday := None; v_link := None; v_image := None; v_tags := None;
          v_courses := None |} /\
  ModelSerializer.to_internal_value StudentSerializer.Meta true
    {| d_id := None; d_user := None; d_name := None; d_email := None; d_address := None;
       d_birthday := None; d_link := None; d_image := None;
       d_tags := Some [ {| ld_id := None; ld_title := Invalid |} ]; d_courses := None |} =
    Err (ValidationError ["tags"]).
Proof. repeat split. Qed.

(** ** The columns an update writes *)

Lemma to_internal_value_columns partial body vd :
  ModelSerializer.to_internal_value StudentSerializer.Meta partial body = Ok vd ->
  forall s,
    ModelSerializer.setattrs s (StudentSerializer.pop_labels vd) =
    {| s_id := s_id s; s_user := s_user s;
       s_name := written (s_name s) (d_name body);
       s_email := written (s_email s) (d_email body);
       s_address := written (s_address s) (d_address body);
       s_birthday := written (s_birthday s) (d_birthday body);
       s_link := written (s_link s) (d_link body);
       s_image := s_image s |}.
Proof.
  unfold ModelSerializer.to_internal_value.
  destruct (ModelSerializer.run_field _ _ _ "user" _) as [e0 vuser] eqn:H0.
  destruct (ModelSerializer.run_field _ _ _ "name" _) as [e1 vname] eqn:H1.
  destruct (ModelSerializer.run_field _ _ _ "email" _) as [e2 vemail] eqn:H2.
  destruct (ModelSerializer.run_field _ _ _ "address" _) as [e3 vaddress] eqn:H3.
  destruct (ModelSerializer.run_field _ _ _ "birthday" _) as [e4 vbirthday] eqn:H4.
  destruct (ModelSerializer.run_field _ _ _ "link" _) as [e5 vlink] eqn:H5.
  destruct (ModelSerializer.run_field _ _ _ "image" _) as [e6 vimage] eqn:H6.
  destruct (ModelSerializer.run_field _ _ _ "tags" _) as [e7 vtags] eqn:H7.
  destruct (ModelSerializer.run_field _ _ _ "courses" _) as [e8 vcourses] eqn:H8.
  destruct (e0 ++ e1 ++ e2 ++ e3 ++ e4 ++ e5 ++ e6 ++ e7 ++ e8) eqn:He; [|discriminate].
  repeat (apply app_eq_nil in He; destruct He as [? He]).
  intros Hok; injection Hok as <-. intros s.
  apply run_field_no_error in H0, H1, H2, H3, H4, H5, H6; try assumption.
  destruct H0 as [H0 _], H1 as [H1 V1], H2 as [H2 V2], H3 as [H3 V3], H4 as [H4 V4],
    H5 as [H5 V5], H6 as [H6 _].
  simpl in H0, H1, H2, H3, H4, H5, H6. subst.
  unfold ModelSerializer.setattrs, written. simpl.
  destruct (d_name body) as [[?|]|], (d_email body) as [[?|]|],
    (d_address body) as [[?|]|], (d_birthday body) as [[?|]|],
    (d_link body) as [[?|]|]; reflexivity.
Qed.

(** X26. The columns an update writes.  With a unique primary key, a PUT
    or PATCH that succeeds is answered 200 and rewrites one row, that of
    the Student: each of [name], [email], [address], [birthday] and [link]
    takes the valid value of the body, or keeps its value when the body has
    none; the id, the owner and the image stay.  The response is the
    representation of the row as written, and reading the Student back
    returns it again. *)
Theorem update_student_columns (partial : bool) req pk body db s vd :
  pk_unique db ->
  StudentViewSet.get_object req pk db = Ok s ->
  ModelSerializer.to_internal_value StudentSerializer.Meta partial body = Ok vd ->
  unambiguous KTag (user req) (ModelSerializer.default [] (v_tags vd)) db ->
  unambiguous KCourse (user req) (ModelSerializer.default [] (v_courses vd)) db ->
  let s' :=
    {| s_id := s_id s; s_user := s_user s;
       s_name := written (s_name s) (d_name body);
       s_email := written (s_email s) (d_email body);
       s_address := written (s_address s) (d_address body);
       s_birthday := written (s_birthday s) (d_birthday body);
       s_link := written (s_link s) (d_link body);
       s_image := s_image s |} in
  exists db',
    StudentViewSet.dispatch (if partial then PATCH else PUT) (Detail pk) req body db =
      (db', Ok {| status := 200;
                  data := JObj (ModelSerializer.to_representation
                                  StudentSerializer.Meta db' s') |}) /\
    students db' = map (fun x => if s_id x =? pk then s' else x) (students db) /\
    forall req' body',
      user req' = user req ->
      Python.truthy (QueryDict_get "tags" (query_params req')) = false ->
      Python.truthy (QueryDict_get "courses" (query_params req')) = false ->
      StudentViewSet.dispatch GET (Detail pk) req' body' db' =
        (db', Ok {| status := 200;
                    data := JObj (ModelSerializer.to_representation
                                    StudentSerializer.Meta db' s') |}).
Proof.
  intros Hpk Hobj Hvd Ht Hc s'.
  pose proof (student_get_object_Ok _ _ _ Hobj) as (Hin & Hu & Hid).
  destruct (serializer_update_ok s vd Ht Hc) as (db' & Hupd & Hst & _).
  rewrite (to_internal_value_columns _ _ Hvd s) in Hupd, Hst. fold s' in Hupd, Hst.
  rewrite Hid in Hst.
  exists db'. split; [|split; [exact Hst|]].
  - replace (StudentViewSet.dispatch (if partial then PATCH else PUT) (Detail pk) req body db)
      with (StudentViewSet.update partial req pk body db) by (now destruct partial).
    now rewrite student_update_run, Hobj, Hvd, Hupd.
  - intros req' body' Hu' Hft Hfc.
    change (StudentViewSet.dispatch GET (Detail pk) req' body' db')
      with (StudentViewSet.retrieve req' pk db').
    rewrite student_retrieve_run.
    assert (Hids : map s_id (students db') = map s_id (students db)).
    { rewrite Hst, <- Hid. apply map_replace_proj; [|reflexivity].
      intros x Hx Hxid. now apply (@pk_unique_inj db x s). }
    rewrite <- Hid at 1.
    change (s_id s) with (s_id s') at 1.
    rewrite (@student_get_object_owned req' db' s'); auto.
    + unfold pk_unique. now rewrite Hids.
    + rewrite Hst. apply in_map_iff. exists s. split; [|exact Hin].
      now rewrite Hid, Z.eqb_refl.
    + simpl. congruence.
Qed.

Lemma update_student_columns_witness :
  let body := patch_owner_image_name in
  let vd := {| v_user := None; v_name := Some "New name"; v_email := None;
               v_address := None; v_birthday := None; v_link := None; v_image := None;
               v_tags := None; v_courses := None |} in
  let s' :=
    {| s_id := s_id anna; s_user := s_user anna;
       s_name := written (s_name anna) (d_name body);
       s_email := written (s_email anna) (d_email body);
       s_address := written (s_address anna) (d_address body);
       s_birthday := written (s_birthday anna) (d_birthday body);
       s_link := written (s_link anna) (d_link body);
       s_image := s_image anna |} in
  exists db',
    StudentViewSet.dispatch (if true then PATCH else PUT) (Detail 1) (request_of 1 []) body
      sample_db =
      (db', Ok {| status := 200;
                  data := JObj (ModelSerializer.to_representation
                                  StudentSerializer.Meta db' s') |}) /\
    students db' = map (fun x => if s_id x =? 1 then s' else x) (students sample_db) /\
    forall req' body',
      user req' = user (request_of 1 []) ->
      Python.truthy (QueryDict_get "tags" (query_params req')) = false ->
      Python.truthy (QueryDict_get "courses" (query_params req')) = false ->
      StudentViewSet.dispatch GET (Detail 1) req' body' db' =
        (db', Ok {| status := 200;
                    data := JObj (ModelSerializer.to_representation
                                    StudentSerializer.Meta db' s') |}).
Proof.
  intros body vd.
  apply (@update_student_columns true (request_of 1 []) 1 body sample_db anna vd).
  - exact pk_unique_sample_db.
  - reflexivity.
  - reflexivity.
  - intros t [].
  - intros t [].
Defined.
